(** * NSCLC_hoyoung: the image ingestion and normalisation pipeline

    A shallow embedding of [backend/services/image_processor.py]
    ([ImageProcessor]) and of the upload handler [analyze_image] of
    [backend/main.py], with the properties the specification states about
    them; then of [get_image_metadata], of the vision analyser
    ([backend/services/vision_analyzer.py]) and of the prompt manager
    ([backend/services/prompt_manager.py]), with further properties of the
    code.

    Conventions of the embedding:
    - Python [float] and NumPy [float64] values are IEEE-754 binary64 values,
      NumPy [float32] values are binary32 values; both are [spec_float] with
      the operations of [SpecFloat] at the corresponding precision, so every
      operation rounds as the hardware does.
    - A NumPy integer array is a dtype, a shape and the row-major list of its
      samples; arithmetic on it wraps around at the dtype's width.
    - Python exceptions are values of [exn]; a function that can raise
      returns in the monad [M], which also threads the log of the file reads
      made so far.
    - The functions of pydicom, Pillow and OpenCV that the code calls are the
      fields of the class [Library]; a theorem that needs a fact about one of
      them states it as a hypothesis, and [ref_library] is an instance that
      satisfies all of them. *)

From Stdlib Require Import ZArith List String Ascii Bool Lia.
From Stdlib Require Import Floats.SpecFloat.
From Stdlib.Strings Require Byte.
From Stdlib Require DecimalString.
From stdpp Require Import base option list gmap strings.
Import ListNotations.

Local Open Scope Z_scope.

(** ** IEEE-754 arithmetic *)

Module F64.
Definition prec : Z := 53.
Definition emax : Z := 1024.
Definition of_Z (z : Z) : spec_float := binary_normalize prec emax z 0 false.
Definition add := SFadd prec emax.
Definition sub := SFsub prec emax.
Definition mul := SFmul prec emax.
Definition div := SFdiv prec emax.
End F64.

Module F32.
Definition prec : Z := 24.
Definition emax : Z := 128.
Definition of_Z (z : Z) : spec_float := binary_normalize prec emax z 0 false.
Definition add := SFadd prec emax.
Definition sub := SFsub prec emax.
Definition mul := SFmul prec emax.
Definition div := SFdiv prec emax.
End F32.

Definition is_nan (x : spec_float) : bool :=
  match x with S754_nan => true | _ => false end.

Definition is_finite (x : spec_float) : bool :=
  match x with S754_zero _ | S754_finite _ _ _ => true | _ => false end.

Definition is_finite_nonzero (x : spec_float) : bool :=
  match x with S754_finite _ _ _ => true | _ => false end.

(** [a > b] and [a < b] of C and Python: false as soon as one side is NaN. *)
Definition fgt (a b : spec_float) : bool := SFltb b a.
Definition flt (a b : spec_float) : bool := SFltb a b.

(** The integer part of a float (rounding toward zero), as the C cast to an
    integer type computes it on a finite value. *)
Definition trunc (x : spec_float) : Z :=
  match x with
  | S754_finite s m e =>
      let a := match e with
               | Zneg p => Z.shiftr (Zpos m) (Zpos p)
               | _ => Z.shiftl (Zpos m) e
               end in
      if s then - a else a
  | _ => 0
  end.

(** ** NumPy integer dtypes and arrays *)

Record int_dtype := { dt_bits : Z; dt_signed : bool }.

Definition uint8 : int_dtype := {| dt_bits := 8; dt_signed := false |}.
Definition int16 : int_dtype := {| dt_bits := 16; dt_signed := true |}.
Definition uint16 : int_dtype := {| dt_bits := 16; dt_signed := false |}.

Definition dt_min (d : int_dtype) : Z :=
  if dt_signed d then - 2 ^ (dt_bits d - 1) else 0.
Definition dt_max (d : int_dtype) : Z :=
  if dt_signed d then 2 ^ (dt_bits d - 1) - 1 else 2 ^ dt_bits d - 1.

(** Reduction of an integer to the dtype's range (two's complement). *)
Definition wrap (d : int_dtype) (z : Z) : Z :=
  if dt_signed d
  then (z + 2 ^ (dt_bits d - 1)) mod 2 ^ dt_bits d - 2 ^ (dt_bits d - 1)
  else z mod 2 ^ dt_bits d.

Record ndarray := { dtype : int_dtype; shape : list nat; data : list Z }.

Record farray := { fshape : list nat; fdata : list spec_float }.

(** [astype(np.uint8)] on a float: the C cast truncates toward zero; a value
    outside the target's range is reduced modulo 256 and a non-finite one
    gives 0 (what the conversion instruction of x86-64 yields; C leaves both
    undefined). *)
Definition f_to_uint8 (x : spec_float) : Z :=
  if is_finite x then wrap uint8 (trunc x) else 0.

Definition astype_uint8 (a : farray) : ndarray :=
  {| dtype := uint8; shape := fshape a; data := map f_to_uint8 (fdata a) |}.

(** ** Exceptions *)

Variant exn :=
  | InvalidDicomError | ValueError | IndexError | TypeError | AttributeError
  | OSError | cv2_error.

Variant result (A : Type) := Ok (a : A) | Raise (e : exn).
Arguments Ok {A} a.
Arguments Raise {A} e.

(** [np.max], [np.min] on integer samples: a zero-size array raises. *)
Definition np_max (l : list Z) : result Z :=
  match l with
  | [] => Raise ValueError
  | x :: t => Ok (fold_left Z.max t x)
  end.

Definition np_min (l : list Z) : result Z :=
  match l with
  | [] => Raise ValueError
  | x :: t => Ok (fold_left Z.min t x)
  end.

(** ** The windowing transform *)

(** The two branches of NumPy's clip for floating types:
    [_NPY_MAX(a, b) = isnan(a) ? a : (a > b ? a : b)] and likewise for MIN;
    [np.clip(x, lo, hi)] is [_NPY_MIN(_NPY_MAX(x, lo), hi)]. *)
Definition npy_max (a b : spec_float) : spec_float :=
  if is_nan a then a else if fgt a b then a else b.
Definition npy_min (a b : spec_float) : spec_float :=
  if is_nan a then a else if flt a b then a else b.
Definition np_clip (x lo hi : spec_float) : spec_float :=
  npy_min (npy_max x lo) hi.

Definition f2 : spec_float := F64.of_Z 2.
Definition f255 : spec_float := F64.of_Z 255.

(** [min_val] and [max_val] of [_apply_window_level]. *)
Definition window_low (window_center window_width : spec_float) : spec_float :=
  F64.sub window_center (F64.div window_width f2).
Definition window_high (window_center window_width : spec_float) : spec_float :=
  F64.add window_center (F64.div window_width f2).

(** One sample of
    [(np.clip(image, min_val, max_val) - min_val) / (max_val - min_val) * 255]. *)
Definition window_sample (min_val max_val : spec_float) (x : Z) : spec_float :=
  F64.mul
    (F64.div (F64.sub (np_clip (F64.of_Z x) min_val max_val) min_val)
             (F64.sub max_val min_val))
    f255.

(** The float array before the cast. *)
Definition window_scaled (image : ndarray) (window_center window_width : spec_float)
  : farray :=
  let min_val := window_low window_center window_width in
  let max_val := window_high window_center window_width in
  {| fshape := shape image;
     fdata := map (window_sample min_val max_val) (data image) |}.

Definition _apply_window_level (image : ndarray)
    (window_center window_width : spec_float) : ndarray :=
  astype_uint8 (window_scaled image window_center window_width).

(** ** Results, and the monad of the functions that read files *)

Definition rbind {A B} (r : result A) (k : A -> result B) : result B :=
  match r with Ok a => k a | Raise e => Raise e end.

Notation "'let*' x ':=' r 'in' k" := (rbind r (fun x => k))
  (at level 10, x name, r at level 100, k at level 200).

Variant io_event :=
  | Read_dicom (path : string) (stop_before_pixels : bool)
  | Read_image (path : string).

Definition M (A : Type) : Type := list io_event -> result A * list io_event.

Definition mreturn {A} (a : A) : M A := fun log => (Ok a, log).
Definition mraise {A} (e : exn) : M A := fun log => (Raise e, log).
Definition lift {A} (r : result A) : M A := fun log => (r, log).
Definition mbind_io {A B} (m : M A) (k : A -> M B) : M B :=
  fun log => match m log with
             | (Ok a, log') => k a log'
             | (Raise e, log') => (Raise e, log')
             end.

Notation "'io*' x ':=' m 'in' k" := (mbind_io m (fun x => k))
  (at level 10, x name, m at level 100, k at level 200).

(** [try: body  except Exception as e: handler e]. *)
Definition try_except {A} (body : M A) (handler : exn -> M A) : M A :=
  fun log => match body log with
             | (Ok a, log') => (Ok a, log')
             | (Raise e, log') => handler e log'
             end.

(** ** What the code sees of a DICOM dataset and of a Pillow image *)

(** A [DS] attribute read through pydicom: [None] when the element is
    present without a value, one value, or a [MultiValue], which holds
    several values and is never empty. *)
Variant ds_value :=
  | DS_none
  | DS_single (v : spec_float)
  | DS_multi (v : spec_float) (others : list spec_float).

(** [hasattr(ds, name)] is [is_Some] of the field; [pixel_array] raises when
    the pixel data is absent or cannot be decoded. *)
Record Dataset := {
  pixel_array : result ndarray;
  PhotometricInterpretation : option string;
  WindowCenter : option ds_value;
  WindowWidth : option ds_value
}.

(** [size] is (width, height), as in Pillow. *)
Record pil_image := {
  mode : string;
  size : nat * nat;
  pixels : list Z
}.

Class Library := {
  (** [pydicom.dcmread(path, stop_before_pixels=b)] on the files present *)
  dcmread : string -> bool -> result Dataset;
  (** [Image.open(path)] *)
  Image_open : string -> result pil_image;
  (** [image.convert(mode)] *)
  Image_convert : pil_image -> string -> result pil_image;
  (** [Image.fromarray(array)] *)
  Image_fromarray : ndarray -> result pil_image;
  (** [image.resize(size, Image.Resampling.LANCZOS)] *)
  Image_resize : pil_image -> nat * nat -> result pil_image;
  (** [image.save(buffer, format='PNG')] followed by [buffer.getvalue()] *)
  png_save : pil_image -> result (list Byte.byte);
  (** Pillow's PNG reader, on a byte string *)
  png_load : list Byte.byte -> option pil_image;
  (** [cv2.equalizeHist(src)] *)
  equalizeHist : ndarray -> result ndarray;
  (** [cv2.GaussianBlur(src, ksize, sigmaX)] *)
  GaussianBlur : ndarray -> nat * nat -> Z -> result ndarray
}.

(** ** Paths: [str.lower] and [os.path.splitext] *)

Definition ascii_lower (c : ascii) : ascii :=
  let n := nat_of_ascii c in
  if ((65 <=? n) && (n <=? 90))%nat then ascii_of_nat (n + 32) else c.

Fixpoint lower (s : string) : string :=
  match s with
  | EmptyString => EmptyString
  | String c s' => String (ascii_lower c) (lower s')
  end.

(** [s.rfind(c)]: the index of the last occurrence, or -1. *)
Fixpoint rfind (c : ascii) (s : string) : Z :=
  match s with
  | EmptyString => -1
  | String a s' =>
      let r := rfind c s' in
      if 0 <=? r then r + 1 else if Ascii.eqb a c then 0 else -1
  end.

(** The loop of [genericpath._splitext] that skips the leading dots of the
    file name: [true] when a character other than the dot is met before
    [dotIndex]. *)
Fixpoint skip_leading_dots (p : string) (filenameIndex dotIndex : Z) (fuel : nat)
  : bool :=
  match fuel with
  | O => false
  | S fuel' =>
      if filenameIndex <? dotIndex then
        match String.get (Z.to_nat filenameIndex) p with
        | Some c =>
            if Ascii.eqb c "." then
              skip_leading_dots p (filenameIndex + 1) dotIndex fuel'
            else true
        | None => true
        end
      else false
  end.

(** [posixpath.splitext]: separator "/", no alternative separator. *)
Definition splitext (p : string) : string * string :=
  let sepIndex := rfind "/" p in
  let dotIndex := rfind "." p in
  if (sepIndex <? dotIndex)
     && skip_leading_dots p (sepIndex + 1) dotIndex (String.length p)
  then (substring 0 (Z.to_nat dotIndex) p,
        substring (Z.to_nat dotIndex) (String.length p - Z.to_nat dotIndex) p)
  else (p, EmptyString).

(** ** [base64.b64encode] and the strict decoder *)

(** The standard alphabet (RFC 4648, table 1). *)
Definition b64_alphabet : string :=
  "ABCDEFGHIJKLMNOPQRSTUVWXYZabcdefghijklmnopqrstuvwxyz0123456789+/".

Definition b64_char (n : N) : ascii :=
  match String.get (N.to_nat n) b64_alphabet with
  | Some c => c
  | None => "="%char
  end.

Definition b64_value (c : ascii) : option N :=
  let n := N_of_ascii c in
  if ((65 <=? n) && (n <=? 90))%N then Some (n - 65)%N
  else if ((97 <=? n) && (n <=? 122))%N then Some (n - 71)%N
  else if ((48 <=? n) && (n <=? 57))%N then Some (n + 4)%N
  else if (n =? 43)%N then Some 62%N
  else if (n =? 47)%N then Some 63%N
  else None.

Definition byte_of (n : N) : Byte.byte :=
  match Byte.of_N n with Some b => b | None => Byte.x00 end.

Fixpoint b64encode (l : list Byte.byte) : string :=
  match l with
  | [] => EmptyString
  | [a] =>
      let a := Byte.to_N a in
      String (b64_char (a / 4)) (String (b64_char (a mod 4 * 16)) "==")
  | [a; b] =>
      let a := Byte.to_N a in
      let b := Byte.to_N b in
      String (b64_char (a / 4))
        (String (b64_char (a mod 4 * 16 + b / 16))
           (String (b64_char (b mod 16 * 4)) "="))
  | a :: b :: c :: rest =>
      let a := Byte.to_N a in
      let b := Byte.to_N b in
      let c := Byte.to_N c in
      String (b64_char (a / 4))
        (String (b64_char (a mod 4 * 16 + b / 16))
           (String (b64_char (b mod 16 * 4 + c / 64))
              (String (b64_char (c mod 64)) (b64encode rest))))
  end%N.

(** Decoding with validation: groups of four characters of the alphabet, the
    last one possibly padded with one or two "=". *)
Fixpoint b64decode (s : string) : option (list Byte.byte) :=
  match s with
  | EmptyString => Some []
  | String c1 (String c2 (String c3 (String c4 rest))) =>
      match b64_value c1, b64_value c2 with
      | Some v1, Some v2 =>
          let b1 := byte_of (v1 * 4 + v2 / 16) in
          match rest, b64_value c3, b64_value c4 with
          | _, Some v3, Some v4 =>
              match b64decode rest with
              | Some tl =>
                  Some (b1 :: byte_of (v2 mod 16 * 16 + v3 / 4)
                           :: byte_of (v3 mod 4 * 64 + v4) :: tl)
              | None => None
              end
          | EmptyString, Some v3, None =>
              if Ascii.eqb c4 "=" then
                Some [b1; byte_of (v2 mod 16 * 16 + v3 / 4)]
              else None
          | EmptyString, None, None =>
              if Ascii.eqb c3 "=" && Ascii.eqb c4 "=" then Some [b1] else None
          | _, _, _ => None
          end
      | _, _ => None
      end
  | _ => None
  end%N.

(** ** ImageProcessor *)

Section ImageProcessor.
Context {lib : Library}.

(** [self.target_size] *)
Definition target_size : nat * nat := (512, 512)%nat.

Definition dcmread_io (path : string) (stop_before_pixels : bool) : M Dataset :=
  fun log => (dcmread path stop_before_pixels,
              log ++ [Read_dicom path stop_before_pixels]).

Definition Image_open_io (path : string) : M pil_image :=
  fun log => (Image_open path, log ++ [Read_image path]).

Definition _is_dicom_file (file_path : string) : M bool :=
  let ext := snd (splitext (lower file_path)) in
  if String.eqb ext ".dcm" then mreturn true
  else
    try_except
      (io* _ds := dcmread_io file_path true in mreturn true)
      (fun _ => mreturn false).

(** [np.max(pixel_array) - pixel_array], in the dtype of the array. *)
Definition invert (pixel_array : ndarray) : result ndarray :=
  let* m := np_max (data pixel_array) in
  Ok {| dtype := dtype pixel_array;
        shape := shape pixel_array;
        data := map (fun x => wrap (dtype pixel_array) (m - x))
                    (data pixel_array) |}.

(** Lines 87-90: the array after the photometric-interpretation step. *)
Definition photometric_step (ds : Dataset) (pixel_array : ndarray)
  : result ndarray :=
  match PhotometricInterpretation ds with
  | Some p => if String.eqb p "MONOCHROME1" then invert pixel_array
              else Ok pixel_array
  | None => Ok pixel_array
  end.

(** Lines 98-101: [v[0]] when [v] is a list or a [MultiValue], [v]
    otherwise; the result [None] is Python's [None]. *)
Definition first_value (v : ds_value) : option spec_float :=
  match v with
  | DS_none => None
  | DS_single x => Some x
  | DS_multi x _ => Some x
  end.

(** Lines 94-103: the windowing step. With [None] for the center or the
    width, the arithmetic of line 135 in [_apply_window_level] raises
    TypeError. *)
Definition window_step (ds : Dataset) (pixel_array : ndarray) : result ndarray :=
  match WindowCenter ds, WindowWidth ds with
  | Some window_center, Some window_width =>
      match first_value window_center, first_value window_width with
      | Some window_center, Some window_width =>
          Ok (_apply_window_level pixel_array window_center window_width)
      | _, _ => Raise TypeError
      end
  | _, _ => Ok pixel_array
  end.

(** What [_read_dicom] computes from the dataset it has read. *)
Definition decode_dataset (ds : Dataset) : result ndarray :=
  let* pixel_array := pixel_array ds in
  let* pixel_array := photometric_step ds pixel_array in
  window_step ds pixel_array.

Definition _read_dicom (file_path : string) : M ndarray :=
  try_except
    (io* ds := dcmread_io file_path false in lift (decode_dataset ds))
    (fun e => mraise e).

(** [np.array(image)] of a single-band 8-bit image. *)
Definition np_array (image : pil_image) : ndarray :=
  {| dtype := uint8;
     shape := [snd (size image); fst (size image)];
     data := pixels image |}.

Definition _read_standard_image (file_path : string) : M ndarray :=
  try_except
    (io* image := Image_open_io file_path in
     io* image := lift (if negb (String.eqb (mode image) "L")
                        then Image_convert image "L" else Ok image) in
     mreturn (np_array image))
    (fun e => mraise e).

(** [image[:, :, 0]] on row-major data: of each of the [blocks] consecutive
    blocks of [block] samples, the first [keep]. *)
Fixpoint take_blocks (blocks block keep : nat) (l : list Z) : list Z :=
  match blocks with
  | O => []
  | S n => firstn keep l ++ take_blocks n block keep (skipn block l)
  end.

Definition prod_shape (s : list nat) : nat := fold_right Nat.mul 1%nat s.

(** [image.squeeze()]: the axes of length one are dropped. *)
Definition squeeze (s : list nat) : list nat :=
  filter (fun n => negb (Nat.eqb n 1)) s.

(** Line 150: [image[:, :, 0] if image.shape[2] > 1 else image.squeeze()]. *)
Definition first_channel (image : ndarray) : ndarray :=
  match shape image with
  | a :: b :: k :: rest =>
      if (1 <? k)%nat then
        {| dtype := dtype image;
           shape := a :: b :: rest;
           data := take_blocks (a * b) (k * prod_shape rest) (prod_shape rest)
                     (data image) |}
      else
        {| dtype := dtype image;
           shape := squeeze (shape image);
           data := data image |}
  | _ => image
  end.

Definition astype_float32 (image : ndarray) : farray :=
  {| fshape := shape image; fdata := map F32.of_Z (data image) |}.

(** The loops of [np.maximum] and [np.minimum] on floats:
    [(a >= b || isnan(a)) ? a : b] and [(a <= b || isnan(a)) ? a : b]. *)
Definition np_maximum (a b : spec_float) : spec_float :=
  if SFleb b a || is_nan a then a else b.
Definition np_minimum (a b : spec_float) : spec_float :=
  if SFleb a b || is_nan a then a else b.

(** [image.max()], [image.min()] on a float array. *)
Definition fmax_of (l : list spec_float) : result spec_float :=
  match l with
  | [] => Raise ValueError
  | x :: t => Ok (fold_left np_maximum t x)
  end.

Definition fmin_of (l : list spec_float) : result spec_float :=
  match l with
  | [] => Raise ValueError
  | x :: t => Ok (fold_left np_minimum t x)
  end.

Definition f32_zero : spec_float := S754_zero false.
Definition f32_255 : spec_float := F32.of_Z 255.

(** Lines 154-157: the min/max stretch to [0, 255], in float32. *)
Definition minmax_stretch (image : farray) : result farray :=
  let* mx := fmax_of (fdata image) in
  let* mn := fmin_of (fdata image) in
  if fgt mx mn then
    (* both are computed again inside the expression *)
    Ok {| fshape := fshape image;
          fdata := map (fun x => F32.mul (F32.div (F32.sub x mn) (F32.sub mx mn))
                                         f32_255)
                       (fdata image) |}
  else
    Ok {| fshape := fshape image;
          fdata := map (fun _ => f32_zero) (fdata image) |}.

Definition _normalize_ct_image (image : ndarray) : result ndarray :=
  let image := if (2 <? length (shape image))%nat then first_channel image
               else image in
  let image := astype_float32 image in
  let* image := minmax_stretch image in
  let image_uint8 := astype_uint8 image in
  let* equalized := equalizeHist image_uint8 in
  let* blurred := GaussianBlur equalized (3, 3)%nat 0 in
  Ok blurred.

(** The prefix of the data URI. *)
Definition data_uri_prefix : string := "data:image/png;base64,".

Definition _pil_to_base64 (image : pil_image) : result string :=
  let* image_bytes := png_save image in
  let base64_string := b64encode image_bytes in
  Ok (String.append data_uri_prefix base64_string).

Definition size_eqb (a b : nat * nat) : bool :=
  Nat.eqb (fst a) (fst b) && Nat.eqb (snd a) (snd b).

Definition read_and_normalize (file_path : string) : M string :=
  try_except
    (io* is_dicom := _is_dicom_file file_path in
     io* image_array := (if is_dicom : bool then _read_dicom file_path
                         else _read_standard_image file_path) in
     lift (let* normalized_image := _normalize_ct_image image_array in
           let* pil_image := Image_fromarray normalized_image in
           let* pil_image :=
             (if negb (size_eqb (size pil_image) target_size)
              then Image_resize pil_image target_size
              else Ok pil_image) in
           _pil_to_base64 pil_image))
    (fun e => mraise e).

End ImageProcessor.

(** ** The upload handler [analyze_image] of [main.py] *)

Module Main.

(** An upload; [read] and [seek] are the outcomes of [await file.read()]
    and of [await file.seek(0)]. *)
Record UploadFile := {
  content_type : option string;
  filename : option string;
  read : result (list Byte.byte);
  seek : result unit
}.

Record AnalysisResponse (analysis : Type) := {
  success : bool;
  response_data : analysis;
  message : string
}.
Arguments Build_AnalysisResponse {analysis}.

(** The handler returns a response, raises an [HTTPException], or lets
    another exception through as it is. *)
Variant http_result (A : Type) :=
  | Return (a : A)
  | HTTPException (status_code : Z) (detail : string)
  | Unhandled (e : exn).
Arguments Return {A} a.
Arguments HTTPException {A} status_code detail.
Arguments Unhandled {A} e.

(** The files on disk: path to content. *)
Definition FS (A : Type) : Type :=
  gmap string (list Byte.byte) -> result A * gmap string (list Byte.byte).

Definition fs_ret {A} (a : A) : FS A := fun fs => (Ok a, fs).
Definition fs_bind {A B} (m : FS A) (k : A -> FS B) : FS B :=
  fun fs => match m fs with
            | (Ok a, fs') => k a fs'
            | (Raise e, fs') => (Raise e, fs')
            end.

Notation "'fs*' x ':=' m 'in' k" := (fs_bind m (fun x => k))
  (at level 10, x name, m at level 100, k at level 200).

(** [try: body  finally: cleanup]: the cleanup runs on every outcome of the
    body; an exception of the cleanup replaces the outcome. *)
Definition try_finally {A} (body : FS A) (cleanup : FS unit) : FS A :=
  fun fs => match body fs with
            | (r, fs') =>
                match cleanup fs' with
                | (Ok _, fs'') => (r, fs'')
                | (Raise e, fs'') => (Raise e, fs'')
                end
            end.

Definition os_path_exists (path : string) : FS bool :=
  fun fs => (Ok (bool_decide (is_Some (fs !! path))), fs).

Definition os_unlink (path : string) : FS unit :=
  fun fs => match fs !! path with
            | Some _ => (Ok tt, delete path fs)
            | None => (Raise OSError, fs)
            end.

(** The collaborators of the handler and the calls into the operating
    system whose outcome the handler does not control. *)
Class Services (analysis : Type) := {
  (** [tempfile.NamedTemporaryFile(delete=False, suffix=s)]: the name *)
  NamedTemporaryFile : string -> FS string;
  (** [tmp_file.write(content)] and the closing of the file *)
  tmp_file_write : string -> list Byte.byte -> FS unit;
  (** [image_processor.read_and_normalize(path)] *)
  image_processor_read_and_normalize : string -> FS string;
  (** [vision_analyzer.analyze_ct_scan(image)] *)
  vision_analyzer_analyze_ct_scan : string -> FS analysis;
  (** [str(e)] *)
  str_of_exn : exn -> string
}.

Section Handler.
Context {analysis : Type} {services : Services analysis}.

Definition allowed_content_types : list string :=
  ["image/"; "application/dicom"; "application/octet-stream"].

(** The check of lines 146-148. *)
Definition content_type_ok (file : UploadFile) : bool :=
  match content_type file with
  | None => false
  | Some EmptyString => false
  | Some ct => existsb (fun t => String.prefix t ct) allowed_content_types
  end.

Definition size_limit : Z := 50 * 1024 * 1024.

Definition file_extension (file : UploadFile) : string :=
  match filename file with
  | None => ".tmp"
  | Some EmptyString => ".tmp"
  | Some name => snd (splitext name)
  end.

(** Lines 175-197: the inner [try ... finally]. *)
Definition process_and_clean (tmp_file_path : string)
  : FS (AnalysisResponse analysis) :=
  try_finally
    (fs* processed_image := image_processor_read_and_normalize tmp_file_path in
     fs* result := vision_analyzer_analyze_ct_scan processed_image in
     fs_ret (Build_AnalysisResponse true result "Analysis completed successfully"))
    (fs* there := os_path_exists tmp_file_path in
     if there : bool then os_unlink tmp_file_path else fs_ret tt).

(** Lines 168-197: the body of the outer [try]. *)
Definition create_and_process (file : UploadFile) (content : list Byte.byte)
  : FS (AnalysisResponse analysis) :=
  fs* tmp_file_path := NamedTemporaryFile (file_extension file) in
  fs* _w := tmp_file_write tmp_file_path content in
  process_and_clean tmp_file_path.

(** Lines 146-204. The reading of the upload (line 156) and the reset of
    its position (line 166) stand before the outer [try]: an exception of
    either leaves the handler as it is. *)
Definition analyze_image (file : UploadFile)
    (fs : gmap string (list Byte.byte))
  : http_result (AnalysisResponse analysis) * gmap string (list Byte.byte) :=
  if negb (content_type_ok file) then
    (HTTPException 400
       "Invalid file type. Please upload a DICOM (.dcm) or image file (.png, .jpg)",
     fs)
  else
    match read file with
    | Raise e => (Unhandled e, fs)
    | Ok content =>
        if size_limit <? Z.of_nat (length content) then
          (HTTPException 400 "File size exceeds 50MB limit", fs)
        else
          match seek file with
          | Raise e => (Unhandled e, fs)
          | Ok _ =>
              match create_and_process file content fs with
              | (Ok response, fs') => (Return response, fs')
              | (Raise e, fs') =>
                  (HTTPException 500
                     (String.append "Analysis failed: " (str_of_exn e)), fs')
              end
          end
    end.

End Handler.
(** A reference instance of [Services]: one temporary name, writes that
    succeed, a decoder that fails on an empty file. *)
Definition ref_services : Services string :=
  {| NamedTemporaryFile := fun suffix fs =>
       let name := String.append "/tmp/tmpk3x9" suffix in
       (Ok name, <[name := []]> fs);
     tmp_file_write := fun path bytes fs => (Ok tt, <[path := bytes]> fs);
     image_processor_read_and_normalize := fun path fs =>
       match fs !! path with
       | Some (_ :: _) => (Ok "data:image/png;base64,iVBORw=="%string, fs)
       | _ => (Raise OSError, fs)
       end;
     vision_analyzer_analyze_ct_scan := fun image fs => (Ok "T1N0M0"%string, fs);
     str_of_exn := fun e => "error"%string |}.

Definition png_upload : UploadFile :=
  {| content_type := Some "image/png"%string;
     filename := Some "chest.png"%string;
     read := Ok [Byte.x89; Byte.x50; Byte.x4e; Byte.x47];
     seek := Ok tt |}.

Definition empty_upload : UploadFile :=
  {| content_type := Some "application/dicom"%string;
     filename := Some "scan.dcm"%string;
     read := Ok [];
     seek := Ok tt |}.

(** An upload whose stream cannot be read. *)
Definition unreadable_upload : UploadFile :=
  {| content_type := Some "image/png"%string;
     filename := Some "chest.png"%string;
     read := Raise OSError;
     seek := Ok tt |}.

End Main.

(** ** Notions the specification uses to state its properties *)

(** The window an 8-bit array defines by its own extrema:
    [center = (min + max) / 2], [width = max - min]. *)
Definition own_window_center (mn mx : Z) : spec_float :=
  F64.div (F64.of_Z (mn + mx)) f2.
Definition own_window_width (mn mx : Z) : spec_float := F64.of_Z (mx - mn).

(** Two sample lists agree within rounding error: pointwise, they differ by
    one unit at most. *)
Definition within_rounding (a b : list Z) : Prop :=
  Forall2 (fun x y => Z.abs (x - y) <= 1) a b.

(** The dataset in which every multi-valued window attribute is replaced by
    its first value, as a scalar. *)
Definition first_only (v : ds_value) : ds_value :=
  match v with
  | DS_multi x _ => DS_single x
  | _ => v
  end.

Definition with_first_values (ds : Dataset) : Dataset :=
  {| pixel_array := pixel_array ds;
     PhotometricInterpretation := PhotometricInterpretation ds;
     WindowCenter := option_map first_only (WindowCenter ds);
     WindowWidth := option_map first_only (WindowWidth ds) |}.

(** The all-zero 8-bit array of the shape and size of [image]. *)
Definition zeros_uint8_like (image : ndarray) : ndarray :=
  {| dtype := uint8; shape := shape image;
     data := map (fun _ => 0) (data image) |}.

(** ** A reference instance of [Library]

    Small executable stand-ins with the documented behaviour of the library
    functions, on a file system of three files. *)

Definition ct_pixels : ndarray :=
  {| dtype := int16; shape := [2; 2]%nat; data := [-1000; -600; 0; 2000] |}.

Definition multi_dataset : Dataset :=
  {| pixel_array := Ok ct_pixels;
     PhotometricInterpretation := Some "MONOCHROME2";
     WindowCenter := Some (DS_multi (F64.of_Z (-600)) [F64.of_Z 40]);
     WindowWidth := Some (DS_multi (F64.of_Z 1500) [F64.of_Z 400]) |}.

Definition without_pixels (ds : Dataset) : Dataset :=
  {| pixel_array := Raise AttributeError;
     PhotometricInterpretation := PhotometricInterpretation ds;
     WindowCenter := WindowCenter ds;
     WindowWidth := WindowWidth ds |}.

Definition ref_dcmread (path : string) (stop_before_pixels : bool)
  : result Dataset :=
  let found ds := Ok (if stop_before_pixels then without_pixels ds else ds) in
  if String.eqb path "/data/multi.dcm" then found multi_dataset
  else if String.eqb path "/data/single.dcm"
       then found (with_first_values multi_dataset)
  else Raise InvalidDicomError.

Definition ref_Image_open (path : string) : result pil_image :=
  if String.eqb path "/data/chest.png"
  then Ok {| mode := "L"; size := (2, 2)%nat; pixels := [0; 80; 160; 255] |}
  else Raise OSError.

Definition ref_Image_convert (image : pil_image) (m : string) : result pil_image :=
  Ok {| mode := m; size := size image; pixels := pixels image |}.

Definition ref_Image_fromarray (a : ndarray) : result pil_image :=
  match shape a with
  | [h; w] => Ok {| mode := "L"; size := (w, h); pixels := data a |}
  | _ => Raise TypeError
  end.

(** Nearest-neighbour resampling. *)
Definition ref_Image_resize (image : pil_image) (sz : nat * nat)
  : result pil_image :=
  let w := N.of_nat (fst (size image)) in
  let h := N.of_nat (snd (size image)) in
  let W := N.of_nat (fst sz) in
  let H := N.of_nat (snd sz) in
  let columns := map N.of_nat (seq 0 (fst sz)) in
  let rows := map N.of_nat (seq 0 (snd sz)) in
  let sample y x :=
    nth (N.to_nat ((y * h / H) * w + x * w / W))%N (pixels image) 0 in
  Ok {| mode := mode image;
        size := sz;
        pixels := flat_map (fun y => map (sample y) columns) rows |}.

Definition be16 (n : nat) : list Byte.byte :=
  [byte_of (N.of_nat n / 256); byte_of (N.of_nat n mod 256)].

Definition of_be16 (hi lo : Byte.byte) : nat :=
  N.to_nat (Byte.to_N hi * 256 + Byte.to_N lo).

Definition ref_png_signature : list Byte.byte :=
  [Byte.x89; Byte.x50; Byte.x4e; Byte.x47; Byte.x0d; Byte.x0a; Byte.x1a; Byte.x0a].

(** A container with the PNG signature, the two dimensions and a checksum
    of the samples (their sum modulo 65521); the samples are not stored. *)
Definition ref_png_save (image : pil_image) : result (list Byte.byte) :=
  if ((N.of_nat (fst (size image)) <? 65536)
      && (N.of_nat (snd (size image)) <? 65536))%N then
    Ok (ref_png_signature ++ be16 (fst (size image)) ++ be16 (snd (size image))
          ++ be16 (Z.to_nat (fold_left (fun acc p => (acc + p) mod 65521)
                                       (pixels image) 0)))
  else Raise ValueError.

Definition ref_png_load (bytes : list Byte.byte) : option pil_image :=
  match bytes with
  | [s1; s2; s3; s4; s5; s6; s7; s8; w1; w0; h1; h0; c1; c0] =>
      if forallb (fun p => Byte.eqb (fst p) (snd p))
           (combine [s1; s2; s3; s4; s5; s6; s7; s8] ref_png_signature)
      then Some {| mode := "L";
                   size := (of_be16 w1 w0, of_be16 h1 h0);
                   pixels := [] |}
      else None
  | _ => None
  end.

(** Histogram equalisation through the cumulative distribution; a constant
    image is returned as it is. *)
Definition ref_equalizeHist (src : ndarray) : result ndarray :=
  match np_min (data src) with
  | Raise _ => Raise cv2_error
  | Ok mn =>
      let total := Z.of_nat (length (data src)) in
      let cdf v := Z.of_nat (length (filter (fun x => x <=? v) (data src))) in
      if total =? cdf mn then Ok src
      else Ok {| dtype := uint8; shape := shape src;
                 data := map (fun v => ((cdf v - cdf mn) * 255
                                        + (total - cdf mn) / 2)
                                       / (total - cdf mn))
                             (data src) |}
  end.

(** The border rule of OpenCV's default [BORDER_REFLECT_101]. *)
Definition reflect101 (i n : Z) : Z :=
  if n <=? 1 then 0
  else if i <? 0 then - i
  else if n <=? i then 2 * n - 2 - i
  else i.

(** The 3x3 binomial kernel [1 2 1; 2 4 2; 1 2 1] / 16, rounded. *)
Definition ref_GaussianBlur (src : ndarray) (ksize : nat * nat) (sigmaX : Z)
  : result ndarray :=
  match shape src with
  | [h; w] =>
      let H := Z.of_nat h in
      let W := Z.of_nat w in
      let px y x :=
        nth (Z.to_nat (reflect101 y H * W + reflect101 x W)) (data src) 0 in
      let blur y x :=
        (px (y - 1) (x - 1) + 2 * px (y - 1) x + px (y - 1) (x + 1)
         + 2 * px y (x - 1) + 4 * px y x + 2 * px y (x + 1)
         + px (y + 1) (x - 1) + 2 * px (y + 1) x + px (y + 1) (x + 1) + 8) / 16 in
      Ok {| dtype := dtype src; shape := shape src;
            data := flat_map
                      (fun y => map (fun x => blur (Z.of_nat y) (Z.of_nat x))
                                    (seq 0 w))
                      (seq 0 h) |}
  | _ => Raise cv2_error
  end.

Definition ref_library : Library :=
  {| dcmread := ref_dcmread;
     Image_open := ref_Image_open;
     Image_convert := ref_Image_convert;
     Image_fromarray := ref_Image_fromarray;
     Image_resize := ref_Image_resize;
     png_save := ref_png_save;
     png_load := ref_png_load;
     equalizeHist := ref_equalizeHist;
     GaussianBlur := ref_GaussianBlur |}.

(** ** Inputs used by the examples *)

Definition lung_row : ndarray :=
  {| dtype := int16; shape := [1; 5]%nat;
     data := [-2000; -1350; -600; 150; 2000] |}.

Definition two_samples : ndarray :=
  {| dtype := int16; shape := [1; 2]%nat; data := [0; 100] |}.

(** A dataset with [WindowCenter = 40] and [WindowWidth = 0]. *)
Definition zero_width_dataset : Dataset :=
  {| pixel_array := Ok two_samples;
     PhotometricInterpretation := None;
     WindowCenter := Some (DS_single (F64.of_Z 40));
     WindowWidth := Some (DS_single (F64.of_Z 0)) |}.

Definition ramp_10_20 : ndarray :=
  {| dtype := uint8; shape := [1; 3]%nat; data := [10; 15; 20] |}.

Definition ramp_full : ndarray :=
  {| dtype := uint8; shape := [2; 2]%nat; data := [0; 64; 200; 255] |}.

(** A MONOCHROME1 dataset with window attributes. *)
Definition inverted_windowed_dataset : Dataset :=
  {| pixel_array := Ok {| dtype := uint16; shape := [1; 3]%nat;
                          data := [0; 100; 200] |};
     PhotometricInterpretation := Some "MONOCHROME1";
     WindowCenter := Some (DS_single (F64.of_Z 100));
     WindowWidth := Some (DS_single (F64.of_Z 100)) |}.

(** A MONOCHROME1 dataset without window attributes. *)
Definition inverted_dataset : Dataset :=
  {| pixel_array := Ok {| dtype := uint16; shape := [1; 3]%nat;
                          data := [0; 100; 200] |};
     PhotometricInterpretation := Some "MONOCHROME1";
     WindowCenter := None;
     WindowWidth := None |}.

(** * The rest of the backend *)

(** ** More inputs and a larger file system for the examples *)

(** A dataset with a window center and no window width. *)
Definition center_only_dataset : Dataset :=
  {| pixel_array := Ok ct_pixels;
     PhotometricInterpretation := Some "MONOCHROME2";
     WindowCenter := Some (DS_single (F64.of_Z 40));
     WindowWidth := None |}.

(** A dataset whose window width is present without a value. *)
Definition empty_width_dataset : Dataset :=
  {| pixel_array := Ok ct_pixels;
     PhotometricInterpretation := Some "MONOCHROME2";
     WindowCenter := Some (DS_single (F64.of_Z 40));
     WindowWidth := Some DS_none |}.

Definition ext_dcmread (path : string) (stop_before_pixels : bool)
  : result Dataset :=
  if String.eqb path "/data/center_only.dcm" then
    Ok (if stop_before_pixels then without_pixels center_only_dataset
        else center_only_dataset)
  else if String.eqb path "/data/empty_width.dcm" then
    Ok (if stop_before_pixels then without_pixels empty_width_dataset
        else empty_width_dataset)
  else if String.eqb path "/data/series/IM0001" then
    Ok (if stop_before_pixels then without_pixels multi_dataset
        else multi_dataset)
  else ref_dcmread path stop_before_pixels.

Definition ext_library : Library :=
  {| dcmread := ext_dcmread;
     Image_open := ref_Image_open;
     Image_convert := ref_Image_convert;
     Image_fromarray := ref_Image_fromarray;
     Image_resize := ref_Image_resize;
     png_save := ref_png_save;
     png_load := ref_png_load;
     equalizeHist := ref_equalizeHist;
     GaussianBlur := ref_GaussianBlur |}.

(** A 1 x 2 image of three channels and a 2 x 2 image with a channel axis
    of length one. *)
Definition rgb_row : ndarray :=
  {| dtype := uint8; shape := [1; 2; 3]%nat;
     data := [10; 11; 12; 20; 21; 22] |}.

Definition single_channel : ndarray :=
  {| dtype := uint8; shape := [2; 2; 1]%nat; data := [1; 2; 3; 4] |}.

Definition no_samples : ndarray :=
  {| dtype := uint8; shape := [0; 4]%nat; data := [] |}.

(** ** [get_image_metadata] *)

(** [os.path.basename]: what follows the last "/". *)
Definition basename (p : string) : string :=
  let i := Z.to_nat (rfind "/" p + 1) in
  substring i (String.length p - i) p.

(** The values the metadata dictionary holds. *)
Variant meta_value :=
  | Meta_str (s : string)
  | Meta_int (n : Z)
  | Meta_bool (b : bool).

Class MetadataLibrary := {
  (** [os.path.getsize(path)] *)
  os_path_getsize : string -> result Z;
  (** [getattr(ds, name)] for an attribute the dataset carries *)
  dataset_attribute : Dataset -> string -> option string;
  (** [str(e)] *)
  str_of_exception : exn -> string
}.

Section Metadata.
Context {lib : Library} {mlib : MetadataLibrary}.

(** [getattr(ds, name, 'Unknown')] *)
Definition getattr_or_unknown (ds : Dataset) (name : string) : meta_value :=
  Meta_str (default "Unknown"%string (dataset_attribute ds name)).

(** The dictionary literal of lines 180-184. *)
Definition base_metadata (file_path : string) (file_size : Z) (is_dicom : bool)
  : gmap string meta_value :=
  <["is_dicom"%string := Meta_bool is_dicom]>
    (<["file_size"%string := Meta_int file_size]>
       {["filename"%string := Meta_str (basename file_path)]}).

(** [metadata.update({...})] of lines 188-193. *)
Definition update_dicom_metadata (ds : Dataset) (metadata : gmap string meta_value)
  : gmap string meta_value :=
  <["study_description"%string := getattr_or_unknown ds "StudyDescription"]>
    (<["patient_id"%string := getattr_or_unknown ds "PatientID"]>
       (<["study_date"%string := getattr_or_unknown ds "StudyDate"]>
          (<["modality"%string := getattr_or_unknown ds "Modality"]> metadata))).

Definition get_image_metadata (file_path : string)
  : M (gmap string meta_value) :=
  try_except
    (io* is_dicom := _is_dicom_file file_path in
     io* file_size := lift (os_path_getsize file_path) in
     let metadata := base_metadata file_path file_size is_dicom in
     if is_dicom : bool then
       io* ds := dcmread_io file_path true in
       mreturn (update_dicom_metadata ds metadata)
     else mreturn metadata)
    (fun e => mreturn {["error"%string := Meta_str (str_of_exception e)]}).

End Metadata.

Definition ref_metadata_library : MetadataLibrary :=
  {| os_path_getsize := fun path =>
       if String.eqb path "/data/missing.dcm" then Raise OSError else Ok 526;
     dataset_attribute := fun ds name =>
       if String.eqb name "Modality" then Some "CT"%string else None;
     str_of_exception := fun e =>
       match e with
       | InvalidDicomError => "File is missing DICOM File Meta Information"
       | OSError => "No such file or directory"
       | _ => "error"
       end%string |}.

(** ** Characters of a Base64 text *)

Definition is_b64_char (c : ascii) : bool :=
  match b64_value c with Some _ => true | None => Ascii.eqb c "=" end.

Fixpoint string_forallb (p : ascii -> bool) (s : string) : bool :=
  match s with
  | EmptyString => true
  | String c s' => p c && string_forallb p s'
  end.

(** ** Extensions *)

(** The form of an extension: empty, or a dot followed by characters that
    are neither dots nor separators. *)
Definition extension_shape (e : string) : Prop :=
  e = EmptyString \/
  exists r, e = String "." r /\ rfind "." r = -1 /\ rfind "/" r = -1.

(** ** The vision analyser ([vision_analyzer.py]) *)

Module Vision.

(** A value read by [json.loads]; an object is the list of its members,
    each key once. *)
#[warnings="-register-all"] Inductive json :=
  | JNull
  | JBool (b : bool)
  | JInt (n : Z)
  | JFloat (x : spec_float)
  | JStr (s : string)
  | JList (items : list json)
  | JDict (members : list (string * json)).

(** The exceptions met in this module: the built-in ones of [exn]
    (pydantic's ValidationError and json's JSONDecodeError are ValueErrors),
    RuntimeError, and the errors of the OpenAI client. *)
Variant failure :=
  | Builtin (e : exn)
  | RuntimeError (message : string)
  | OpenAIError (message : string).

Variant attempt (A : Type) := Done (a : A) | Failed (e : failure).
Arguments Done {A} a.
Arguments Failed {A} e.

Definition abind {A B} (r : attempt A) (k : A -> attempt B) : attempt B :=
  match r with Done a => k a | Failed e => Failed e end.

Notation "'try*' x ':=' r 'in' k" := (abind r (fun x => k))
  (at level 10, x name, r at level 100, k at level 200).

(** The truth value of a Python object. *)
Definition truthy (v : json) : bool :=
  match v with
  | JNull => false
  | JBool b => b
  | JInt n => negb (n =? 0)
  | JFloat (S754_zero _) => false
  | JFloat _ => true
  | JStr EmptyString => false
  | JStr _ => true
  | JList [] => false
  | JList _ => true
  | JDict [] => false
  | JDict _ => true
  end.

Fixpoint assoc (key : string) (members : list (string * json)) : option json :=
  match members with
  | [] => None
  | (k, v) :: rest => if String.eqb k key then Some v else assoc key rest
  end.

(** [d.get(key, default)]: only a dict has the method. *)
Definition dict_get (d : json) (key : string) (fallback : json) : attempt json :=
  match d with
  | JDict members => Done (default fallback (assoc key members))
  | _ => Failed (Builtin AttributeError)
  end.

Record ConfidenceScores := {
  conf_t : spec_float;
  conf_n : spec_float;
  conf_m : spec_float;
  conf_stage : spec_float
}.

Record StagingResult := {
  t : option string;
  n : option string;
  m : option string;
  stage : option string;
  confidences : ConfidenceScores;
  error : option string
}.

(** What pydantic, the OpenAI client and the prompt manager contribute. *)
Class Environment := {
  (** the conversion of a value that is neither a string nor None to a
      [str] field, when pydantic accepts it *)
  coerce_str : json -> option string;
  (** the conversion of a value that is neither a float nor an int to a
      [float] field, when pydantic accepts it *)
  coerce_float : json -> option spec_float;
  (** [str(e)] *)
  str_of_error : failure -> string;
  (** [json.loads] *)
  json_loads : string -> attempt json;
  (** [prompt_manager.build_enhanced_system_prompt()] *)
  build_enhanced_system_prompt : attempt string;
  (** [prompt_manager.get_analysis_prompt()] *)
  get_analysis_prompt : attempt string;
  (** [client.chat.completions.create(...)]: for the system prompt, the
      image URL and the text of the user message, the [arguments] of the
      tool calls of each choice ([None] when a message has no tool calls) *)
  chat_completions_create :
    string -> string -> string -> attempt (list (option (list string)))
}.

Section Analyzer.
Context {env : Environment}.

Definition f0 : spec_float := F64.of_Z 0.
Definition f1 : spec_float := F64.of_Z 1.

(** A field [Optional[str]]. *)
Definition validate_optional_str (v : json) : option (option string) :=
  match v with
  | JNull => Some None
  | JStr s => Some (Some s)
  | _ => option_map Some (coerce_str v)
  end.

(** A field [float] with [ge=0.0, le=1.0]. *)
Definition validate_unit_float (v : json) : option spec_float :=
  let converted := match v with
                   | JFloat x => Some x
                   | JInt k => Some (F64.of_Z k)
                   | _ => coerce_float v
                   end in
  match converted with
  | Some x => if SFleb f0 x && SFleb x f1 then Some x else None
  | None => None
  end.

(** [ConfidenceScores(t=.., n=.., m=.., stage=..)]: a ValidationError when a
    field is refused. *)
Definition new_ConfidenceScores (vt vn vm vs : json) : attempt ConfidenceScores :=
  match validate_unit_float vt, validate_unit_float vn,
        validate_unit_float vm, validate_unit_float vs with
  | Some a, Some b, Some c, Some d =>
      Done {| conf_t := a; conf_n := b; conf_m := c; conf_stage := d |}
  | _, _, _, _ => Failed (Builtin ValueError)
  end.

(** [StagingResult(t=.., n=.., m=.., stage=.., confidences=.., error=..)] *)
Definition new_StagingResult (vt vn vm vs : json) (c : ConfidenceScores)
    (ve : json) : attempt StagingResult :=
  match validate_optional_str vt, validate_optional_str vn,
        validate_optional_str vm, validate_optional_str vs,
        validate_optional_str ve with
  | Some a, Some b, Some c', Some d, Some e =>
      Done {| t := a; n := b; m := c'; stage := d; confidences := c; error := e |}
  | _, _, _, _, _ => Failed (Builtin ValueError)
  end.

(** [ConfidenceScores(t=0.0, n=0.0, m=0.0, stage=0.0)] *)
Definition zero_scores : ConfidenceScores :=
  {| conf_t := f0; conf_n := f0; conf_m := f0; conf_stage := f0 |}.

(** The result without stages that every failure path builds, with its
    message. *)
Definition no_result (message : string) : StagingResult :=
  {| t := None; n := None; m := None; stage := None;
     confidences := zero_scores; error := Some message |}.

Definition _parse_analysis_result (result_data : json) : StagingResult :=
  let body :=
    try* error_msg := dict_get result_data "error" JNull in
    if truthy error_msg then
      new_StagingResult JNull JNull JNull JNull zero_scores error_msg
    else
      try* confidences := dict_get result_data "confidence_scores" (JDict []) in
      try* ct := dict_get confidences "t_confidence" (JFloat f0) in
      try* cn := dict_get confidences "n_confidence" (JFloat f0) in
      try* cm := dict_get confidences "m_confidence" (JFloat f0) in
      try* cs := dict_get confidences "overall_confidence" (JFloat f0) in
      try* confidence_scores := new_ConfidenceScores ct cn cm cs in
      try* vt := dict_get result_data "t_stage" JNull in
      try* vn := dict_get result_data "n_stage" JNull in
      try* vm := dict_get result_data "m_stage" JNull in
      try* vs := dict_get result_data "overall_stage" JNull in
      try* ve := dict_get result_data "error" JNull in
      new_StagingResult vt vn vm vs confidence_scores ve in
  match body with
  | Done staging_result => staging_result
  | Failed e =>
      no_result (String.append "Failed to parse analysis result: "
                               (str_of_error e))
  end.

(** [analyze_ct_scan]; [client] tells whether [self.client] is set. *)
Definition analyze_ct_scan (client : bool) (base64_image : string)
  : attempt StagingResult :=
  if negb client then Failed (RuntimeError "OpenAI client not initialized")
  else
    let body :=
      try* system_prompt := build_enhanced_system_prompt in
      try* analysis_prompt := get_analysis_prompt in
      try* choices :=
        chat_completions_create system_prompt base64_image analysis_prompt in
      match choices with
      | [] => Failed (Builtin IndexError)
      | Some (arguments :: _) :: _ =>
          try* result_data := json_loads arguments in
          Done (_parse_analysis_result result_data)
      | _ :: _ => Done (no_result "No analysis result received from model")
      end in
    match body with
    | Done staging_result => Done staging_result
    | Failed e =>
        Done (no_result (String.append "Analysis failed: " (str_of_error e)))
    end.

(** All four confidences lie in [0, 1]. *)
Definition scores_in_unit (c : ConfidenceScores) : bool :=
  forallb (fun x => SFleb f0 x && SFleb x f1)
          [conf_t c; conf_n c; conf_m c; conf_stage c].

End Analyzer.

(** A reference environment: pydantic refuses every conversion, the model
    answers with one tool call for the image "data:ok" and the connection
    fails for every other image. *)
Definition ref_environment : Environment :=
  {| coerce_str := fun _ => None;
     coerce_float := fun _ => None;
     str_of_error := fun e =>
       match e with
       | Builtin _ => "invalid value"
       | RuntimeError message => message
       | OpenAIError message => message
       end%string;
     json_loads := fun s =>
       if String.eqb s "{}" then Done (JDict [])
       else if String.eqb s "staged" then
         Done (JDict [("t_stage", JStr "T1b"); ("n_stage", JStr "N0");
                      ("m_stage", JStr "M0"); ("overall_stage", JStr "IA2");
                      ("confidence_scores",
                        JDict [("t_confidence", JInt 1);
                               ("n_confidence", JFloat (S754_zero false))])]%string)
       else Failed (Builtin ValueError);
     build_enhanced_system_prompt := Done "system"%string;
     get_analysis_prompt := Done "analyse"%string;
     chat_completions_create := fun _ image _ =>
       if String.eqb image "data:ok" then Done [Some ["staged"%string]]
       else Failed (OpenAIError "Connection error.") |}.

End Vision.

(** ** The prompt manager ([prompt_manager.py]) *)

Module Prompt.

(** The configuration read from the YAML file, with the types the prompt
    file gives its entries; [None] is a missing key. Dictionaries keep the
    order of the file. *)
Record config := {
  system_prompt : option string;
  analysis_prompt : option string;
  staging_guidelines : option (list (string * list (string * string)));
  analysis_instructions : option (list string);
  quality_indicators : option (list string);
  output_format : option (list string)
}.

Definition _get_fallback_config : config :=
  {| system_prompt :=
       Some "You are a thoracic radiologist specializing in NSCLC staging.";
     analysis_prompt := Some "Please analyze this CT scan for NSCLC staging.";
     staging_guidelines := Some [];
     analysis_instructions := Some [];
     quality_indicators := Some [];
     output_format := Some [] |}%string.

(** [_load_yaml]: the configuration of the file, or the fallback when the
    file is missing, does not parse, or anything else fails. *)
Definition _load_yaml (loaded : result config) : config :=
  match loaded with
  | Ok c => c
  | Raise _ => _get_fallback_config
  end.

Definition get_system_prompt (c : config) : string :=
  default ""%string (system_prompt c).
Definition get_analysis_prompt (c : config) : string :=
  default ""%string (analysis_prompt c).
Definition get_staging_guidelines (c : config) :=
  default [] (staging_guidelines c).
Definition get_analysis_instructions (c : config) : list string :=
  default [] (analysis_instructions c).
Definition get_quality_indicators (c : config) : list string :=
  default [] (quality_indicators c).
Definition get_output_format (c : config) : list string :=
  default [] (output_format c).

Definition nl : string := String (ascii_of_nat 10) EmptyString.

Definition ascii_upper (c : ascii) : ascii :=
  let k := nat_of_ascii c in
  if ((97 <=? k) && (k <=? 122))%nat then ascii_of_nat (k - 32) else c.

(** [s.upper()], on ASCII letters. *)
Fixpoint upper (s : string) : string :=
  match s with
  | EmptyString => EmptyString
  | String c s' => String (ascii_upper c) (upper s')
  end.

(** [s.replace('_', ' ')] *)
Fixpoint underscores_to_spaces (s : string) : string :=
  match s with
  | EmptyString => EmptyString
  | String c s' =>
      String (if Ascii.eqb c "_" then " "%char else c) (underscores_to_spaces s')
  end.

(** [str(i)] of a natural number. *)
Definition str_of_nat (i : nat) : string :=
  DecimalString.NilEmpty.string_of_uint (Nat.to_uint i).

(** The loops of [build_enhanced_system_prompt], each appending to the
    prompt built so far. *)
Definition add_stages (prompt : string) (stages : list (string * string))
  : string :=
  fold_left
    (fun p entry =>
       p +:+ "- " +:+ fst entry +:+ ": " +:+ snd entry +:+ nl)
    stages prompt.

Definition add_guidelines (prompt : string)
    (guidelines : list (string * list (string * string))) : string :=
  fold_left
    (fun p entry =>
       add_stages
         (p +:+ nl +:+ "### " +:+ underscores_to_spaces (upper (fst entry))
            +:+ ":" +:+ nl)
         (snd entry))
    guidelines prompt.

(** [for i, instruction in enumerate(instructions, 1)] *)
Fixpoint add_numbered (prompt : string) (i : nat) (instructions : list string)
  : string :=
  match instructions with
  | [] => prompt
  | instruction :: rest =>
      add_numbered (prompt +:+ str_of_nat i +:+ ". " +:+ instruction +:+ nl)
                   (S i) rest
  end.

Definition add_bullets (prompt : string) (items : list string) : string :=
  fold_left (fun p item => p +:+ "- " +:+ item +:+ nl) items prompt.

Definition is_empty {A} (l : list A) : bool :=
  match l with [] => true | _ => false end.

Definition build_enhanced_system_prompt (c : config) : string :=
  let base_prompt := get_system_prompt c in
  let guidelines := get_staging_guidelines c in
  let base_prompt :=
    if is_empty guidelines then base_prompt
    else add_guidelines
           (base_prompt +:+ nl +:+ nl +:+ "## TNM Staging Guidelines:" +:+ nl)
           guidelines in
  let instructions := get_analysis_instructions c in
  let base_prompt :=
    if is_empty instructions then base_prompt
    else add_numbered
           (base_prompt +:+ nl +:+ nl +:+ "## Analysis Instructions:" +:+ nl)
           1 instructions in
  let quality_indicators := get_quality_indicators c in
  let base_prompt :=
    if is_empty quality_indicators then base_prompt
    else add_bullets
           (base_prompt +:+ nl +:+ nl +:+ "## Quality Indicators:" +:+ nl)
           quality_indicators in
  let output_format := get_output_format c in
  if is_empty output_format then base_prompt
  else add_bullets (base_prompt +:+ nl +:+ nl +:+ "## Output Format:" +:+ nl)
                   output_format.

Definition sample_config : config :=
  {| system_prompt := Some "You stage NSCLC.";
     analysis_prompt := None;
     staging_guidelines :=
       Some [("t_stage", [("T1", "Tumor <= 3 cm"); ("T2", "Tumor > 3 cm")])];
     analysis_instructions := Some ["Measure the tumor"; "Stage the nodes"];
     quality_indicators := None;
     output_format := Some ["Use the tool"] |}%string.

End Prompt.

(** ** The handler with the modelled analyser *)

(** The services of the handler when its analyser is [analyze_ct_scan] with
    an initialised client; the other services are those of
    [Main.ref_services]. *)
Definition analysed_services (env : Vision.Environment)
  : Main.Services Vision.StagingResult :=
  {| Main.NamedTemporaryFile := Main.NamedTemporaryFile (Services := Main.ref_services);
     Main.tmp_file_write := Main.tmp_file_write (Services := Main.ref_services);
     Main.image_processor_read_and_normalize := fun path fs =>
       match fs !! path with
       | Some (_ :: _) => (Ok "data:image/png;base64,iVBORw=="%string, fs)
       | _ => (Raise OSError, fs)
       end;
     Main.vision_analyzer_analyze_ct_scan := fun image fs =>
       (match Vision.analyze_ct_scan (env := env) true image with
        | Vision.Done r => Ok r
        | Vision.Failed _ => Raise OSError
        end, fs);
     Main.str_of_exn := Main.str_of_exn (Services := Main.ref_services) |}.

Definition text_upload : Main.UploadFile :=
  {| Main.content_type := Some "text/plain"%string;
     Main.filename := Some "notes.txt"%string;
     Main.read := Ok [Byte.x68; Byte.x69];
     Main.seek := Ok tt |}.

(** Services whose write to the temporary file fails after the file was
    created. *)
Definition failing_write_services : Main.Services string :=
  {| Main.NamedTemporaryFile := Main.NamedTemporaryFile (Services := Main.ref_services);
     Main.tmp_file_write := fun path bytes fs => (Raise OSError, fs);
     Main.image_processor_read_and_normalize :=
       Main.image_processor_read_and_normalize (Services := Main.ref_services);
     Main.vision_analyzer_analyze_ct_scan :=
       Main.vision_analyzer_analyze_ct_scan (Services := Main.ref_services);
     Main.str_of_exn := Main.str_of_exn (Services := Main.ref_services) |}.

(** * Properties *)

(** ** Facts of IEEE-754 arithmetic the proofs use *)

Lemma SFcompare_refl_not_Lt (x : spec_float) : SFcompare x x <> Some Lt.
Proof.
  destruct x as [s|s| |s m e]; simpl; try congruence.
  - destruct s; congruence.
  - destruct s; rewrite Z.compare_refl;
      change (Pos.compare_cont Eq m m) with (Pos.compare m m);
      rewrite Pos.compare_refl; simpl; congruence.
Qed.

Lemma SFltb_irrefl (x : spec_float) : SFltb x x = false.
Proof.
  unfold SFltb. pose proof (SFcompare_refl_not_Lt x) as H.
  destruct (SFcompare x x) as [[ | | ]|]; congruence.
Qed.

Lemma SFleb_refl (x : spec_float) : is_nan x = false -> SFleb x x = true.
Proof.
  unfold SFleb. destruct x as [s|s| |s m e]; simpl; try congruence; intros _.
  - destruct s; reflexivity.
  - destruct s; rewrite Z.compare_refl;
      change (Pos.compare_cont Eq m m) with (Pos.compare m m);
      rewrite Pos.compare_refl; reflexivity.
Qed.

(** [d / d] is exactly 1.0 for every finite nonzero binary64 value. *)
Lemma F64_div_self (d : spec_float) :
  is_finite_nonzero d = true -> F64.div d d = F64.of_Z 1.
Proof.
  destruct d as [s|s| |s m e]; simpl; try discriminate; intros _.
  unfold F64.div, SFdiv, SFdiv_core_binary.
  replace (Zdigits2 (Z.pos m) + e - (Zdigits2 (Z.pos m) + e)) with 0 by lia.
  rewrite Z.sub_diag.
  change (Z.min (fexp F64.prec F64.emax 0) 0) with (-53).
  change (0 - -53) with 53.
  cbv iota beta.
  assert (Hq : Z.div_eucl (Z.shiftl (Z.pos m) 53) (Z.pos m) = (2 ^ 53, 0)).
  { rewrite Z.shiftl_mul_pow2 by lia.
    pose proof (Z.div_eucl_eq (Z.pos m * 2 ^ 53) (Z.pos m) ltac:(lia)) as E.
    pose proof (Z.mod_pos_bound (Z.pos m * 2 ^ 53) (Z.pos m) ltac:(lia)) as B.
    unfold Z.modulo in B.
    destruct (Z.div_eucl (Z.pos m * 2 ^ 53) (Z.pos m)) as [q r].
    assert (q = 2 ^ 53) by nia. subst q.
    f_equal. lia. }
  rewrite Hq.
  assert (Hl : new_location (Z.pos m) 0 = loc_Exact).
  { unfold new_location, new_location_even, new_location_odd.
    destruct (Z.even (Z.pos m)); reflexivity. }
  rewrite Hl. rewrite xorb_nilpotent. vm_compute. reflexivity.
Qed.

(** [x - x] is a zero for every finite binary64 value. *)
Lemma F64_sub_self (x : spec_float) :
  is_finite x = true -> exists s, F64.sub x x = S754_zero s.
Proof.
  destruct x as [s|s| |s m e]; simpl; try discriminate; intros _.
  - destruct s; eexists; reflexivity.
  - unfold F64.sub, SFsub. rewrite Z.sub_diag. eexists. reflexivity.
Qed.

Lemma F64_zero_div (s : bool) (d : spec_float) :
  is_finite_nonzero d = true -> exists s', F64.div (S754_zero s) d = S754_zero s'.
Proof.
  destruct d as [t|t| |t m e]; simpl; try discriminate; intros _.
  eexists. reflexivity.
Qed.

Lemma F64_zero_mul_255 (s : bool) : f_to_uint8 (F64.mul (S754_zero s) f255) = 0.
Proof. destruct s; reflexivity. Qed.

(** Rounding never yields NaN: the conversion of an integer is a zero, a
    finite value or an infinity. *)
Lemma iter_pos_invariant {A : Type} (P : A -> Prop) (f : A -> A) :
  (forall x, P x -> P (f x)) ->
  forall (p : positive) (x : A), P x -> P (SpecFloat.iter_pos f p x).
Proof.
  intros Hf. induction p as [p IH|p IH|]; intros x Hx; simpl; auto.
Qed.

Lemma shr_1_nonneg (mrs : shr_record) : 0 <= shr_m mrs -> 0 <= shr_m (shr_1 mrs).
Proof.
  destruct mrs as [m r s]. simpl.
  destruct m as [|[p|p|]|[p|p|]]; simpl; lia.
Qed.

Lemma shr_fexp_nonneg (prec emax m e : Z) (l : location) :
  0 <= m -> 0 <= shr_m (fst (shr_fexp prec emax m e l)).
Proof.
  intros Hm. unfold shr_fexp, shr.
  assert (H0 : 0 <= shr_m (shr_record_of_loc m l))
    by (destruct l as [|[ | | ]]; simpl; exact Hm).
  destruct (fexp prec emax (Zdigits2 m + e) - e) as [|p|p]; simpl; auto.
  apply (iter_pos_invariant (fun r => 0 <= shr_m r)); auto using shr_1_nonneg.
Qed.

Lemma round_nearest_even_nonneg (m : Z) (l : location) :
  0 <= m -> 0 <= round_nearest_even m l.
Proof.
  intros Hm. destruct l as [|[ | | ]]; simpl; try lia.
  destruct (Z.even m); lia.
Qed.

Lemma binary_round_aux_not_nan (prec emax : Z) (s : bool) (m e : Z) (l : location) :
  0 <= m -> is_nan (binary_round_aux prec emax s m e l) = false.
Proof.
  intros Hm. unfold binary_round_aux.
  pose proof (shr_fexp_nonneg prec emax m e l Hm) as H1.
  destruct (shr_fexp prec emax m e l) as [mrs' e']. simpl in H1.
  pose proof (shr_fexp_nonneg prec emax
                (round_nearest_even (shr_m mrs') (loc_of_shr_record mrs')) e'
                loc_Exact (round_nearest_even_nonneg _ _ H1)) as H2.
  destruct (shr_fexp prec emax _ e' loc_Exact) as [mrs'' e'']. simpl in H2.
  destruct (shr_m mrs'') as [|p|p]; try reflexivity; try lia.
  destruct (e'' <=? emax - prec); reflexivity.
Qed.

Lemma binary_normalize_not_nan (prec emax z e : Z) :
  is_nan (binary_normalize prec emax z e false) = false.
Proof.
  destruct z as [|p|p]; simpl; try reflexivity;
    unfold binary_round;
    destruct (shl_align p e _) as [mz ez];
    apply binary_round_aux_not_nan; lia.
Qed.

Lemma F64_of_Z_not_nan (z : Z) : is_nan (F64.of_Z z) = false.
Proof. apply binary_normalize_not_nan. Qed.

Lemma SFltb_SFleb (a b : spec_float) : SFltb a b = true -> SFleb a b = true.
Proof.
  unfold SFltb, SFleb. destruct (SFcompare a b) as [[ | | ]|]; congruence.
Qed.

Lemma SFltb_not_nan (a b : spec_float) :
  SFltb a b = true -> is_nan a = false /\ is_nan b = false.
Proof.
  unfold SFltb. destruct a, b; simpl; try discriminate; auto.
Qed.

Lemma finite_span (hi lo : spec_float) :
  is_finite_nonzero (F64.sub hi lo) = true ->
  is_finite hi = true /\ is_finite lo = true.
Proof.
  destruct hi as [s|s| |s m e], lo as [t|t| |t n f]; simpl;
    try (destruct s, t; simpl; discriminate); try discriminate; auto.
Qed.

(** ** The windowing transform *)

Lemma f_to_uint8_range (x : spec_float) : 0 <= f_to_uint8 x <= 255.
Proof.
  unfold f_to_uint8. destruct (is_finite x); [|lia].
  unfold wrap. simpl dt_signed. cbv iota.
  change (2 ^ dt_bits uint8) with 256.
  pose proof (Z.mod_pos_bound (trunc x) 256 ltac:(lia)). lia.
Qed.

Lemma lookup_map {A B : Type} (f : A -> B) (l : list A) (i : nat) :
  map f l !! i = f <$> (l !! i).
Proof.
  revert i. induction l as [|a l IH]; intros [|i]; simpl; auto.
Qed.

(** Clipping, when the bounds are ordered: the value itself strictly inside
    the window, the nearer bound outside of it. *)
Lemma np_clip_cases (v lo hi : spec_float) :
  is_nan v = false -> flt lo hi = true ->
  np_clip v lo hi =
    if fgt v lo then (if flt v hi then v else hi) else lo.
Proof.
  intros Hv Hlh. unfold np_clip, npy_max, npy_min. rewrite Hv.
  destruct (SFltb_not_nan _ _ Hlh) as [Hlo Hhi].
  destruct (fgt v lo); [rewrite Hv|rewrite Hlo, Hlh]; reflexivity.
Qed.

Lemma np_clip_bounds (v lo hi : spec_float) :
  is_nan v = false -> flt lo hi = true ->
  SFleb lo (np_clip v lo hi) = true /\ SFleb (np_clip v lo hi) hi = true.
Proof.
  intros Hv Hlh. rewrite np_clip_cases by assumption.
  destruct (SFltb_not_nan _ _ Hlh) as [Hlo Hhi].
  destruct (fgt v lo) eqn:Hg.
  - destruct (flt v hi) eqn:Hl.
    + split; apply SFltb_SFleb; assumption.
    + split; [apply SFltb_SFleb; assumption | apply SFleb_refl; assumption].
  - split; [apply SFleb_refl; assumption | apply SFltb_SFleb; assumption].
Qed.

Lemma window_sample_low (lo hi : spec_float) (x : Z) :
  flt lo hi = true -> is_finite_nonzero (F64.sub hi lo) = true ->
  F64.of_Z x = lo -> f_to_uint8 (window_sample lo hi x) = 0.
Proof.
  intros Hlh Hspan Hx. unfold window_sample. rewrite Hx.
  destruct (SFltb_not_nan _ _ Hlh) as [Hlo _].
  rewrite np_clip_cases by assumption.
  unfold fgt. rewrite SFltb_irrefl.
  destruct (finite_span _ _ Hspan) as [_ Hfin].
  destruct (F64_sub_self lo Hfin) as [s ->].
  destruct (F64_zero_div s _ Hspan) as [s' ->].
  apply F64_zero_mul_255.
Qed.

Lemma window_sample_high (lo hi : spec_float) (x : Z) :
  flt lo hi = true -> is_finite_nonzero (F64.sub hi lo) = true ->
  F64.of_Z x = hi -> f_to_uint8 (window_sample lo hi x) = 255.
Proof.
  intros Hlh Hspan Hx. unfold window_sample. rewrite Hx.
  destruct (SFltb_not_nan _ _ Hlh) as [_ Hhi].
  rewrite np_clip_cases by assumption.
  unfold fgt, flt in *. rewrite Hlh, SFltb_irrefl.
  rewrite F64_div_self by assumption.
  vm_compute. reflexivity.
Qed.

(** C3 (amended): for every integer array, every center and every width
    whose computed bounds [low = center - width/2], [high = center + width/2]
    satisfy [low < high] with a finite nonzero span [high - low], the
    transform returns an 8-bit array of the same shape whose samples are the
    8-bit casts of [(clip(x, low, high) - low) / (high - low) * 255]; every
    clipped value lies in [low, high]; a sample equal to [low] gives 0 and a
    sample equal to [high] gives 255. *)
Theorem apply_window_level_spec
    (image : ndarray) (window_center window_width : spec_float) :
  let low := F64.sub window_center (F64.div window_width (F64.of_Z 2)) in
  let high := F64.add window_center (F64.div window_width (F64.of_Z 2)) in
  let out := _apply_window_level image window_center window_width in
  flt low high = true ->
  is_finite_nonzero (F64.sub high low) = true ->
  dtype out = uint8 /\
  shape out = shape image /\
  data out =
    map (fun x =>
           f_to_uint8
             (F64.mul
                (F64.div (F64.sub (np_clip (F64.of_Z x) low high) low)
                         (F64.sub high low))
                (F64.of_Z 255)))
        (data image) /\
  (forall x, SFleb low (np_clip (F64.of_Z x) low high) = true /\
             SFleb (np_clip (F64.of_Z x) low high) high = true) /\
  (forall i x, data image !! i = Some x -> F64.of_Z x = low ->
               data out !! i = Some 0) /\
  (forall i x, data image !! i = Some x -> F64.of_Z x = high ->
               data out !! i = Some 255) /\
  Forall (fun y => 0 <= y <= 255) (data out).
Proof.
  intros low high out Hlh Hspan.
  assert (Hdata : data out = map (fun x => f_to_uint8 (window_sample low high x))
                                 (data image)).
  { unfold out, _apply_window_level, astype_uint8, window_scaled. simpl.
    rewrite map_map. reflexivity. }
  split; [reflexivity|]. split; [reflexivity|]. split; [exact Hdata|].
  split; [intros x; apply np_clip_bounds; auto using F64_of_Z_not_nan|].
  split; [|split].
  - intros i x Hi Hx. rewrite Hdata, lookup_map, Hi. simpl.
    f_equal. apply window_sample_low; assumption.
  - intros i x Hi Hx. rewrite Hdata, lookup_map, Hi. simpl.
    f_equal. apply window_sample_high; assumption.
  - rewrite Hdata. generalize (data image) as l.
    induction l as [|x l IH]; simpl; constructor;
      [apply f_to_uint8_range | exact IH].
Qed.

Lemma apply_window_level_spec_witness :
  let c := F64.of_Z (-600) in
  let w := F64.of_Z 1500 in
  F64.of_Z (-1350) = window_low c w /\ F64.of_Z 150 = window_high c w /\
  data (_apply_window_level lung_row c w) !! 1%nat = Some 0 /\
  data (_apply_window_level lung_row c w) !! 3%nat = Some 255.
Proof.
  intros c w.
  assert (H1 : flt (window_low c w) (window_high c w) = true)
    by (vm_compute; reflexivity).
  assert (H2 : is_finite_nonzero (F64.sub (window_high c w) (window_low c w)) = true)
    by (vm_compute; reflexivity).
  destruct (apply_window_level_spec lung_row c w H1 H2)
    as (_ & _ & _ & _ & Hlow & Hhigh & _).
  split; [vm_compute; reflexivity|]. split; [vm_compute; reflexivity|].
  split.
  - apply (Hlow 1%nat (-1350)); vm_compute; reflexivity.
  - apply (Hhigh 3%nat 150); vm_compute; reflexivity.
Defined.

(** C3 as stated fails: with the nonzero width -100 around the center 100
    the bounds are [low = 150 > high = 50], every sample is clipped to
    [high], and the sample 150, equal to [low], becomes 255 and not 0. *)
Lemma window_nonzero_width_counterexample :
  ~ (forall (image : ndarray) (window_center window_width : spec_float)
            (i : nat) (x : Z),
        is_finite_nonzero window_width = true ->
        data image !! i = Some x ->
        F64.of_Z x = window_low window_center window_width ->
        data (_apply_window_level image window_center window_width) !! i
        = Some 0).
Proof.
  intros H.
  specialize (H {| dtype := int16; shape := [1; 1]%nat; data := [150] |}
                (F64.of_Z 100) (F64.of_Z (-100)) 0%nat 150
                eq_refl eq_refl eq_refl).
  vm_compute in H. discriminate H.
Qed.

Example window_negative_width_values :
  data (_apply_window_level
          {| dtype := int16; shape := [1; 3]%nat; data := [50; 100; 150] |}
          (F64.of_Z 100) (F64.of_Z (-100)))
  = [255; 255; 255].
Proof. vm_compute. reflexivity. Qed.

Example window_lung_values :
  data (_apply_window_level lung_row (F64.of_Z (-600)) (F64.of_Z 1500))
  = [0; 0; 127; 255; 255].
Proof. vm_compute. reflexivity. Qed.

(** C2: the code at a dataset with [WindowWidth = 0]. The divisor
    [max_val - min_val] is zero, every scaled sample is [0/0 = NaN], no
    exception is raised, the width is not clamped and the windowing step is
    not skipped: the decoded array is the cast of the NaN array and not the
    pixel array. *)
Theorem zero_width_divides_by_zero :
  let c := F64.of_Z 40 in
  let w := F64.of_Z 0 in
  F64.sub (window_high c w) (window_low c w) = S754_zero false /\
  fdata (window_scaled two_samples c w) = [S754_nan; S754_nan] /\
  decode_dataset zero_width_dataset
  = Ok {| dtype := uint8; shape := [1; 2]%nat; data := [0; 0] |} /\
  decode_dataset zero_width_dataset <> Ok two_samples.
Proof.
  vm_compute. repeat split; try reflexivity. discriminate.
Qed.

(** On the window [0, 255] every 8-bit sample is a fixed point of the
    transform: [x / 255 * 255] rounds to a value whose integer part is [x]
    (checked on the 256 samples). *)
Lemma window_full_range_samples :
  forallb
    (fun n => f_to_uint8
                (window_sample
                   (window_low (own_window_center 0 255) (own_window_width 0 255))
                   (window_high (own_window_center 0 255) (own_window_width 0 255))
                   (Z.of_nat n))
              =? Z.of_nat n)
    (seq 0 256) = true.
Proof. vm_compute. reflexivity. Qed.

Lemma window_full_range_sample (x : Z) :
  0 <= x <= 255 ->
  f_to_uint8
    (window_sample
       (window_low (own_window_center 0 255) (own_window_width 0 255))
       (window_high (own_window_center 0 255) (own_window_width 0 255)) x)
  = x.
Proof.
  intros Hx.
  pose proof (proj1 (List.forallb_forall _ _) window_full_range_samples
                (Z.to_nat x)) as H.
  cbv beta in H. rewrite Z2Nat.id in H by lia.
  apply Z.eqb_eq, H, in_seq. lia.
Qed.

(** C9 (amended): for every 8-bit array whose minimum is 0 and whose maximum
    is 255, the windowing transform with the center and width derived from
    these extrema ([center = 127.5], [width = 255]) returns the array
    unchanged. *)
Theorem window_idempotent_on_full_range (image : ndarray) (mn mx : Z) :
  dtype image = uint8 ->
  Forall (fun x => 0 <= x <= 255) (data image) ->
  np_min (data image) = Ok mn ->
  np_max (data image) = Ok mx ->
  mn = 0 -> mx = 255 ->
  _apply_window_level image (own_window_center mn mx) (own_window_width mn mx)
  = image.
Proof.
  intros Hdt Hrange _ _ -> ->.
  destruct image as [dt sh l]. simpl in *. subst dt.
  unfold _apply_window_level, astype_uint8, window_scaled. simpl.
  f_equal. rewrite map_map.
  induction Hrange as [|x l Hx Hl IH]; simpl; [reflexivity|].
  rewrite IH. f_equal. apply window_full_range_sample. exact Hx.
Qed.

Lemma window_idempotent_on_full_range_witness :
  np_min (data ramp_full) = Ok 0 /\ np_max (data ramp_full) = Ok 255 /\
  _apply_window_level ramp_full (own_window_center 0 255) (own_window_width 0 255)
  = ramp_full.
Proof.
  split; [reflexivity|]. split; [reflexivity|].
  apply (window_idempotent_on_full_range ramp_full 0 255);
    try reflexivity.
  repeat constructor; simpl; lia.
Defined.

(** C9 as stated fails: the 8-bit array [10, 15, 20] has its own window
    [center = 15], [width = 10], and the transform stretches it to
    [0, 127, 255]. *)
Lemma window_idempotent_counterexample :
  ~ (forall (image : ndarray) (mn mx : Z),
        dtype image = uint8 ->
        Forall (fun x => 0 <= x <= 255) (data image) ->
        np_min (data image) = Ok mn ->
        np_max (data image) = Ok mx ->
        within_rounding
          (data (_apply_window_level image (own_window_center mn mx)
                                     (own_window_width mn mx)))
          (data image)).
Proof.
  intros H.
  assert (Hr : Forall (fun x => 0 <= x <= 255) (data ramp_10_20))
    by (repeat constructor; simpl; lia).
  specialize (H ramp_10_20 10 20 eq_refl Hr eq_refl eq_refl).
  change (data (_apply_window_level ramp_10_20 (own_window_center 10 20)
                                    (own_window_width 10 20)))
    with (data (astype_uint8 (window_scaled ramp_10_20 (own_window_center 10 20)
                                            (own_window_width 10 20)))) in H.
  assert (E : data (astype_uint8 (window_scaled ramp_10_20 (own_window_center 10 20)
                                            (own_window_width 10 20)))
              = [0; 127; 255]) by (vm_compute; reflexivity).
  rewrite E in H. unfold within_rounding in H. simpl in H.
  inversion H as [|? ? ? ? _ H2]; subst.
  inversion H2 as [|? ? ? ? H3 _]; subst.
  simpl in H3. lia.
Qed.

(** ** Paths *)

Lemma ascii_lower_eqb_dot (a : ascii) :
  Ascii.eqb (ascii_lower a) "." = Ascii.eqb a ".".
Proof. destruct a as [[] [] [] [] [] [] [] []]; reflexivity. Qed.

Lemma ascii_lower_eqb_slash (a : ascii) :
  Ascii.eqb (ascii_lower a) "/" = Ascii.eqb a "/".
Proof. destruct a as [[] [] [] [] [] [] [] []]; reflexivity. Qed.

Lemma rfind_lower (c : ascii) (s : string) :
  (forall a, Ascii.eqb (ascii_lower a) c = Ascii.eqb a c) ->
  rfind c (lower s) = rfind c s.
Proof.
  intros Hc. induction s as [|a s IH]; simpl; [reflexivity|].
  rewrite IH, Hc. reflexivity.
Qed.

Lemma length_lower (s : string) : String.length (lower s) = String.length s.
Proof. induction s as [|a s IH]; simpl; congruence. Qed.

Lemma get_lower (s : string) (n : nat) :
  String.get n (lower s) = option_map ascii_lower (String.get n s).
Proof.
  revert n. induction s as [|a s IH]; intros [|n]; simpl; auto.
Qed.

Lemma skip_leading_dots_lower (p : string) (fuel : nat) (i d : Z) :
  skip_leading_dots (lower p) i d fuel = skip_leading_dots p i d fuel.
Proof.
  revert i. induction fuel as [|fuel IH]; intros i; simpl; [reflexivity|].
  destruct (i <? d); [|reflexivity].
  rewrite get_lower.
  destruct (String.get (Z.to_nat i) p) as [c|]; simpl; [|reflexivity].
  rewrite ascii_lower_eqb_dot, IH. reflexivity.
Qed.

Lemma substring_lower (s : string) (n m : nat) :
  substring n m (lower s) = lower (substring n m s).
Proof.
  revert n m. induction s as [|a s IH]; intros [|n] [|m]; simpl;
    try reflexivity; rewrite IH; reflexivity.
Qed.

(** Lowering the path lowers its extension and nothing else of the split. *)
Lemma splitext_lower (p : string) :
  splitext (lower p) = (lower (fst (splitext p)), lower (snd (splitext p))).
Proof.
  unfold splitext.
  rewrite (rfind_lower "/" p ascii_lower_eqb_slash),
          (rfind_lower "." p ascii_lower_eqb_dot),
          length_lower, skip_leading_dots_lower, !substring_lower.
  destruct (_ && _); reflexivity.
Qed.

Example splitext_examples :
  splitext "/tmp/tmpab12.dcm" = ("/tmp/tmpab12", ".dcm") /\
  splitext "/data.d/scan" = ("/data.d/scan", "") /\
  splitext "/tmp/.dcm" = ("/tmp/.dcm", "") /\
  splitext "a.tar.gz" = ("a.tar", ".gz") /\
  lower "IMG_01.DcM" = "img_01.dcm".
Proof. repeat split; reflexivity. Qed.

(** ** The format classifier *)

Section Classifier.
Context {lib : Library}.

(** C7: the classifier never raises. When the extension of the lowered path
    is ".dcm" it answers [True] and reads nothing; otherwise it makes one
    header-only read ([stop_before_pixels=True]) and answers [True] when the
    parse succeeds and [False] whatever exception the parse raises. *)
Theorem is_dicom_file_total (file_path : string) (log : list io_event) :
  (exists b log', _is_dicom_file file_path log = (Ok b, log')) /\
  (snd (splitext (lower file_path)) = ".dcm" ->
   _is_dicom_file file_path log = (Ok true, log)) /\
  (snd (splitext (lower file_path)) <> ".dcm" ->
   (forall ds, dcmread file_path true = Ok ds ->
      _is_dicom_file file_path log
      = (Ok true, log ++ [Read_dicom file_path true])) /\
   (forall e, dcmread file_path true = Raise e ->
      _is_dicom_file file_path log
      = (Ok false, log ++ [Read_dicom file_path true]))).
Proof.
  unfold _is_dicom_file.
  destruct (String.eqb_spec (snd (splitext (lower file_path))) ".dcm") as [E|N].
  - split; [eauto|]. split; [reflexivity|]. intros C. contradiction.
  - unfold try_except, mbind_io, dcmread_io, mreturn.
    split; [|split; [intros C; contradiction|intros _; split]].
    + destruct (dcmread file_path true); eauto.
    + intros ds ->. reflexivity.
    + intros e ->. reflexivity.
Qed.

(** C10: the extension is compared after lowering the path, so a path whose
    extension is ".dcm" in any letter case is classified as DICOM without a
    read, as the lower-case one is. *)
Theorem is_dicom_file_extension_any_case (file_path : string) (log : list io_event) :
  lower (snd (splitext file_path)) = ".dcm" ->
  _is_dicom_file file_path log = (Ok true, log) /\
  _is_dicom_file file_path log = _is_dicom_file (lower file_path) log.
Proof.
  intros H.
  assert (E : forall p, snd (splitext (lower p)) = ".dcm" ->
                        _is_dicom_file p log = (Ok true, log)).
  { intros p Hp. unfold _is_dicom_file. rewrite Hp. reflexivity. }
  assert (Hl : snd (splitext (lower file_path)) = ".dcm")
    by (rewrite splitext_lower; exact H).
  assert (Hll : lower (lower file_path) = lower file_path).
  { clear. induction file_path as [|a s IH]; simpl; [reflexivity|].
    rewrite IH. f_equal. destruct a as [[] [] [] [] [] [] [] []]; reflexivity. }
  split; [apply E; exact Hl|].
  rewrite (E file_path Hl), (E (lower file_path)); [reflexivity|].
  rewrite Hll. exact Hl.
Qed.

End Classifier.

(** ** Base64 *)

Lemma b64_value_char_table :
  forallb (fun n => match b64_value (b64_char (N.of_nat n)) with
                    | Some v => N.eqb v (N.of_nat n)
                    | None => false
                    end)
          (seq 0 64) = true.
Proof. vm_compute. reflexivity. Qed.

Lemma b64_value_char (n : N) : (n < 64)%N -> b64_value (b64_char n) = Some n.
Proof.
  intros Hn.
  pose proof (proj1 (List.forallb_forall _ _) b64_value_char_table
                (N.to_nat n)) as H.
  cbv beta in H. rewrite N2Nat.id in H.
  assert (Hin : In (N.to_nat n) (seq 0 64)) by (apply in_seq; lia).
  specialize (H Hin).
  destruct (b64_value (b64_char n)) as [v|]; [|discriminate].
  apply N.eqb_eq in H. congruence.
Qed.

Lemma byte_of_to_N (b : Byte.byte) : byte_of (Byte.to_N b) = b.
Proof. unfold byte_of. rewrite Byte.of_to_N. reflexivity. Qed.

Lemma b64_pad_value : b64_value "=" = None.
Proof. reflexivity. Qed.

Ltac N_div_mod := zify; Z.to_euclidean_division_equations; lia.

Lemma sextets_bounds (a b c : N) :
  (a <= 255 -> b <= 255 -> c <= 255 ->
   a / 4 < 64 /\ a mod 4 * 16 + b / 16 < 64 /\
   b mod 16 * 4 + c / 64 < 64 /\ c mod 64 < 64)%N.
Proof. intros; repeat split; N_div_mod. Qed.

Lemma sextets_inverse (a b c : N) :
  (a <= 255 -> b <= 255 -> c <= 255 ->
   a / 4 * 4 + (a mod 4 * 16 + b / 16) / 16 = a /\
   (a mod 4 * 16 + b / 16) mod 16 * 16 + (b mod 16 * 4 + c / 64) / 4 = b /\
   (b mod 16 * 4 + c / 64) mod 4 * 64 + c mod 64 = c)%N.
Proof. intros; repeat split; N_div_mod. Qed.

Lemma b64_roundtrip_bounded (n : nat) (l : list Byte.byte) :
  (length l <= n)%nat -> b64decode (b64encode l) = Some l.
Proof.
  revert l. induction n as [|n IH]; intros l Hl.
  - destruct l; [reflexivity|simpl in Hl; lia].
  - destruct l as [|a [|b [|c rest]]]; [reflexivity| | |].
    + pose proof (Byte.to_N_bounded a) as Ha.
      destruct (sextets_bounds (Byte.to_N a) 0 0 Ha) as (B1 & B2 & _);
        [lia|lia|].
      destruct (sextets_inverse (Byte.to_N a) 0 0 Ha) as (I1 & _); [lia|lia|].
      cbn [b64encode b64decode].
      change (Byte.to_N a mod 4 * 16 + 0 / 16)%N
        with (Byte.to_N a mod 4 * 16 + 0)%N in *.
      rewrite N.add_0_r in *.
      rewrite (b64_value_char _ B1), (b64_value_char _ B2), b64_pad_value.
      simpl. rewrite I1, byte_of_to_N. reflexivity.
    + pose proof (Byte.to_N_bounded a) as Ha.
      pose proof (Byte.to_N_bounded b) as Hb.
      destruct (sextets_bounds (Byte.to_N a) (Byte.to_N b) 0 Ha Hb)
        as (B1 & B2 & B3 & _); [lia|].
      destruct (sextets_inverse (Byte.to_N a) (Byte.to_N b) 0 Ha Hb)
        as (I1 & I2 & _); [lia|].
      cbn [b64encode b64decode].
      change (Byte.to_N b mod 16 * 4 + 0 / 64)%N
        with (Byte.to_N b mod 16 * 4 + 0)%N in *.
      rewrite N.add_0_r in *.
      rewrite (b64_value_char _ B1), (b64_value_char _ B2),
              (b64_value_char _ B3), b64_pad_value.
      simpl. rewrite I1, I2, !byte_of_to_N. reflexivity.
    + pose proof (Byte.to_N_bounded a) as Ha.
      pose proof (Byte.to_N_bounded b) as Hb.
      pose proof (Byte.to_N_bounded c) as Hc.
      destruct (sextets_bounds _ _ _ Ha Hb Hc) as (B1 & B2 & B3 & B4).
      destruct (sextets_inverse _ _ _ Ha Hb Hc) as (I1 & I2 & I3).
      cbn [b64encode b64decode].
      rewrite (b64_value_char _ B1), (b64_value_char _ B2),
              (b64_value_char _ B3), (b64_value_char _ B4).
      rewrite IH by (simpl in Hl; lia).
      rewrite I1, I2, I3, !byte_of_to_N.
      destruct (b64encode rest); reflexivity.
Qed.

(** Decoding what [b64encode] produced gives the bytes back. *)
Lemma b64decode_b64encode (l : list Byte.byte) :
  b64decode (b64encode l) = Some l.
Proof. apply (b64_roundtrip_bounded (length l)). lia. Qed.

Example b64encode_examples :
  b64encode [Byte.x4d; Byte.x61; Byte.x6e] = "TWFu" /\
  b64encode [Byte.x4d; Byte.x61] = "TWE=" /\
  b64encode [Byte.x4d] = "TQ==" /\
  b64encode [Byte.x89; Byte.x50; Byte.x4e; Byte.x47] = "iVBORw==".
Proof. repeat split; reflexivity. Qed.

(** ** The DICOM decoder *)

Lemma first_value_first_only (v : ds_value) :
  first_value (first_only v) = first_value v.
Proof. destruct v; reflexivity. Qed.

(** Decoding resolves a multi-valued attribute to its first value. *)
Lemma decode_dataset_first_values (ds : Dataset) :
  decode_dataset (with_first_values ds) = decode_dataset ds.
Proof.
  unfold decode_dataset, with_first_values, window_step, photometric_step. simpl.
  destruct (pixel_array ds) as [pa|e]; simpl; [|reflexivity].
  destruct (PhotometricInterpretation ds) as [p|]; simpl;
    [destruct (String.eqb p "MONOCHROME1");
       [destruct (invert pa) as [pa'|e]; simpl; [|reflexivity]|]|];
    (destruct (WindowCenter ds) as [c|], (WindowWidth ds) as [w|]; simpl;
       rewrite ?first_value_first_only; reflexivity).
Qed.

(** With both attributes present and valued, the decoded array is the
    windowing transform of the array after the photometric step. *)
Lemma decode_dataset_windowed (ds : Dataset) (pa pa' : ndarray)
    (wc ww : ds_value) (c w : spec_float) :
  pixel_array ds = Ok pa ->
  photometric_step ds pa = Ok pa' ->
  WindowCenter ds = Some wc -> WindowWidth ds = Some ww ->
  first_value wc = Some c -> first_value ww = Some w ->
  decode_dataset ds = Ok (_apply_window_level pa' c w).
Proof.
  intros Hp Hs Hc Hw Hfc Hfw. unfold decode_dataset, window_step.
  rewrite Hp. simpl. rewrite Hs. simpl. rewrite Hc, Hw, Hfc, Hfw. reflexivity.
Qed.

Lemma decode_dataset_multi (ds : Dataset) (pa pa' : ndarray)
    (c w : spec_float) (cs ws : list spec_float) :
  pixel_array ds = Ok pa ->
  photometric_step ds pa = Ok pa' ->
  WindowCenter ds = Some (DS_multi c cs) ->
  WindowWidth ds = Some (DS_multi w ws) ->
  decode_dataset ds = Ok (_apply_window_level pa' c w).
Proof.
  intros Hp Hs Hc Hw.
  apply (decode_dataset_windowed ds pa pa' _ _ c w Hp Hs Hc Hw); reflexivity.
Qed.

(** A scalar [x], or a [MultiValue] whose first element is [x], resolves to
    [x]. *)
Lemma first_value_resolves (v : ds_value) (x : spec_float) :
  v = DS_single x \/ (exists others, v = DS_multi x others) ->
  first_value v = Some x /\ first_only v = DS_single x.
Proof. intros [->|[others ->]]; split; reflexivity. Qed.

Section Decoder.
Context {lib : Library}.

Lemma read_dicom_decodes (file_path : string) (ds : Dataset)
    (log : list io_event) :
  dcmread file_path false = Ok ds ->
  _read_dicom file_path log
  = (decode_dataset ds, log ++ [Read_dicom file_path false]).
Proof.
  intros Hr.
  unfold _read_dicom, try_except, mbind_io, dcmread_io, lift, mraise.
  rewrite Hr. destruct (decode_dataset ds); reflexivity.
Qed.

(** C6: a DICOM file whose WindowCenter or WindowWidth is multi-valued is
    decoded as the file that carries the same dataset (same pixel data, same
    photometric interpretation) with each of these attributes reduced to
    its first value, as a scalar: the two decodings agree on every outcome,
    and when the pixel data decodes and both attributes have a value, scalar
    or multi-valued, both are the windowing transform with the first center
    and the first width, applied to the array after the photometric
    step. *)
Theorem read_dicom_multi_value
    (path_multi path_single : string) (ds : Dataset) (log : list io_event) :
  dcmread path_multi false = Ok ds ->
  dcmread path_single false = Ok (with_first_values ds) ->
  pixel_array (with_first_values ds) = pixel_array ds /\
  PhotometricInterpretation (with_first_values ds)
  = PhotometricInterpretation ds /\
  fst (_read_dicom path_multi log) = fst (_read_dicom path_single log) /\
  forall (pa pa' : ndarray) (wc ww : ds_value) (c w : spec_float),
    pixel_array ds = Ok pa ->
    photometric_step ds pa = Ok pa' ->
    WindowCenter ds = Some wc -> WindowWidth ds = Some ww ->
    wc = DS_single c \/ (exists others, wc = DS_multi c others) ->
    ww = DS_single w \/ (exists others, ww = DS_multi w others) ->
    WindowCenter (with_first_values ds) = Some (DS_single c) /\
    WindowWidth (with_first_values ds) = Some (DS_single w) /\
    _read_dicom path_multi log
    = (Ok (_apply_window_level pa' c w),
       log ++ [Read_dicom path_multi false]) /\
    _read_dicom path_single log
    = (Ok (_apply_window_level pa' c w),
       log ++ [Read_dicom path_single false]).
Proof.
  intros Hm Hs.
  rewrite (read_dicom_decodes path_multi ds log Hm),
    (read_dicom_decodes path_single (with_first_values ds) log Hs),
    decode_dataset_first_values.
  split; [reflexivity|]. split; [reflexivity|]. split; [reflexivity|].
  intros pa pa' wc ww c w Hp Hstep Hc Hw Hrc Hrw.
  destruct (first_value_resolves wc c Hrc) as [Hfc Hoc].
  destruct (first_value_resolves ww w Hrw) as [Hfw How].
  unfold with_first_values at 1 2. simpl.
  rewrite Hc, Hw. simpl. rewrite Hoc, How.
  rewrite (decode_dataset_windowed ds pa pa' wc ww c w Hp Hstep Hc Hw Hfc Hfw).
  repeat split; reflexivity.
Qed.

End Decoder.

Lemma read_dicom_multi_value_witness :
  dcmread (Library := ref_library) "/data/multi.dcm" false = Ok multi_dataset /\
  WindowCenter multi_dataset
  = Some (DS_multi (F64.of_Z (-600)) [F64.of_Z 40]) /\
  WindowCenter (with_first_values multi_dataset)
  = Some (DS_single (F64.of_Z (-600))) /\
  fst (_read_dicom (lib := ref_library) "/data/multi.dcm" [])
  = fst (_read_dicom (lib := ref_library) "/data/single.dcm" []) /\
  fst (_read_dicom (lib := ref_library) "/data/multi.dcm" [])
  = Ok {| dtype := uint8; shape := [2; 2]%nat; data := [59; 127; 229; 255] |}.
Proof.
  destruct (read_dicom_multi_value (lib := ref_library)
              "/data/multi.dcm" "/data/single.dcm" multi_dataset []
              eq_refl eq_refl) as (_ & _ & Hsame & Hvalue).
  destruct (Hvalue ct_pixels ct_pixels _ _ (F64.of_Z (-600)) (F64.of_Z 1500)
              eq_refl eq_refl eq_refl eq_refl
              (or_intror (ex_intro _ [F64.of_Z 40] eq_refl))
              (or_intror (ex_intro _ [F64.of_Z 400] eq_refl)))
    as (Hcenter & _ & Hmulti & _).
  split; [reflexivity|]. split; [reflexivity|]. split; [exact Hcenter|].
  split; [exact Hsame|].
  rewrite Hmulti. vm_compute. reflexivity.
Defined.

Lemma is_dicom_file_extension_any_case_witness :
  lower (snd (splitext "/tmp/upload_7f3a.DCM")) = ".dcm" /\
  _is_dicom_file (lib := ref_library) "/tmp/upload_7f3a.DCM" [] = (Ok true, []).
Proof.
  split; [reflexivity|].
  apply (is_dicom_file_extension_any_case (lib := ref_library)
           "/tmp/upload_7f3a.DCM" []).
  reflexivity.
Defined.

(** *** Photometric inversion *)

Lemma wrap_in_range (d : int_dtype) (z : Z) :
  0 < dt_bits d -> dt_min d <= z <= dt_max d -> wrap d z = z.
Proof.
  unfold wrap, dt_min, dt_max. intros Hb Hz.
  assert (E : 2 ^ dt_bits d = 2 * 2 ^ (dt_bits d - 1)).
  { rewrite <- Z.pow_succ_r by lia. f_equal. lia. }
  assert (0 < 2 ^ (dt_bits d - 1)) by (apply Z.pow_pos_nonneg; lia).
  destruct (dt_signed d).
  - rewrite Z.mod_small by lia. lia.
  - apply Z.mod_small. lia.
Qed.

Lemma invert_exact (pa : ndarray) (mx : Z) :
  0 < dt_bits (dtype pa) ->
  np_max (data pa) = Ok mx ->
  Forall (fun x => dt_min (dtype pa) <= mx - x <= dt_max (dtype pa)) (data pa) ->
  invert pa = Ok {| dtype := dtype pa; shape := shape pa;
                    data := map (fun x => mx - x) (data pa) |}.
Proof.
  intros Hb Hmx Hfit. unfold invert. rewrite Hmx. simpl. do 2 f_equal.
  clear Hmx. induction Hfit as [|x l Hx Hl IH]; simpl; [reflexivity|].
  rewrite IH, wrap_in_range by assumption. reflexivity.
Qed.

(** For an unsigned dtype the differences [max - x] always fit. *)
Lemma fold_max_ge (l : list Z) (x : Z) :
  x <= fold_left Z.max l x /\ Forall (fun y => y <= fold_left Z.max l x) l.
Proof.
  revert x. induction l as [|a l IH]; intros x; simpl.
  - split; [lia|constructor].
  - destruct (IH (Z.max x a)) as [H1 H2]. split; [lia|].
    constructor; [lia|exact H2].
Qed.

Lemma np_max_upper (l : list Z) (mx : Z) :
  np_max l = Ok mx -> Forall (fun y => y <= mx) l.
Proof.
  destruct l as [|x t]; simpl; [discriminate|]. intros [= <-].
  destruct (fold_max_ge t x) as [H1 H2]. constructor; assumption.
Qed.

Lemma unsigned_differences_fit (pa : ndarray) (mx : Z) :
  dt_signed (dtype pa) = false ->
  Forall (fun x => 0 <= x <= dt_max (dtype pa)) (data pa) ->
  np_max (data pa) = Ok mx ->
  Forall (fun x => dt_min (dtype pa) <= mx - x <= dt_max (dtype pa)) (data pa).
Proof.
  intros Hu Hr Hmx. pose proof (np_max_upper _ _ Hmx) as Hup.
  assert (Hm : mx <= dt_max (dtype pa)).
  { destruct (data pa) as [|x t]; [discriminate|].
    simpl in Hmx. injection Hmx as <-.
    clear Hup. inversion Hr as [|? ? Hx Ht]; subst. clear Hr.
    revert x Hx. induction Ht as [|a l Ha Hl IH]; intros x Hx; simpl; [lia|].
    apply IH. lia. }
  unfold dt_min. rewrite Hu.
  rewrite Forall_forall in *. intros x Hx.
  specialize (Hr x Hx). specialize (Hup x Hx). simpl in *. lia.
Qed.

(** C4 (amended): for a dataset whose photometric interpretation is
    MONOCHROME1 and whose differences [max - x] fit the dtype of the pixel
    array, the array after the photometric step is [max(original) -
    original[i]] at every index, so the order of any two samples is
    reversed. This array is the decoded array when the window attributes are
    not both present; when they are, the decoded array is its windowing.
    When the tag is absent or is not MONOCHROME1 the pixel array is not
    inverted. *)
Theorem monochrome1_inverts (ds : Dataset) (pa : ndarray) (mx : Z) :
  pixel_array ds = Ok pa ->
  0 < dt_bits (dtype pa) ->
  np_max (data pa) = Ok mx ->
  Forall (fun x => dt_min (dtype pa) <= mx - x <= dt_max (dtype pa)) (data pa) ->
  let inverted := {| dtype := dtype pa; shape := shape pa;
                     data := map (fun x => mx - x) (data pa) |} in
  (PhotometricInterpretation ds = Some "MONOCHROME1" ->
     photometric_step ds pa = Ok inverted /\
     (forall i x, data pa !! i = Some x -> data inverted !! i = Some (mx - x)) /\
     (forall i j x y x' y',
        data pa !! i = Some x -> data pa !! j = Some y ->
        data inverted !! i = Some x' -> data inverted !! j = Some y' ->
        (x < y <-> y' < x')) /\
     (WindowCenter ds = None \/ WindowWidth ds = None ->
        decode_dataset ds = Ok inverted) /\
     (forall c w wc ww,
        WindowCenter ds = Some wc -> WindowWidth ds = Some ww ->
        first_value wc = Some c -> first_value ww = Some w ->
        decode_dataset ds = Ok (_apply_window_level inverted c w))) /\
  ((PhotometricInterpretation ds = None \/
    exists p, PhotometricInterpretation ds = Some p /\ p <> "MONOCHROME1") ->
   photometric_step ds pa = Ok pa).
Proof.
  intros Hpa Hb Hmx Hfit inverted. split.
  - intros Hpi.
    assert (Hstep : photometric_step ds pa = Ok inverted).
    { unfold photometric_step. rewrite Hpi. simpl.
      apply invert_exact; assumption. }
    assert (Hget : forall i x, data pa !! i = Some x ->
                               data inverted !! i = Some (mx - x)).
    { intros i x Hi. unfold inverted. simpl. rewrite lookup_map, Hi.
      reflexivity. }
    split; [exact Hstep|]. split; [exact Hget|]. split; [|split].
    + intros i j x y x' y' Hi Hj Hi' Hj'.
      rewrite (Hget i x Hi) in Hi'. rewrite (Hget j y Hj) in Hj'.
      injection Hi' as <-. injection Hj' as <-. lia.
    + intros Hnone. unfold decode_dataset. rewrite Hpa. simpl.
      rewrite Hstep. simpl. unfold window_step.
      destruct Hnone as [-> | ->]; [reflexivity|].
      destruct (WindowCenter ds); reflexivity.
    + intros c w wc ww Hc Hw Hfc Hfw. unfold decode_dataset. rewrite Hpa.
      simpl. rewrite Hstep. simpl. unfold window_step.
      rewrite Hc, Hw, Hfc. simpl. rewrite Hfw. reflexivity.
  - intros [Hnone | [p [Hp Hne]]]; unfold photometric_step.
    + rewrite Hnone. reflexivity.
    + rewrite Hp. destruct (String.eqb_spec p "MONOCHROME1"); [contradiction|].
      reflexivity.
Qed.

Lemma monochrome1_inverts_witness :
  decode_dataset inverted_dataset
  = Ok {| dtype := uint16; shape := [1; 3]%nat; data := [200; 100; 0] |}.
Proof.
  assert (Hfit : Forall (fun x => dt_min uint16 <= 200 - x <= dt_max uint16)
                        [0; 100; 200])
    by (repeat constructor; vm_compute; discriminate).
  destruct (monochrome1_inverts inverted_dataset
              {| dtype := uint16; shape := [1; 3]%nat; data := [0; 100; 200] |}
              200 eq_refl eq_refl eq_refl Hfit) as [H _].
  destruct (H eq_refl) as (_ & _ & _ & Hdec & _).
  apply Hdec. left. reflexivity.
Defined.

(** C4 as stated fails: with MONOCHROME1 and both window attributes present
    the decoded array is the windowing of the inverted array; for the samples
    [0, 100, 200] and the window (100, 100) it is [255, 127, 0] and not
    [max - x] = [200, 100, 0]. *)
Lemma monochrome1_decoded_counterexample :
  ~ (forall (ds : Dataset) (pa out : ndarray) (mx : Z),
        pixel_array ds = Ok pa ->
        PhotometricInterpretation ds = Some "MONOCHROME1" ->
        np_max (data pa) = Ok mx ->
        decode_dataset ds = Ok out ->
        forall i x, data pa !! i = Some x -> data out !! i = Some (mx - x)).
Proof.
  intros H.
  specialize (H inverted_windowed_dataset
                {| dtype := uint16; shape := [1; 3]%nat; data := [0; 100; 200] |}
                {| dtype := uint8; shape := [1; 3]%nat; data := [255; 127; 0] |}
                200 eq_refl eq_refl eq_refl).
  assert (E : decode_dataset inverted_windowed_dataset
              = Ok {| dtype := uint8; shape := [1; 3]%nat;
                      data := [255; 127; 0] |})
    by (vm_compute; reflexivity).
  specialize (H E 0%nat 0 eq_refl). simpl in H. discriminate H.
Qed.

(** The subtraction is made in the dtype of the array: on 16-bit signed
    samples that span more than 32767 units it wraps around. *)
Example invert_wraps_int16 :
  invert {| dtype := int16; shape := [1; 2]%nat; data := [-32768; 32767] |}
  = Ok {| dtype := int16; shape := [1; 2]%nat; data := [-1; 0] |}.
Proof. vm_compute. reflexivity. Qed.

(** ** Normalisation *)

Lemma fold_min_le (l : list Z) (x : Z) :
  fold_left Z.min l x <= x /\ Forall (fun y => fold_left Z.min l x <= y) l.
Proof.
  revert x. induction l as [|a l IH]; intros x; simpl.
  - split; [lia|constructor].
  - destruct (IH (Z.min x a)) as [H1 H2]. split; [lia|].
    constructor; [lia|exact H2].
Qed.

(** An array whose maximum equals its minimum holds one value only. *)
Lemma flat_all_equal (l : list Z) :
  l <> [] -> np_max l = np_min l -> exists v, Forall (fun y => y = v) l.
Proof.
  destruct l as [|x t]; [congruence|]. intros _. simpl. intros [= E].
  destruct (fold_max_ge t x) as [M1 M2].
  destruct (fold_min_le t x) as [N1 N2].
  exists x. constructor; [reflexivity|].
  rewrite Forall_forall in *. intros y Hy.
  specialize (M2 y Hy). specialize (N2 y Hy). lia.
Qed.

Lemma np_maximum_same (f : spec_float) : np_maximum f f = f.
Proof. unfold np_maximum. destruct (_ || _); reflexivity. Qed.

Lemma np_minimum_same (f : spec_float) : np_minimum f f = f.
Proof. unfold np_minimum. destruct (_ || _); reflexivity. Qed.

Lemma fold_same (op : spec_float -> spec_float -> spec_float) (f : spec_float)
    (l : list spec_float) :
  op f f = f -> Forall (fun y => y = f) l -> fold_left op l f = f.
Proof.
  intros Hop Hl. induction Hl as [|y l -> Hl IH]; simpl; [reflexivity|].
  rewrite Hop. exact IH.
Qed.

Lemma flat_float_extrema (l : list Z) (v : Z) :
  l <> [] -> Forall (fun y => y = v) l ->
  fmax_of (map F32.of_Z l) = Ok (F32.of_Z v) /\
  fmin_of (map F32.of_Z l) = Ok (F32.of_Z v).
Proof.
  destruct l as [|x t]; [congruence|]. intros _ Hl.
  apply Forall_cons in Hl as [Hx Ht]. subst x. simpl.
  assert (Hm : Forall (fun y => y = F32.of_Z v) (map F32.of_Z t)).
  { induction Ht as [|y t Hy Ht IH]; simpl; constructor; [congruence|auto]. }
  split; f_equal; apply fold_same;
    auto using np_maximum_same, np_minimum_same.
Qed.

Section Normalizer.
Context {lib : Library}.

(** C5: a non-empty 2-D array whose maximum equals its minimum is
    normalised without an exception and without a division: the comparison
    [max > min] is false, the stretch is replaced by zeros, and, OpenCV's
    equalisation and blur leaving the all-zero image as it is, the result is
    the all-zero 8-bit array of the same shape. *)
Theorem normalize_flat_image (image : ndarray) (h w : nat) :
  shape image = [h; w] ->
  data image <> [] ->
  np_max (data image) = np_min (data image) ->
  equalizeHist (zeros_uint8_like image) = Ok (zeros_uint8_like image) ->
  GaussianBlur (zeros_uint8_like image) (3, 3)%nat 0
  = Ok (zeros_uint8_like image) ->
  (exists m, fmax_of (fdata (astype_float32 image)) = Ok m /\
             fmin_of (fdata (astype_float32 image)) = Ok m /\
             fgt m m = false) /\
  minmax_stretch (astype_float32 image)
  = Ok {| fshape := shape image;
          fdata := map (fun _ => S754_zero false) (data image) |} /\
  _normalize_ct_image image = Ok (zeros_uint8_like image).
Proof.
  intros Hshape Hne Hflat Heq Hblur.
  destruct (flat_all_equal _ Hne Hflat) as [v Hv].
  destruct (flat_float_extrema _ v Hne Hv) as [Hmax Hmin].
  assert (Hstretch :
            minmax_stretch (astype_float32 image)
            = Ok {| fshape := shape image;
                    fdata := map (fun _ => S754_zero false) (data image) |}).
  { unfold minmax_stretch, astype_float32. simpl.
    rewrite Hmax, Hmin. simpl. unfold fgt. rewrite SFltb_irrefl.
    rewrite map_map. reflexivity. }
  split; [|split; [exact Hstretch|]].
  - exists (F32.of_Z v). unfold astype_float32. simpl.
    split; [exact Hmax|]. split; [exact Hmin|]. apply SFltb_irrefl.
  - unfold _normalize_ct_image.
    replace (2 <? length (shape image))%nat with false
      by (rewrite Hshape; reflexivity).
    rewrite Hstretch. simpl rbind.
    assert (Hz : astype_uint8
                   {| fshape := shape image;
                      fdata := map (fun _ => S754_zero false) (data image) |}
                 = zeros_uint8_like image).
    { unfold astype_uint8, zeros_uint8_like. simpl. rewrite map_map.
      reflexivity. }
    rewrite Hz, Heq. simpl rbind. rewrite Hblur. reflexivity.
Qed.

End Normalizer.

Lemma normalize_flat_image_witness :
  _normalize_ct_image (lib := ref_library)
    {| dtype := int16; shape := [2; 2]%nat; data := [-1000; -1000; -1000; -1000] |}
  = Ok {| dtype := uint8; shape := [2; 2]%nat; data := [0; 0; 0; 0] |}.
Proof.
  apply (normalize_flat_image (lib := ref_library)
           {| dtype := int16; shape := [2; 2]%nat;
              data := [-1000; -1000; -1000; -1000] |} 2 2);
    try reflexivity.
  discriminate.
Defined.

Example normalize_ct_pixels :
  _normalize_ct_image (lib := ref_library) ct_pixels
  = Ok {| dtype := uint8; shape := [2; 2]%nat; data := [128; 128; 128; 128] |}.
Proof. vm_compute. reflexivity. Qed.

(** ** The orchestrator *)

Lemma size_eqb_eq (a b : nat * nat) : size_eqb a b = true -> a = b.
Proof.
  destruct a as [a1 a2], b as [b1 b2]. unfold size_eqb. simpl.
  intros H. apply andb_prop in H as [H1 H2].
  apply Nat.eqb_eq in H1, H2. congruence.
Qed.

Lemma substring_all (s : string) : substring 0 (String.length s) s = s.
Proof. induction s as [|c s IH]; simpl; congruence. Qed.

(** The payload after the prefix of the data URI. *)
Lemma data_uri_payload (payload : string) :
  let s := String.append data_uri_prefix payload in
  String.prefix data_uri_prefix s = true /\
  substring (String.length data_uri_prefix)
            (String.length s - String.length data_uri_prefix) s = payload.
Proof.
  simpl. change (String.append "" payload) with payload. split.
  - destruct payload; reflexivity.
  - rewrite Nat.sub_0_r. apply substring_all.
Qed.

Section Orchestrator.
Context {lib : Library}.

(** C1: whenever [read_and_normalize] returns a string, that string is
    ["data:image/png;base64,"] followed by the Base64 encoding of the bytes
    Pillow wrote for an image of size 512 x 512: decoding the remainder gives
    these bytes back, and they load as a PNG image of that size. Pillow is
    assumed to resize to the requested size and to read back what it wrote
    with the size unchanged. *)
Theorem read_and_normalize_payload
    (file_path : string) (log log' : list io_event) (s : string) :
  (forall im sz im', Image_resize im sz = Ok im' -> size im' = sz) ->
  (forall im bytes, png_save im = Ok bytes ->
     exists im', png_load bytes = Some im' /\ size im' = size im) ->
  read_and_normalize file_path log = (Ok s, log') ->
  String.prefix "data:image/png;base64," s = true /\
  exists (bytes : list Byte.byte) (im : pil_image),
    s = String.append "data:image/png;base64," (b64encode bytes) /\
    b64decode (substring 22 (String.length s - 22) s) = Some bytes /\
    png_load bytes = Some im /\
    size im = (512, 512)%nat.
Proof.
  intros Hresize Hpng H.
  unfold read_and_normalize, try_except, mbind_io, lift, mraise in H.
  destruct (_is_dicom_file file_path log) as [[is_dicom|e] l1]; [|discriminate].
  destruct ((if is_dicom then _read_dicom file_path
             else _read_standard_image file_path) l1)
    as [[image_array|e] l2]; [|discriminate].
  destruct (_normalize_ct_image image_array) as [normalized|e];
    simpl in H; [|discriminate].
  destruct (Image_fromarray normalized) as [im0|e]; simpl in H; [|discriminate].
  destruct (if negb (size_eqb (size im0) target_size)
            then Image_resize im0 target_size else Ok im0)
    as [im|e] eqn:R; simpl in H; [|discriminate].
  unfold _pil_to_base64 in H.
  destruct (png_save im) as [bytes|e] eqn:P; simpl in H; [|discriminate].
  injection H as Hs _.
  assert (Hsize : size im = target_size).
  { destruct (size_eqb (size im0) target_size) eqn:Q; simpl in R.
    - injection R as <-. apply size_eqb_eq. exact Q.
    - eapply Hresize. exact R. }
  destruct (Hpng im bytes P) as (im' & Hload & Hsz).
  destruct (data_uri_payload (b64encode bytes)) as [Hpre Hsub].
  cbv zeta in Hpre, Hsub. subst s.
  split; [exact Hpre|].
  exists bytes, im'. split; [reflexivity|].
  split; [|split; [exact Hload|rewrite Hsz, Hsize; reflexivity]].
  change 22%nat with (String.length data_uri_prefix).
  change "data:image/png;base64,"%string with data_uri_prefix.
  rewrite Hsub. apply b64decode_b64encode.
Qed.

End Orchestrator.

Lemma be16_roundtrip (n : nat) :
  (N.of_nat n < 65536)%N ->
  match be16 n with
  | [hi; lo] => of_be16 hi lo = n
  | _ => False
  end.
Proof.
  intros Hn. unfold be16, of_be16, byte_of.
  destruct (Byte.of_N (N.of_nat n / 256)) as [hi|] eqn:Ehi.
  2:{ apply Byte.of_N_None_iff in Ehi. exfalso. N_div_mod. }
  destruct (Byte.of_N (N.of_nat n mod 256)) as [lo|] eqn:Elo.
  2:{ apply Byte.of_N_None_iff in Elo. exfalso. N_div_mod. }
  apply Byte.to_of_N in Ehi, Elo. rewrite Ehi, Elo.
  rewrite <- (Nat2N.id n) at 3. f_equal. N_div_mod.
Qed.

(** The reference container reads back the size it wrote. *)
Lemma ref_png_roundtrip (im : pil_image) (bytes : list Byte.byte) :
  ref_png_save im = Ok bytes ->
  exists im', ref_png_load bytes = Some im' /\ size im' = size im.
Proof.
  unfold ref_png_save.
  destruct (N.of_nat (fst (size im)) <? 65536)%N eqn:Hw; [|discriminate].
  destruct (N.of_nat (snd (size im)) <? 65536)%N eqn:Hh; [|discriminate].
  simpl. intros [= <-].
  apply N.ltb_lt in Hw, Hh.
  pose proof (be16_roundtrip _ Hw) as Rw.
  pose proof (be16_roundtrip _ Hh) as Rh.
  unfold be16 in *. simpl. eexists. split; [reflexivity|]. simpl.
  rewrite Rw, Rh. destruct (size im); reflexivity.
Qed.

Lemma read_and_normalize_payload_witness :
  exists s log',
    read_and_normalize (lib := ref_library) "/data/chest.png" [] = (Ok s, log') /\
    String.prefix "data:image/png;base64," s = true /\
    exists bytes im,
      s = String.append "data:image/png;base64," (b64encode bytes) /\
      b64decode (substring 22 (String.length s - 22) s) = Some bytes /\
      png_load (Library := ref_library) bytes = Some im /\
      size im = (512, 512)%nat.
Proof.
  assert (E : read_and_normalize (lib := ref_library) "/data/chest.png" []
              = (Ok "data:image/png;base64,iVBORw0KGgoCAAIAHgA="%string,
                 [Read_dicom "/data/chest.png" true;
                  Read_image "/data/chest.png"]))
    by (vm_compute; reflexivity).
  eexists. eexists. split; [exact E|].
  apply (read_and_normalize_payload (lib := ref_library) _ _ _ _
           (fun im sz im' (H : ref_Image_resize im sz = Ok im') =>
              match H in _ = r return match r with
                                      | Ok i => size i = sz
                                      | Raise _ => True
                                      end
              with eq_refl => eq_refl end)
           ref_png_roundtrip E).
Defined.

Example read_and_normalize_dicom :
  read_and_normalize (lib := ref_library) "/data/multi.dcm" []
  = (Ok "data:image/png;base64,iVBORw0KGgoCAAIAHgA="%string,
     [Read_dicom "/data/multi.dcm" false]).
Proof. vm_compute. reflexivity. Qed.

(** ** The upload handler *)

Section Upload.
Import Main.
Context {analysis : Type} {services : Services analysis}.

Lemma cleanup_removes (tmp : string) (fs : gmap string (list Byte.byte)) :
  exists fs',
    (fs* there := os_path_exists tmp in
     if there : bool then os_unlink tmp else fs_ret tt) fs = (Ok tt, fs') /\
    fs' = delete tmp fs.
Proof.
  unfold fs_bind, os_path_exists, os_unlink, fs_ret.
  destruct (fs !! tmp) as [c|] eqn:E.
  - rewrite bool_decide_eq_true_2 by eauto. rewrite E. eauto.
  - rewrite bool_decide_eq_false_2 by (intros [? ?]; congruence).
    eexists. split; [reflexivity|]. symmetry. apply delete_id. exact E.
Qed.

(** The inner [try ... finally] returns the outcome of its body and leaves
    the file system of the body without the temporary file. *)
Lemma process_and_clean_removes (tmp : string) (fs : gmap string (list Byte.byte)) :
  snd (process_and_clean tmp fs) !! tmp = None.
Proof.
  unfold process_and_clean, try_finally.
  destruct (fs_bind _ _ fs) as [r fs3].
  destruct (cleanup_removes tmp fs3) as (fs' & -> & ->).
  simpl. apply lookup_delete_eq.
Qed.

(** When the handler has created the temporary file and written the
    uploaded bytes to it, the file is gone when the handler returns or
    raises, whatever the decoder and the analyser did: returned, raised, or
    changed the files. *)
Lemma temporary_file_removed
    (file : UploadFile) (content : list Byte.byte)
    (fs0 fs1 fs2 : gmap string (list Byte.byte)) (tmp : string) :
  content_type_ok file = true ->
  read file = Ok content ->
  Z.of_nat (length content) <= size_limit ->
  seek file = Ok tt ->
  NamedTemporaryFile (file_extension file) fs0 = (Ok tmp, fs1) ->
  tmp_file_write tmp content fs1 = (Ok tt, fs2) ->
  snd (analyze_image file fs0) !! tmp = None /\
  snd (analyze_image file fs0) = snd (process_and_clean tmp fs2).
Proof.
  intros Hct Hread Hsize Hseek Hcreate Hwrite.
  assert (E : snd (analyze_image file fs0) = snd (process_and_clean tmp fs2)).
  { unfold analyze_image. rewrite Hct, Hread, Hseek. simpl negb. cbv iota.
    replace (size_limit <? Z.of_nat (length content)) with false
      by (symmetry; apply Z.ltb_ge; exact Hsize).
    unfold create_and_process, fs_bind. rewrite Hcreate, Hwrite.
    destruct (process_and_clean tmp fs2) as [[response|e] fs']; reflexivity. }
  split; [|exact E].
  rewrite E. apply process_and_clean_removes.
Qed.

(** C8: the temporary file is not deleted on every exit path. The file is
    created and written at lines 171-173, before the inner [try] whose
    [finally] deletes it: when the write raises after the file was created
    (with [delete=False]), the handler answers 500 and the file is still
    there. *)
Theorem temporary_file_left_on_write_failure
    (file : UploadFile) (content : list Byte.byte)
    (fs0 fs1 fs2 : gmap string (list Byte.byte)) (tmp : string) (e : exn) :
  content_type_ok file = true ->
  read file = Ok content ->
  Z.of_nat (length content) <= size_limit ->
  seek file = Ok tt ->
  NamedTemporaryFile (file_extension file) fs0 = (Ok tmp, fs1) ->
  tmp_file_write tmp content fs1 = (Raise e, fs2) ->
  is_Some (fs2 !! tmp) ->
  (exists detail, fst (analyze_image file fs0) = HTTPException 500 detail) /\
  is_Some (snd (analyze_image file fs0) !! tmp).
Proof.
  intros Hct Hread Hsize Hseek Hcreate Hwrite Hthere.
  assert (E : analyze_image file fs0
              = (HTTPException 500
                   (String.append "Analysis failed: " (str_of_exn e)), fs2)).
  { unfold analyze_image. rewrite Hct, Hread, Hseek. simpl negb. cbv iota.
    replace (size_limit <? Z.of_nat (length content)) with false
      by (symmetry; apply Z.ltb_ge; exact Hsize).
    unfold create_and_process, fs_bind. rewrite Hcreate, Hwrite. reflexivity. }
  rewrite E. split; [eexists; reflexivity | exact Hthere].
Qed.

End Upload.

Lemma temporary_file_left_on_write_failure_witness :
  (∅ : gmap string (list Byte.byte)) !! "/tmp/tmpk3x9.png"%string = None /\
  (exists detail,
     (Main.analyze_image (services := failing_write_services)
        Main.png_upload ∅).1
     = Main.HTTPException 500 detail) /\
  is_Some ((Main.analyze_image (services := failing_write_services)
              Main.png_upload ∅).2 !! "/tmp/tmpk3x9.png"%string).
Proof.
  split; [reflexivity|].
  apply (temporary_file_left_on_write_failure
           (services := failing_write_services)
           Main.png_upload [Byte.x89; Byte.x50; Byte.x4e; Byte.x47] ∅
           (<["/tmp/tmpk3x9.png"%string := []]> ∅)
           (<["/tmp/tmpk3x9.png"%string := []]> ∅)
           "/tmp/tmpk3x9.png"%string OSError);
    [reflexivity | reflexivity | vm_compute; discriminate
    | reflexivity | reflexivity | reflexivity | ].
  exists []. reflexivity.
Defined.

Lemma temporary_file_removed_examples :
  (Main.analyze_image (services := Main.ref_services) Main.png_upload ∅).1
  = Main.Return (Main.Build_AnalysisResponse true "T1N0M0"%string
                   "Analysis completed successfully"%string) /\
  (Main.analyze_image (services := Main.ref_services) Main.png_upload ∅).2
    !! "/tmp/tmpk3x9.png"%string = None /\
  (exists detail,
     (Main.analyze_image (services := Main.ref_services) Main.empty_upload ∅).1
     = Main.HTTPException 500 detail) /\
  (Main.analyze_image (services := Main.ref_services) Main.empty_upload ∅).2
    !! "/tmp/tmpk3x9.dcm"%string = None.
Proof.
  split; [vm_compute; reflexivity|]. split; [|split].
  - apply (temporary_file_removed (services := Main.ref_services)
             Main.png_upload [Byte.x89; Byte.x50; Byte.x4e; Byte.x47] ∅
             (<["/tmp/tmpk3x9.png"%string := []]> ∅)
             (<["/tmp/tmpk3x9.png"%string
                := [Byte.x89; Byte.x50; Byte.x4e; Byte.x47]]>
                (<["/tmp/tmpk3x9.png"%string := []]> ∅))
             "/tmp/tmpk3x9.png"%string);
      [reflexivity | reflexivity | vm_compute; discriminate
      | reflexivity | reflexivity | reflexivity].
  - eexists. vm_compute. reflexivity.
  - apply (temporary_file_removed (services := Main.ref_services)
             Main.empty_upload [] ∅
             (<["/tmp/tmpk3x9.dcm"%string := []]> ∅)
             (<["/tmp/tmpk3x9.dcm"%string := []]>
                (<["/tmp/tmpk3x9.dcm"%string := []]> ∅))
             "/tmp/tmpk3x9.dcm"%string);
      [reflexivity | reflexivity | vm_compute; discriminate
      | reflexivity | reflexivity | reflexivity].
Qed.

(** * Properties of the rest of the backend *)

(** ** More on the windowing transform *)

(** X1: Saturation: a sample that is not above [low] gives 0, and a sample above
    [low] that is not below [high] gives 255. *)
Theorem window_saturates
    (image : ndarray) (window_center window_width : spec_float) :
  let low := window_low window_center window_width in
  let high := window_high window_center window_width in
  let out := _apply_window_level image window_center window_width in
  flt low high = true ->
  is_finite_nonzero (F64.sub high low) = true ->
  forall (i : nat) (x : Z),
    data image !! i = Some x ->
    (fgt (F64.of_Z x) low = false -> data out !! i = Some 0) /\
    (fgt (F64.of_Z x) low = true -> flt (F64.of_Z x) high = false ->
     data out !! i = Some 255).
Proof.
  intros low high out Hlh Hspan i x Hi.
  assert (Hout : data out !! i = Some (f_to_uint8 (window_sample low high x))).
  { unfold out, _apply_window_level, astype_uint8, window_scaled. simpl.
    rewrite map_map, lookup_map, Hi. reflexivity. }
  destruct (finite_span _ _ Hspan) as [Hfh Hfl].
  destruct (SFltb_not_nan _ _ Hlh) as [Hnl Hnh].
  rewrite Hout. unfold window_sample.
  rewrite np_clip_cases by auto using F64_of_Z_not_nan.
  split.
  - intros ->. destruct (F64_sub_self low Hfl) as [s ->].
    destruct (F64_zero_div s _ Hspan) as [s' ->].
    rewrite F64_zero_mul_255. reflexivity.
  - intros -> ->. rewrite F64_div_self by assumption.
    reflexivity.
Qed.

Lemma window_saturates_witness :
  data (_apply_window_level lung_row (F64.of_Z (-600)) (F64.of_Z 1500)) !! 0%nat
  = Some 0 /\
  data (_apply_window_level lung_row (F64.of_Z (-600)) (F64.of_Z 1500)) !! 4%nat
  = Some 255.
Proof.
  assert (H1 : flt (window_low (F64.of_Z (-600)) (F64.of_Z 1500))
                   (window_high (F64.of_Z (-600)) (F64.of_Z 1500)) = true)
    by (vm_compute; reflexivity).
  assert (H2 : is_finite_nonzero
                 (F64.sub (window_high (F64.of_Z (-600)) (F64.of_Z 1500))
                          (window_low (F64.of_Z (-600)) (F64.of_Z 1500))) = true)
    by (vm_compute; reflexivity).
  split.
  - apply (window_saturates lung_row _ _ H1 H2 0%nat (-2000) eq_refl).
    vm_compute. reflexivity.
  - apply (window_saturates lung_row _ _ H1 H2 4%nat 2000 eq_refl);
      vm_compute; reflexivity.
Defined.

(** ** More on the DICOM decoder *)

Section DecoderMore.
Context {lib : Library}.

(** X2: Without both window attributes no windowing is applied: the decoded
    array is the pixel array after the photometric step, also when one of
    the two attributes is present, whatever its value. *)
Theorem read_dicom_unwindowed
    (file_path : string) (ds : Dataset) (pa pa' : ndarray) (log : list io_event) :
  dcmread file_path false = Ok ds ->
  pixel_array ds = Ok pa ->
  photometric_step ds pa = Ok pa' ->
  WindowCenter ds = None \/ WindowWidth ds = None ->
  _read_dicom file_path log = (Ok pa', log ++ [Read_dicom file_path false]).
Proof.
  intros Hr Hp Hs Hw.
  unfold _read_dicom, try_except, mbind_io, dcmread_io, lift.
  rewrite Hr. unfold decode_dataset. rewrite Hp. simpl. rewrite Hs. simpl.
  unfold window_step.
  destruct Hw as [-> | ->]; [reflexivity|].
  destruct (WindowCenter ds); reflexivity.
Qed.

(** X3: The exceptions of the decoder: a failed read, absent pixel data, the
    maximum of an empty array under MONOCHROME1 (ValueError) and a window
    attribute that is present without a value, which pydicom gives as None
    (TypeError in the arithmetic of [_apply_window_level], when both
    attributes are present), are raised to the caller unchanged, after one
    full read of the file. *)
Theorem read_dicom_raises (file_path : string) (log : list io_event) :
  (forall e, dcmread file_path false = Raise e ->
     _read_dicom file_path log = (Raise e, log ++ [Read_dicom file_path false])) /\
  (forall ds e, dcmread file_path false = Ok ds -> pixel_array ds = Raise e ->
     _read_dicom file_path log = (Raise e, log ++ [Read_dicom file_path false])) /\
  (forall ds pa, dcmread file_path false = Ok ds -> pixel_array ds = Ok pa ->
     PhotometricInterpretation ds = Some "MONOCHROME1" -> data pa = [] ->
     _read_dicom file_path log
     = (Raise ValueError, log ++ [Read_dicom file_path false])) /\
  (forall ds pa pa' wc ww,
     dcmread file_path false = Ok ds -> pixel_array ds = Ok pa ->
     photometric_step ds pa = Ok pa' ->
     WindowCenter ds = Some wc -> WindowWidth ds = Some ww ->
     wc = DS_none \/ ww = DS_none ->
     _read_dicom file_path log
     = (Raise TypeError, log ++ [Read_dicom file_path false])).
Proof.
  unfold _read_dicom, try_except, mbind_io, dcmread_io, lift, mraise.
  split; [|split; [|split]].
  - intros e ->. reflexivity.
  - intros ds e -> Hp. unfold decode_dataset. rewrite Hp. reflexivity.
  - intros ds pa -> Hp Hpi He. unfold decode_dataset, photometric_step, invert.
    rewrite Hp. simpl. rewrite Hpi. simpl. rewrite He. reflexivity.
  - intros ds pa pa' wc ww -> Hp Hs Hc Hw Hempty.
    unfold decode_dataset, window_step. rewrite Hp. simpl. rewrite Hs. simpl.
    rewrite Hc, Hw.
    destruct Hempty as [-> | ->]; [reflexivity|].
    destruct (first_value wc); reflexivity.
Qed.

End DecoderMore.

(** ** More on normalisation *)

Lemma take_blocks_nil (n block keep : nat) : take_blocks n block keep [] = [].
Proof.
  induction n as [|n IH]; simpl; [reflexivity|].
  rewrite firstn_nil, skipn_nil, IH. reflexivity.
Qed.

Lemma take_blocks_length (n block keep : nat) (l : list Z) :
  (keep <= block)%nat -> length l = (n * block)%nat ->
  length (take_blocks n block keep l) = (n * keep)%nat.
Proof.
  intros Hk. revert l. induction n as [|n IH]; intros l Hl; simpl; [reflexivity|].
  rewrite length_app, length_take, IH by (rewrite length_drop; lia). lia.
Qed.

(** Sample [r] of block [p] of the result is sample [r] of block [p] of the
    source. *)
Lemma take_blocks_lookup (n block keep : nat) (l : list Z) (p r : nat) :
  (keep <= block)%nat -> length l = (n * block)%nat ->
  (p < n)%nat -> (r < keep)%nat ->
  take_blocks n block keep l !! (p * keep + r)%nat = l !! (p * block + r)%nat.
Proof.
  intros Hk. revert l p. induction n as [|n IH]; intros l p Hl Hp Hr; [lia|].
  simpl. destruct p as [|p].
  - simpl. rewrite lookup_app_l by (rewrite length_take; lia).
    apply lookup_take_lt. lia.
  - rewrite lookup_app_r by (rewrite length_take; lia).
    rewrite length_take.
    replace (S p * keep + r - keep `min` length l)%nat with (p * keep + r)%nat by lia.
    rewrite IH by (rewrite ?length_drop; lia).
    rewrite lookup_drop. f_equal. lia.
Qed.

Lemma first_channel_data_nil (image : ndarray) :
  data image = [] -> data (first_channel image) = [].
Proof.
  intros H. unfold first_channel.
  destruct (shape image) as [|a [|b [|k rest]]]; try exact H.
  destruct (1 <? k)%nat; simpl; [|exact H].
  rewrite H. apply take_blocks_nil.
Qed.

Lemma F32_div_self (d : spec_float) :
  is_finite_nonzero d = true -> F32.div d d = F32.of_Z 1.
Proof.
  destruct d as [s|s| |s m e]; simpl; try discriminate; intros _.
  unfold F32.div, SFdiv, SFdiv_core_binary.
  replace (Zdigits2 (Z.pos m) + e - (Zdigits2 (Z.pos m) + e)) with 0 by lia.
  rewrite Z.sub_diag.
  change (Z.min (fexp F32.prec F32.emax 0) 0) with (-24).
  change (0 - -24) with 24.
  cbv iota beta.
  assert (Hq : Z.div_eucl (Z.shiftl (Z.pos m) 24) (Z.pos m) = (2 ^ 24, 0)).
  { rewrite Z.shiftl_mul_pow2 by lia.
    pose proof (Z.div_eucl_eq (Z.pos m * 2 ^ 24) (Z.pos m) ltac:(lia)) as E.
    pose proof (Z.mod_pos_bound (Z.pos m * 2 ^ 24) (Z.pos m) ltac:(lia)) as B.
    unfold Z.modulo in B.
    destruct (Z.div_eucl (Z.pos m * 2 ^ 24) (Z.pos m)) as [q r].
    assert (q = 2 ^ 24) by nia. subst q.
    f_equal. lia. }
  rewrite Hq.
  assert (Hl : new_location (Z.pos m) 0 = loc_Exact).
  { unfold new_location, new_location_even, new_location_odd.
    destruct (Z.even (Z.pos m)); reflexivity. }
  rewrite Hl. rewrite xorb_nilpotent. vm_compute. reflexivity.
Qed.

Lemma F32_sub_self (x : spec_float) :
  is_finite x = true -> exists s, F32.sub x x = S754_zero s.
Proof.
  destruct x as [s|s| |s m e]; simpl; try discriminate; intros _.
  - destruct s; eexists; reflexivity.
  - unfold F32.sub, SFsub. rewrite Z.sub_diag. eexists. reflexivity.
Qed.

Lemma F32_finite_span (hi lo : spec_float) :
  is_finite_nonzero (F32.sub hi lo) = true ->
  is_finite hi = true /\ is_finite lo = true.
Proof.
  destruct hi as [s|s| |s m e], lo as [t|t| |t n f]; simpl;
    try (destruct s, t; simpl; discriminate); try discriminate; auto.
Qed.

(** The fold of a selection is one of the elements. *)
Lemma fold_selects (op : spec_float -> spec_float -> spec_float)
    (l : list spec_float) (x : spec_float) :
  (forall a b, op a b = a \/ op a b = b) ->
  In (fold_left op l x) (x :: l).
Proof.
  intros Hop. revert x. induction l as [|y l IH]; intros x; simpl; [auto|].
  destruct (IH (op x y)) as [E|E].
  - destruct (Hop x y) as [H|H]; [left | right; left]; congruence.
  - auto.
Qed.

Lemma np_maximum_selects (a b : spec_float) :
  np_maximum a b = a \/ np_maximum a b = b.
Proof. unfold np_maximum. destruct (_ || _); auto. Qed.

Lemma np_minimum_selects (a b : spec_float) :
  np_minimum a b = a \/ np_minimum a b = b.
Proof. unfold np_minimum. destruct (_ || _); auto. Qed.

Lemma In_map_lookup (l : list Z) (f : spec_float) :
  In f (map F32.of_Z l) -> exists i x, l !! i = Some x /\ F32.of_Z x = f.
Proof.
  induction l as [|y l IH]; simpl; [tauto|]. intros [E|H].
  - exists 0%nat, y. auto.
  - destruct (IH H) as (i & x & Hi & Hx). exists (S i), x. auto.
Qed.

Lemma fmax_of_attained (l : list Z) (mx : spec_float) :
  fmax_of (map F32.of_Z l) = Ok mx ->
  exists i x, l !! i = Some x /\ F32.of_Z x = mx.
Proof.
  destruct l as [|y l]; simpl; [discriminate|]. intros [= <-].
  apply (In_map_lookup (y :: l)). simpl.
  apply (fold_selects np_maximum (map F32.of_Z l) (F32.of_Z y) np_maximum_selects).
Qed.

Lemma fmin_of_attained (l : list Z) (mn : spec_float) :
  fmin_of (map F32.of_Z l) = Ok mn ->
  exists i x, l !! i = Some x /\ F32.of_Z x = mn.
Proof.
  destruct l as [|y l]; simpl; [discriminate|]. intros [= <-].
  apply (In_map_lookup (y :: l)). simpl.
  apply (fold_selects np_minimum (map F32.of_Z l) (F32.of_Z y) np_minimum_selects).
Qed.

(** X4: The min/max stretch uses the whole range: when [max > min] and the span
    [max - min] is finite and nonzero, every sample equal to the minimum
    becomes 0 and every sample equal to the maximum becomes 255 in the 8-bit
    array handed to the equalisation, and both values occur in it. *)
Theorem minmax_stretch_extremes (image : ndarray) (mx mn : spec_float) :
  fmax_of (fdata (astype_float32 image)) = Ok mx ->
  fmin_of (fdata (astype_float32 image)) = Ok mn ->
  fgt mx mn = true ->
  is_finite_nonzero (F32.sub mx mn) = true ->
  exists stretched,
    minmax_stretch (astype_float32 image) = Ok stretched /\
    shape (astype_uint8 stretched) = shape image /\
    (forall i x, data image !! i = Some x -> F32.of_Z x = mn ->
                 data (astype_uint8 stretched) !! i = Some 0) /\
    (forall i x, data image !! i = Some x -> F32.of_Z x = mx ->
                 data (astype_uint8 stretched) !! i = Some 255) /\
    (exists i, data (astype_uint8 stretched) !! i = Some 0) /\
    (exists j, data (astype_uint8 stretched) !! j = Some 255).
Proof.
  intros Hmx Hmn Hgt Hspan.
  destruct (F32_finite_span _ _ Hspan) as [Hfx Hfn].
  eexists. split.
  { unfold minmax_stretch, rbind. rewrite Hmx, Hmn, Hgt. reflexivity. }
  simpl. split; [reflexivity|].
  assert (Hlow : forall i x, data image !! i = Some x -> F32.of_Z x = mn ->
            map f_to_uint8
              (map (fun x0 => F32.mul (F32.div (F32.sub x0 mn) (F32.sub mx mn))
                                      f32_255)
                   (map F32.of_Z (data image))) !! i = Some 0).
  { intros i x Hi Hx. rewrite !lookup_map, Hi. simpl. rewrite Hx.
    destruct (F32_sub_self mn Hfn) as [s ->].
    destruct (F32.sub mx mn) as [t|t| |t m e]; try discriminate.
    destruct s, t; reflexivity. }
  assert (Hhigh : forall i x, data image !! i = Some x -> F32.of_Z x = mx ->
            map f_to_uint8
              (map (fun x0 => F32.mul (F32.div (F32.sub x0 mn) (F32.sub mx mn))
                                      f32_255)
                   (map F32.of_Z (data image))) !! i = Some 255).
  { intros i x Hi Hx. rewrite !lookup_map, Hi. simpl. rewrite Hx.
    rewrite F32_div_self by assumption. reflexivity. }
  split; [exact Hlow|]. split; [exact Hhigh|]. split.
  - destruct (fmin_of_attained _ _ Hmn) as (i & x & Hi & Hx). eauto.
  - destruct (fmax_of_attained _ _ Hmx) as (j & x & Hj & Hx). eauto.
Qed.

Lemma minmax_stretch_extremes_witness :
  exists stretched,
    minmax_stretch (astype_float32 ct_pixels) = Ok stretched /\
    data (astype_uint8 stretched) !! 0%nat = Some 0 /\
    data (astype_uint8 stretched) !! 3%nat = Some 255.
Proof.
  destruct (minmax_stretch_extremes ct_pixels (F32.of_Z 2000) (F32.of_Z (-1000)))
    as (st & Hst & _ & Hlow & Hhigh & _);
    try (vm_compute; reflexivity).
  exists st. split; [exact Hst|]. split.
  - apply (Hlow 0%nat (-1000)); reflexivity.
  - apply (Hhigh 3%nat 2000); reflexivity.
Defined.

Section NormalizerMore.
Context {lib : Library}.

(** X5: An array without samples cannot be normalised: [image.max()] raises
    ValueError, whatever the shape, before OpenCV is called. *)
Theorem normalize_empty_raises (image : ndarray) :
  data image = [] -> _normalize_ct_image image = Raise ValueError.
Proof.
  intros H. unfold _normalize_ct_image.
  assert (E : data (if (2 <? length (shape image))%nat
                    then first_channel image else image) = []).
  { destruct (2 <? length (shape image))%nat;
      [apply first_channel_data_nil|]; exact H. }
  unfold minmax_stretch, astype_float32. simpl. rewrite E. reflexivity.
Qed.

End NormalizerMore.

(** X6: For an array of more than two axes whose third axis is longer than one,
    [image[:, :, 0]] drops that axis and keeps, of every pixel, the samples
    of channel 0. *)
Theorem first_channel_selects (image : ndarray) (a b k : nat) (rest : list nat) :
  shape image = a :: b :: k :: rest ->
  (1 < k)%nat ->
  length (data image) = (a * b * (k * prod_shape rest))%nat ->
  shape (first_channel image) = a :: b :: rest /\
  length (data (first_channel image)) = (a * b * prod_shape rest)%nat /\
  forall p r, (p < a * b)%nat -> (r < prod_shape rest)%nat ->
    data (first_channel image) !! (p * prod_shape rest + r)%nat
    = data image !! (p * (k * prod_shape rest) + r)%nat.
Proof.
  intros Hs Hk Hl. unfold first_channel. rewrite Hs.
  replace (1 <? k)%nat with true by (symmetry; apply Nat.ltb_lt; exact Hk).
  simpl shape. simpl data.
  assert (Hle : (prod_shape rest <= k * prod_shape rest)%nat) by nia.
  split; [reflexivity|]. split.
  - apply take_blocks_length; assumption.
  - intros p r Hp Hr. apply take_blocks_lookup; assumption.
Qed.

Lemma squeeze_no_unit (s : list nat) : Forall (fun n => n <> 1%nat) (squeeze s).
Proof.
  unfold squeeze. induction s as [|n s IH]; [constructor|].
  rewrite filter_cons. destruct (decide _) as [Hn|Hn]; [|exact IH].
  constructor; [|exact IH].
  destruct (Nat.eqb_spec n 1); [destruct Hn|assumption].
Qed.

Lemma squeeze_prod (s : list nat) : prod_shape (squeeze s) = prod_shape s.
Proof.
  unfold squeeze, prod_shape. induction s as [|n s IH]; [reflexivity|].
  rewrite filter_cons. destruct (decide _) as [Hn|Hn]; simpl.
  - rewrite IH. reflexivity.
  - rewrite IH. destruct (Nat.eqb_spec n 1) as [->|]; [lia|].
    exfalso. apply Hn. exact I.
Qed.

(** X7: When the third axis has length one (or zero), [image.squeeze()] is taken
    instead: the samples are untouched, every axis of length one is dropped,
    not only the third, and the number of elements is unchanged. *)
Theorem first_channel_squeezes (image : ndarray) (a b k : nat) (rest : list nat) :
  shape image = a :: b :: k :: rest ->
  (k <= 1)%nat ->
  data (first_channel image) = data image /\
  shape (first_channel image)
  = filter (fun n => negb (Nat.eqb n 1)) (shape image) /\
  Forall (fun n => n <> 1%nat) (shape (first_channel image)) /\
  prod_shape (shape (first_channel image)) = prod_shape (shape image).
Proof.
  intros Hs Hk. unfold first_channel. rewrite Hs.
  replace (1 <? k)%nat with false by (symmetry; apply Nat.ltb_ge; exact Hk).
  simpl shape. simpl data.
  split; [reflexivity|]. split; [reflexivity|].
  split; [apply squeeze_no_unit | apply squeeze_prod].
Qed.

(** ** More on the orchestrator *)

Section OrchestratorMore.
Context {lib : Library}.

Lemma is_dicom_file_fast (file_path : string) (log : list io_event) :
  snd (splitext (lower file_path)) = ".dcm" ->
  _is_dicom_file file_path log = (Ok true, log).
Proof. intros H. unfold _is_dicom_file. rewrite H. reflexivity. Qed.

Lemma is_dicom_file_sniff (file_path : string) (log : list io_event) :
  snd (splitext (lower file_path)) <> ".dcm" ->
  _is_dicom_file file_path log
  = (Ok (match dcmread file_path true with Ok _ => true | Raise _ => false end),
     log ++ [Read_dicom file_path true]).
Proof.
  intros H. unfold _is_dicom_file.
  destruct (String.eqb_spec (snd (splitext (lower file_path))) ".dcm");
    [contradiction|].
  unfold try_except, mbind_io, dcmread_io, mreturn.
  destruct (dcmread file_path true); reflexivity.
Qed.

(** The orchestrator after the classification: the chosen decoder, and on
    its success the remaining stages, which read no file. *)
Lemma read_and_normalize_after_classification
    (file_path : string) (log l1 : list io_event) (is_dicom : bool) :
  _is_dicom_file file_path log = (Ok is_dicom, l1) ->
  let decoded := (if is_dicom then _read_dicom file_path
                  else _read_standard_image file_path) l1 in
  snd (read_and_normalize file_path log) = snd decoded /\
  (forall e, fst decoded = Raise e ->
             fst (read_and_normalize file_path log) = Raise e).
Proof.
  intros Hc decoded.
  unfold read_and_normalize, try_except, mbind_io, lift, mraise.
  rewrite Hc. fold decoded.
  destruct decoded as [[arr|e] l2]; simpl.
  - split; [destruct (rbind _ _); reflexivity|]. intros; discriminate.
  - split; [reflexivity|]. intros e' [= <-]. reflexivity.
Qed.

Lemma read_dicom_run (file_path : string) (log : list io_event) :
  _read_dicom file_path log
  = (match dcmread file_path false with
     | Ok ds => decode_dataset ds
     | Raise e => Raise e
     end, log ++ [Read_dicom file_path false]).
Proof.
  unfold _read_dicom, try_except, mbind_io, dcmread_io, lift, mraise.
  destruct (dcmread file_path false) as [ds|e]; [|reflexivity].
  destruct (decode_dataset ds); reflexivity.
Qed.

Lemma read_standard_image_run (file_path : string) (log : list io_event) :
  snd (_read_standard_image file_path log) = log ++ [Read_image file_path] /\
  (forall e, Image_open file_path = Raise e ->
             fst (_read_standard_image file_path log) = Raise e).
Proof.
  unfold _read_standard_image, try_except, mbind_io, Image_open_io, lift,
    mraise, mreturn.
  destruct (Image_open file_path) as [im|e0].
  - split; [|intros; discriminate].
    destruct (if negb (String.eqb (mode im) "L") then Image_convert im "L"
              else Ok im); reflexivity.
  - split; [reflexivity|]. intros e' [= <-]. reflexivity.
Qed.

(** X8: A path with the extension ".dcm" (in any letter case) is decoded as
    DICOM only: the file is read once, in full, [Image.open] is never tried,
    and a failure of that read or of the decoding is raised to the caller, so
    a raster image that carries this extension is not decoded. *)
Theorem read_and_normalize_dcm_extension (file_path : string) (log : list io_event) :
  lower (snd (splitext file_path)) = ".dcm" ->
  snd (read_and_normalize file_path log) = log ++ [Read_dicom file_path false] /\
  (forall e, dcmread file_path false = Raise e ->
     fst (read_and_normalize file_path log) = Raise e) /\
  (forall ds e, dcmread file_path false = Ok ds -> decode_dataset ds = Raise e ->
     fst (read_and_normalize file_path log) = Raise e).
Proof.
  intros Hext.
  assert (Hd : _is_dicom_file file_path log = (Ok true, log))
    by (apply is_dicom_file_fast; rewrite splitext_lower; exact Hext).
  destruct (read_and_normalize_after_classification _ _ _ _ Hd) as [Hlog Herr].
  rewrite read_dicom_run in Hlog, Herr. simpl in Hlog, Herr.
  split; [exact Hlog|]. split.
  - intros e He. apply Herr. rewrite He. reflexivity.
  - intros ds e Hds He. apply Herr. rewrite Hds. exact He.
Qed.

(** X9: A path with another extension is sniffed first: one header-only DICOM
    read, then a full DICOM read when the header parses and [Image.open]
    when it does not. The file is read twice, and an exception of the chosen
    decoder is raised to the caller. *)
Theorem read_and_normalize_sniffs (file_path : string) (log : list io_event) :
  snd (splitext (lower file_path)) <> ".dcm" ->
  (forall ds, dcmread file_path true = Ok ds ->
     snd (read_and_normalize file_path log)
     = log ++ [Read_dicom file_path true; Read_dicom file_path false] /\
     (forall e, dcmread file_path false = Raise e ->
        fst (read_and_normalize file_path log) = Raise e)) /\
  (forall e, dcmread file_path true = Raise e ->
     snd (read_and_normalize file_path log)
     = log ++ [Read_dicom file_path true; Read_image file_path] /\
     (forall e', Image_open file_path = Raise e' ->
        fst (read_and_normalize file_path log) = Raise e')).
Proof.
  intros Hext.
  pose proof (is_dicom_file_sniff file_path log Hext) as Hd.
  split.
  - intros ds Hds. rewrite Hds in Hd.
    destruct (read_and_normalize_after_classification _ _ _ _ Hd) as [Hlog Herr].
    rewrite read_dicom_run in Hlog, Herr. simpl in Hlog, Herr.
    rewrite <- app_assoc in Hlog. split; [exact Hlog|].
    intros e He. apply Herr. rewrite He. reflexivity.
  - intros e He. rewrite He in Hd.
    destruct (read_and_normalize_after_classification _ _ _ _ Hd) as [Hlog Herr].
    destruct (read_standard_image_run file_path
                (log ++ [Read_dicom file_path true])) as [Hl He'].
    simpl in Hlog, Herr. rewrite Hl, <- app_assoc in Hlog.
    split; [exact Hlog|]. intros e' Ho. apply Herr, He'. exact Ho.
Qed.

End OrchestratorMore.

(** ** More on the encoded payload *)

Lemma b64_char_is_b64 (k : N) : (k < 64)%N -> is_b64_char (b64_char k) = true.
Proof.
  intros H. unfold is_b64_char. rewrite (b64_value_char k H). reflexivity.
Qed.

Lemma b64encode_shape (bound : nat) (l : list Byte.byte) :
  (length l <= bound)%nat ->
  String.length (b64encode l) = (4 * ((length l + 2) / 3))%nat /\
  string_forallb is_b64_char (b64encode l) = true.
Proof.
  revert l. induction bound as [|bound IH]; intros l Hl.
  - destruct l; [split; reflexivity|simpl in Hl; lia].
  - destruct l as [|a [|b [|c rest]]]; [split; reflexivity| | |].
    + pose proof (Byte.to_N_bounded a) as Ha.
      destruct (sextets_bounds (Byte.to_N a) 0 0 Ha) as (B1 & B2 & _);
        [lia|lia|].
      split; [reflexivity|]. cbn [b64encode string_forallb].
      change (Byte.to_N a mod 4 * 16 + 0 / 16)%N
        with (Byte.to_N a mod 4 * 16 + 0)%N in B2.
      rewrite N.add_0_r in B2.
      rewrite (b64_char_is_b64 _ B1), (b64_char_is_b64 _ B2). reflexivity.
    + pose proof (Byte.to_N_bounded a) as Ha.
      pose proof (Byte.to_N_bounded b) as Hb.
      destruct (sextets_bounds (Byte.to_N a) (Byte.to_N b) 0 Ha Hb)
        as (B1 & B2 & B3 & _); [lia|].
      split; [reflexivity|]. cbn [b64encode string_forallb].
      change (Byte.to_N b mod 16 * 4 + 0 / 64)%N
        with (Byte.to_N b mod 16 * 4 + 0)%N in B3.
      rewrite N.add_0_r in B3.
      rewrite (b64_char_is_b64 _ B1), (b64_char_is_b64 _ B2),
        (b64_char_is_b64 _ B3). reflexivity.
    + pose proof (Byte.to_N_bounded a) as Ha.
      pose proof (Byte.to_N_bounded b) as Hb.
      pose proof (Byte.to_N_bounded c) as Hc.
      destruct (sextets_bounds _ _ _ Ha Hb Hc) as (B1 & B2 & B3 & B4).
      destruct (IH rest) as [Hlen Hall]; [simpl in Hl; lia|].
      cbn [b64encode string_forallb String.length]. split.
      * rewrite Hlen. cbn [length].
        replace (S (S (S (length rest))) + 2)%nat
          with (length rest + 2 + 1 * 3)%nat by lia.
        rewrite Nat.div_add by lia. lia.
      * rewrite (b64_char_is_b64 _ B1), (b64_char_is_b64 _ B2),
          (b64_char_is_b64 _ B3), (b64_char_is_b64 _ B4), Hall. reflexivity.
Qed.

Section PayloadSpec.
Context {lib : Library}.

(** X10: The data URI of an image: 22 characters of prefix, then four characters
    for every three bytes of the PNG (the last group padded), each of the
    Base64 alphabet or "="; a failure of the PNG writer is raised
    unchanged. *)
Theorem pil_to_base64_shape (image : pil_image) :
  match png_save image with
  | Ok image_bytes =>
      exists payload,
        _pil_to_base64 image
        = Ok (String.append "data:image/png;base64," payload) /\
        String.length payload = (4 * ((length image_bytes + 2) / 3))%nat /\
        string_forallb is_b64_char payload = true /\
        b64decode payload = Some image_bytes
  | Raise e => _pil_to_base64 image = Raise e
  end.
Proof.
  unfold _pil_to_base64.
  destruct (png_save image) as [image_bytes|e]; [|reflexivity].
  destruct (b64encode_shape (length image_bytes) image_bytes (le_n _))
    as [Hlen Hall].
  exists (b64encode image_bytes).
  split; [reflexivity|]. split; [exact Hlen|]. split; [exact Hall|].
  apply b64decode_b64encode.
Qed.

End PayloadSpec.

(** ** The metadata reader *)

Lemma basename_cons (a : ascii) (s : string) :
  basename (String a s)
  = if 0 <=? rfind "/" s then basename s
    else if Ascii.eqb a "/" then s else String a s.
Proof.
  unfold basename. simpl rfind.
  assert (Hr : -1 <= rfind "/" s).
  { clear. induction s as [|c s IH]; simpl; [lia|].
    destruct (0 <=? rfind "/" s) eqn:E; [apply Z.leb_le in E; lia|].
    destruct (Ascii.eqb c "/"); lia. }
  destruct (0 <=? rfind "/" s) eqn:E.
  - apply Z.leb_le in E.
    replace (Z.to_nat (rfind "/" s + 1 + 1)) with (S (Z.to_nat (rfind "/" s + 1)))
      by lia.
    reflexivity.
  - apply Z.leb_gt in E.
    destruct (Ascii.eqb a "/"); simpl.
    + rewrite Nat.sub_0_r. apply substring_all.
    + f_equal. apply substring_all.
Qed.

(** The file name reported never contains a separator. *)
Lemma basename_no_separator (p : string) : rfind "/" (basename p) = -1.
Proof.
  induction p as [|a s IH]; [reflexivity|].
  rewrite basename_cons.
  destruct (0 <=? rfind "/" s) eqn:E; [exact IH|].
  assert (Hs : rfind "/" s = -1).
  { apply Z.leb_gt in E. clear IH.
    assert (-1 <= rfind "/" s); [|lia].
    clear. induction s as [|c s IH]; simpl; [lia|].
    destruct (0 <=? rfind "/" s) eqn:E; [apply Z.leb_le in E; lia|].
    destruct (Ascii.eqb c "/"); lia. }
  destruct (Ascii.eqb a "/") eqn:Ea; [exact Hs|].
  simpl. rewrite Hs, Ea. reflexivity.
Qed.

Section MetadataSpec.
Context {lib : Library} {mlib : MetadataLibrary}.

Lemma get_image_metadata_run (file_path : string) (log l1 : list io_event)
    (is_dicom : bool) :
  _is_dicom_file file_path log = (Ok is_dicom, l1) ->
  get_image_metadata file_path log
  = match os_path_getsize file_path with
    | Raise e => (Ok {["error"%string := Meta_str (str_of_exception e)]}, l1)
    | Ok size =>
        if is_dicom then
          (match dcmread file_path true with
           | Ok ds => Ok (update_dicom_metadata ds
                            (base_metadata file_path size true))
           | Raise e => Ok {["error"%string := Meta_str (str_of_exception e)]}
           end, l1 ++ [Read_dicom file_path true])
        else (Ok (base_metadata file_path size false), l1)
    end.
Proof.
  intros Hc.
  unfold get_image_metadata, try_except, mbind_io, lift, mreturn, dcmread_io.
  rewrite Hc.
  destruct (os_path_getsize file_path) as [size|e]; [|reflexivity].
  destruct is_dicom; [|reflexivity].
  destruct (dcmread file_path true); reflexivity.
Qed.

Lemma is_dicom_file_returns (file_path : string) (log : list io_event) :
  exists b l1, _is_dicom_file file_path log = (Ok b, l1).
Proof.
  destruct (String.eqb_spec (snd (splitext (lower file_path))) ".dcm") as [E|N].
  - rewrite (is_dicom_file_fast _ _ E). eauto.
  - rewrite (is_dicom_file_sniff _ _ N). eauto.
Qed.

(** X11: Every exception is turned into a dictionary with the single key
    "error": when the size of the file cannot be read, and when a file with
    the extension ".dcm", taken for DICOM without a look at its content,
    does not parse. No exception reaches the caller. *)
Theorem get_image_metadata_failure (file_path : string) (log : list io_event) :
  (exists d log', get_image_metadata file_path log = (Ok d, log')) /\
  (forall e, os_path_getsize file_path = Raise e ->
     fst (get_image_metadata file_path log)
     = Ok {["error"%string := Meta_str (str_of_exception e)]}) /\
  (forall size e,
     snd (splitext (lower file_path)) = ".dcm" ->
     os_path_getsize file_path = Ok size ->
     dcmread file_path true = Raise e ->
     get_image_metadata file_path log
     = (Ok {["error"%string := Meta_str (str_of_exception e)]},
        log ++ [Read_dicom file_path true])).
Proof.
  destruct (is_dicom_file_returns file_path log) as (b & l1 & Hc).
  split; [|split].
  - rewrite (get_image_metadata_run _ _ _ _ Hc).
    destruct (os_path_getsize file_path); [|eauto].
    destruct b; [|eauto]. destruct (dcmread file_path true); eauto.
  - intros e He. rewrite (get_image_metadata_run _ _ _ _ Hc), He. reflexivity.
  - intros size e Hext Hsize He.
    rewrite (get_image_metadata_run _ _ _ _ (is_dicom_file_fast _ log Hext)).
    rewrite Hsize, He. reflexivity.
Qed.

(** X12: The fields of a successful answer. A file that is not DICOM gets the
    three keys "filename", "file_size" and "is_dicom" (false), after one
    header-only read. A file whose header parses gets the four DICOM keys as
    well, each "Unknown" when the dataset lacks the attribute; its header is
    read once when the extension is ".dcm" and twice otherwise. The file
    name holds no "/". *)
Theorem get_image_metadata_fields (file_path : string) (log : list io_event)
    (file_size : Z) :
  os_path_getsize file_path = Ok file_size ->
  rfind "/" (basename file_path) = -1 /\
  (forall e, snd (splitext (lower file_path)) <> ".dcm" ->
     dcmread file_path true = Raise e ->
     exists d,
       get_image_metadata file_path log
       = (Ok d, log ++ [Read_dicom file_path true]) /\
       d !! "filename"%string = Some (Meta_str (basename file_path)) /\
       d !! "file_size"%string = Some (Meta_int file_size) /\
       d !! "is_dicom"%string = Some (Meta_bool false) /\
       base.size (dom d) = 3%nat) /\
  (forall ds, dcmread file_path true = Ok ds ->
     exists d,
       get_image_metadata file_path log
       = (Ok d,
          log ++ (if String.eqb (snd (splitext (lower file_path))) ".dcm"
                  then [Read_dicom file_path true]
                  else [Read_dicom file_path true; Read_dicom file_path true])) /\
       d !! "filename"%string = Some (Meta_str (basename file_path)) /\
       d !! "file_size"%string = Some (Meta_int file_size) /\
       d !! "is_dicom"%string = Some (Meta_bool true) /\
       (forall key attr,
          In (key, attr) [("modality", "Modality"); ("study_date", "StudyDate");
                          ("patient_id", "PatientID");
                          ("study_description", "StudyDescription")]%string ->
          d !! key = Some (Meta_str (default "Unknown"%string
                                       (dataset_attribute ds attr)))) /\
       base.size (dom d) = 7%nat).
Proof.
  intros Hsize. split; [apply basename_no_separator|]. split.
  - intros e Hext He. pose proof (is_dicom_file_sniff _ log Hext) as Hc.
    rewrite He in Hc.
    rewrite (get_image_metadata_run _ _ _ _ Hc), Hsize.
    eexists. split; [reflexivity|].
    unfold base_metadata. repeat split; reflexivity.
  - intros ds Hds.
    assert (Hd : exists l1,
               _is_dicom_file file_path log = (Ok true, l1) /\
               l1 ++ [Read_dicom file_path true]
               = log ++ (if String.eqb (snd (splitext (lower file_path))) ".dcm"
                         then [Read_dicom file_path true]
                         else [Read_dicom file_path true;
                               Read_dicom file_path true])).
    { destruct (String.eqb_spec (snd (splitext (lower file_path))) ".dcm")
        as [E|N].
      - exists log. split; [apply is_dicom_file_fast; exact E|reflexivity].
      - eexists. split.
        + rewrite (is_dicom_file_sniff _ _ N), Hds. reflexivity.
        + rewrite <- app_assoc. reflexivity. }
    destruct Hd as (l1 & Hc & Hl).
    rewrite (get_image_metadata_run _ _ _ _ Hc), Hsize, Hds, Hl.
    eexists. split; [reflexivity|].
    unfold update_dicom_metadata, base_metadata, getattr_or_unknown.
    repeat split; try reflexivity.
    intros key attr Hin. simpl in Hin.
    destruct Hin as [[= <- <-]|[[= <- <-]|[[= <- <-]|[[= <- <-]|[]]]]];
      reflexivity.
Qed.

End MetadataSpec.

(** ** More on the upload handler *)

Section UploadMore.
Import Main.
Context {analysis : Type} {services : Services analysis}.

(** X13: An upload of a content type that is not accepted, or of more than 50 MB,
    is refused with status 400 before anything is done: no temporary file is
    created and the files are as they were. The content type is tested
    before the upload is read. *)
Theorem analyze_image_refuses
    (file : UploadFile) (fs : gmap string (list Byte.byte)) :
  content_type_ok file = false \/
  (exists content, read file = Ok content /\
                   size_limit < Z.of_nat (length content)) ->
  exists detail, analyze_image file fs = (HTTPException 400 detail, fs).
Proof.
  intros H. unfold analyze_image.
  destruct (content_type_ok file); simpl; [|eauto].
  destruct H as [H|(content & -> & H)]; [discriminate|].
  replace (size_limit <? Z.of_nat (length content)) with true
    by (symmetry; apply Z.ltb_lt; exact H).
  eauto.
Qed.

(** X14: When writing the uploaded bytes to the temporary file fails, the handler
    answers 500 and the clean-up is not run: the files are left as the failed
    write left them, the temporary file included. *)
Theorem analyze_image_write_failure
    (file : UploadFile) (content : list Byte.byte)
    (fs0 fs1 fs2 : gmap string (list Byte.byte))
    (tmp : string) (e : exn) :
  content_type_ok file = true ->
  read file = Ok content ->
  Z.of_nat (length content) <= size_limit ->
  seek file = Ok tt ->
  NamedTemporaryFile (file_extension file) fs0 = (Ok tmp, fs1) ->
  tmp_file_write tmp content fs1 = (Raise e, fs2) ->
  analyze_image file fs0
  = (HTTPException 500 (String.append "Analysis failed: " (str_of_exn e)), fs2).
Proof.
  intros Hct Hread Hsize Hseek Hcreate Hwrite. unfold analyze_image.
  rewrite Hct, Hread, Hseek. simpl negb. cbv iota.
  replace (size_limit <? Z.of_nat (length content)) with false
    by (symmetry; apply Z.ltb_ge; exact Hsize).
  unfold create_and_process, fs_bind. rewrite Hcreate, Hwrite. reflexivity.
Qed.

(** X15: When the decoder raises, the analyser is not called: the handler answers
    500 with the message of the exception, and the files are those the
    decoder left, without the temporary file. *)
Theorem analyze_image_decoder_failure
    (file : UploadFile) (content : list Byte.byte)
    (fs0 fs1 fs2 fs3 : gmap string (list Byte.byte))
    (tmp : string) (e : exn) :
  content_type_ok file = true ->
  read file = Ok content ->
  Z.of_nat (length content) <= size_limit ->
  seek file = Ok tt ->
  NamedTemporaryFile (file_extension file) fs0 = (Ok tmp, fs1) ->
  tmp_file_write tmp content fs1 = (Ok tt, fs2) ->
  image_processor_read_and_normalize tmp fs2 = (Raise e, fs3) ->
  analyze_image file fs0
  = (HTTPException 500 (String.append "Analysis failed: " (str_of_exn e)),
     delete tmp fs3).
Proof.
  intros Hct Hread Hsize Hseek Hcreate Hwrite Hdec. unfold analyze_image.
  rewrite Hct, Hread, Hseek. simpl negb. cbv iota.
  replace (size_limit <? Z.of_nat (length content)) with false
    by (symmetry; apply Z.ltb_ge; exact Hsize).
  unfold create_and_process, fs_bind at 1 2. rewrite Hcreate, Hwrite.
  unfold process_and_clean, try_finally. unfold fs_bind at 1. rewrite Hdec.
  destruct (cleanup_removes tmp fs3) as (fs' & -> & ->). reflexivity.
Qed.

(** X16: The answers of the handler. It returns a response, always with
    [success = True]; or raises an HTTPException whose status is 400 or 500,
    the detail of a 500 beginning with "Analysis failed: "; or lets an
    exception through as it is, which happens exactly for the two calls
    that stand before the outer [try]: the reading of an upload of an
    accepted content type, and, for an upload within the size limit, the
    reset of its position. In both cases no file was created. *)
Theorem analyze_image_outcomes
    (file : UploadFile) (fs : gmap string (list Byte.byte)) :
  match fst (analyze_image file fs) with
  | Return response =>
      success _ response = true /\
      message _ response = "Analysis completed successfully"%string
  | HTTPException status_code detail =>
      status_code = 400 \/
      (status_code = 500 /\ String.prefix "Analysis failed: " detail = true)
  | Unhandled e =>
      content_type_ok file = true /\
      (read file = Raise e \/
       exists content,
         read file = Ok content /\
         Z.of_nat (length content) <= size_limit /\ seek file = Raise e)
  end /\
  (forall e, content_type_ok file = true -> read file = Raise e ->
     analyze_image file fs = (Unhandled e, fs)) /\
  (forall content e,
     content_type_ok file = true -> read file = Ok content ->
     Z.of_nat (length content) <= size_limit -> seek file = Raise e ->
     analyze_image file fs = (Unhandled e, fs)).
Proof.
  split; [|split].
  - unfold analyze_image.
    destruct (content_type_ok file); simpl; [|auto].
    destruct (read file) as [content|e0]; simpl; [|auto].
    destruct (size_limit <? _) eqn:Hsize; simpl; [auto|].
    apply Z.ltb_ge in Hsize.
    destruct (seek file) as [[]|e0]; simpl; [|eauto 6].
    destruct (create_and_process file content fs) as [[response|e] fs'] eqn:E;
      simpl.
    + unfold create_and_process, fs_bind in E.
      destruct (NamedTemporaryFile _ fs) as [[tmp|e] fs1]; [|discriminate].
      destruct (tmp_file_write tmp _ fs1) as [[[]|e] fs2]; [|discriminate].
      unfold process_and_clean, try_finally in E.
      destruct (fs_bind _ _ fs2) as [r fs3] eqn:B.
      destruct (cleanup_removes tmp fs3) as (fs'' & Hc & _).
      rewrite Hc in E. injection E as -> _.
      unfold fs_bind, fs_ret in B.
      destruct (image_processor_read_and_normalize tmp fs2) as [[img|e] fs4];
        [|discriminate].
      destruct (vision_analyzer_analyze_ct_scan img fs4) as [[res|e] fs5];
        [|discriminate].
      injection B as <- _. split; reflexivity.
    + right. split; [reflexivity|]. simpl.
      repeat (rewrite ?Ascii.eqb_refl; simpl).
      destruct (str_of_exn e); reflexivity.
  - intros e Hct Hread. unfold analyze_image. rewrite Hct, Hread. reflexivity.
  - intros content e Hct Hread Hsize Hseek. unfold analyze_image.
    rewrite Hct, Hread, Hseek. simpl negb. cbv iota.
    replace (size_limit <? Z.of_nat (length content)) with false
      by (symmetry; apply Z.ltb_ge; exact Hsize).
    reflexivity.
Qed.

End UploadMore.

(** ** The name of the temporary file and the classifier *)

Lemma str_append_cons (c : ascii) (a b : string) :
  String c a +:+ b = String c (a +:+ b).
Proof. reflexivity. Qed.

Lemma rfind_bounds (c : ascii) (s : string) :
  -1 <= rfind c s < Z.of_nat (String.length s).
Proof.
  induction s as [|a s IH]; simpl rfind; simpl String.length; [lia|].
  destruct (0 <=? rfind c s) eqn:E; [apply Z.leb_le in E; lia|].
  destruct (Ascii.eqb a c); lia.
Qed.

Lemma rfind_app (c : ascii) (a b : string) :
  rfind c (a +:+ b)
  = if 0 <=? rfind c b then Z.of_nat (String.length a) + rfind c b
    else rfind c a.
Proof.
  induction a as [|x a IH].
  - change (EmptyString +:+ b) with b. simpl.
    destruct (0 <=? rfind c b) eqn:E; [reflexivity|].
    apply Z.leb_gt in E. pose proof (rfind_bounds c b). lia.
  - rewrite str_append_cons. simpl rfind. rewrite IH. simpl String.length.
    destruct (0 <=? rfind c b) eqn:E.
    + apply Z.leb_le in E.
      replace (0 <=? Z.of_nat (String.length a) + rfind c b) with true
        by (symmetry; apply Z.leb_le; lia).
      lia.
    + reflexivity.
Qed.

Lemma str_length_append (a b : string) :
  String.length (a +:+ b) = (String.length a + String.length b)%nat.
Proof.
  induction a as [|x a IH]; [reflexivity|].
  rewrite str_append_cons. simpl. rewrite IH. reflexivity.
Qed.

Lemma get_append_right (a b : string) (k : nat) :
  String.get (String.length a + k) (a +:+ b) = String.get k b.
Proof.
  induction a as [|x a IH]; [reflexivity|].
  rewrite str_append_cons. simpl. exact IH.
Qed.

Lemma substring_append_right (a b : string) :
  substring (String.length a) (String.length b) (a +:+ b) = b.
Proof.
  induction a as [|x a IH].
  - change (EmptyString +:+ b) with b. apply substring_all.
  - rewrite str_append_cons. simpl. exact IH.
Qed.

(** A string with an occurrence of [c] splits at the last one. *)
Lemma rfind_split (c : ascii) (s : string) :
  0 <= rfind c s ->
  exists pre r, s = pre +:+ String c r /\
                Z.of_nat (String.length pre) = rfind c s /\ rfind c r = -1.
Proof.
  induction s as [|a s IH]; simpl rfind; [lia|].
  destruct (0 <=? rfind c s) eqn:E.
  - intros _. apply Z.leb_le in E. destruct (IH E) as (pre & r & -> & Hl & Hr).
    exists (String a pre), r. rewrite str_append_cons. simpl String.length.
    split; [reflexivity|]. split; [lia|exact Hr].
  - apply Z.leb_gt in E. pose proof (rfind_bounds c s).
    destruct (Ascii.eqb_spec a c) as [->|]; [|lia].
    intros _. exists EmptyString, s. split; [reflexivity|].
    split; [reflexivity|lia].
Qed.

Lemma splitext_extension_shape (p : string) : extension_shape (snd (splitext p)).
Proof.
  unfold splitext.
  destruct ((rfind "/" p <? rfind "." p) && _) eqn:C; [|left; reflexivity].
  apply andb_prop in C as [C _]. apply Z.ltb_lt in C.
  pose proof (rfind_bounds "/" p) as Hs.
  destruct (rfind_split "." p ltac:(lia)) as (pre & r & Hp & Hl & Hr).
  right. exists r. simpl snd. subst p. rewrite <- Hl in *. clear Hl.
  rewrite Nat2Z.id, str_length_append.
  replace (String.length pre + String.length (String "." r) - String.length pre)%nat
    with (String.length (String "." r)) by lia.
  split; [apply substring_append_right|]. split; [exact Hr|].
  rewrite rfind_app in C.
  destruct (0 <=? rfind "/" (String "." r)) eqn:E.
  - apply Z.leb_le in E. lia.
  - apply Z.leb_gt in E. simpl rfind in E.
    destruct (0 <=? rfind "/" r) eqn:E'; [apply Z.leb_le in E'; lia|].
    apply Z.leb_gt in E'. pose proof (rfind_bounds "/" r). lia.
Qed.

Lemma str_append_empty_r (s : string) : s +:+ "" = s.
Proof.
  induction s as [|x s IH]; [reflexivity|]. rewrite str_append_cons, IH. reflexivity.
Qed.

Lemma rfind_cons_nonneg (c a : ascii) (s : string) :
  0 <= rfind c s -> rfind c (String a s) = rfind c s + 1.
Proof.
  intros H. simpl.
  replace (0 <=? rfind c s) with true by (symmetry; apply Z.leb_le; exact H).
  reflexivity.
Qed.

Lemma rfind_cons_absent (c a : ascii) (s : string) :
  rfind c s = -1 -> rfind c (String a s) = if Ascii.eqb a c then 0 else -1.
Proof. intros H. simpl. rewrite H. reflexivity. Qed.

Lemma str_append_assoc (a b c : string) : (a +:+ b) +:+ c = a +:+ (b +:+ c).
Proof.
  induction a as [|x a IH]; [reflexivity|].
  rewrite !str_append_cons, IH. reflexivity.
Qed.

(** After a directory, a separator and a non-empty stem without dot or
    separator, an extension is found again by [splitext]. *)
Lemma splitext_of_stem_extension (dir stem e : string) :
  stem <> EmptyString -> rfind "/" stem = -1 -> rfind "." stem = -1 ->
  extension_shape e ->
  snd (splitext (dir +:+ String "/" (stem +:+ e))) = e.
Proof.
  intros Hne Hslash Hdot He. unfold splitext.
  assert (Hse : rfind "/" e = -1).
  { destruct He as [->|(r & -> & _ & Hr)]; [reflexivity|].
    rewrite rfind_cons_absent by exact Hr. reflexivity. }
  assert (Hsep : rfind "/" (dir +:+ String "/" (stem +:+ e))
                 = Z.of_nat (String.length dir)).
  { rewrite rfind_app, rfind_cons_absent; [simpl; lia|].
    rewrite rfind_app, Hse. exact Hslash. }
  rewrite Hsep.
  destruct He as [->|(r & -> & Hr & _)].
  - (* no extension *)
    rewrite str_append_empty_r.
    assert (Hd : rfind "." (dir +:+ String "/" stem) < Z.of_nat (String.length dir)).
    { rewrite rfind_app, rfind_cons_absent by exact Hdot. simpl.
      pose proof (rfind_bounds "." dir). lia. }
    replace (_ <? _) with false by (symmetry; apply Z.ltb_ge; lia).
    reflexivity.
  - (* an extension *)
    set (p := dir +:+ String "/" (stem +:+ String "." r)).
    assert (Hstem : (0 < String.length stem)%nat)
      by (destruct stem; [congruence|simpl; lia]).
    assert (Hd : rfind "." p
                 = Z.of_nat (String.length dir + 1 + String.length stem)).
    { unfold p. rewrite rfind_app.
      assert (E : rfind "." (String "/" (stem +:+ String "." r))
                  = Z.of_nat (String.length stem) + 1).
      { rewrite rfind_cons_nonneg; rewrite rfind_app, rfind_cons_absent by exact Hr;
          simpl; lia. }
      rewrite E.
      replace (0 <=? _) with true by (symmetry; apply Z.leb_le; lia). lia. }
    rewrite Hd.
    replace (_ <? _) with true by (symmetry; apply Z.ltb_lt; lia).
    assert (Hlen : String.length p
                   = (String.length dir + 1 + String.length stem
                      + String.length (String "." r))%nat).
    { unfold p. rewrite str_length_append. simpl String.length.
      rewrite str_length_append. simpl. lia. }
    assert (Hskip : skip_leading_dots p (Z.of_nat (String.length dir) + 1)
                      (Z.of_nat (String.length dir + 1 + String.length stem))
                      (String.length p) = true).
    { rewrite Hlen.
      replace (String.length dir + 1 + String.length stem
               + String.length (String "." r))%nat
        with (S (String.length dir + String.length stem
                 + String.length (String "." r)))%nat by lia.
      cbn [skip_leading_dots].
      replace (_ <? _) with true by (symmetry; apply Z.ltb_lt; lia).
      replace (Z.to_nat (Z.of_nat (String.length dir) + 1))
        with (String.length dir + 1)%nat by lia.
      unfold p. rewrite get_append_right.
      destruct stem as [|c stem]; [congruence|].
      assert (Hc : Ascii.eqb c "." = false).
      { simpl in Hdot. destruct (0 <=? rfind "." stem) eqn:E.
        - apply Z.leb_le in E. lia.
        - destruct (Ascii.eqb c "."); [discriminate|reflexivity]. }
      simpl. rewrite Hc. reflexivity. }
    rewrite Hskip. simpl snd.
    rewrite Nat2Z.id, Hlen.
    replace (String.length dir + 1 + String.length stem
             + String.length (String "." r)
             - (String.length dir + 1 + String.length stem))%nat
      with (String.length (String "." r)) by lia.
    unfold p.
    replace (dir +:+ String "/" (stem +:+ String "." r))
      with ((dir +:+ String "/" stem) +:+ String "." r)
      by (rewrite str_append_assoc; reflexivity).
    replace (String.length dir + 1 + String.length stem)%nat
      with (String.length (dir +:+ String "/" stem))
      by (rewrite str_length_append; simpl; lia).
    apply substring_append_right.
Qed.

Lemma file_extension_shape (file : Main.UploadFile) :
  extension_shape (Main.file_extension file).
Proof.
  unfold Main.file_extension.
  destruct (Main.filename file) as [[|c name]|].
  - right. exists "tmp"%string. repeat split; reflexivity.
  - apply splitext_extension_shape.
  - right. exists "tmp"%string. repeat split; reflexivity.
Qed.

Section TemporaryName.
Context {lib : Library}.

(** X17: The temporary file is named after the upload: for a name made of a
    directory, a stem without dot or separator and the suffix the handler
    asks for, the classifier sees the extension of the uploaded file name. An
    upload named with ".dcm" in any letter case is therefore taken for DICOM
    without a read of the temporary file, and any other upload is sniffed
    with one header-only read. *)
Theorem temporary_name_classified_by_upload
    (file : Main.UploadFile) (dir stem : string) (log : list io_event) :
  stem <> EmptyString -> rfind "/" stem = -1 -> rfind "." stem = -1 ->
  let tmp := dir +:+ String "/" (stem +:+ Main.file_extension file) in
  snd (splitext tmp) = Main.file_extension file /\
  (lower (Main.file_extension file) = ".dcm" ->
   _is_dicom_file tmp log = (Ok true, log)) /\
  (lower (Main.file_extension file) <> ".dcm" ->
   snd (_is_dicom_file tmp log) = log ++ [Read_dicom tmp true]).
Proof.
  intros Hne Hs Hd tmp.
  assert (E : snd (splitext tmp) = Main.file_extension file)
    by (apply splitext_of_stem_extension; auto using file_extension_shape).
  split; [exact E|]. split.
  - intros Hl. apply is_dicom_file_fast. rewrite splitext_lower, E. exact Hl.
  - intros Hl. rewrite is_dicom_file_sniff; [reflexivity|].
    rewrite splitext_lower, E. exact Hl.
Qed.

End TemporaryName.

(** ** The vision analyser *)

Section AnalyzerSpec.
Import Vision.
Context {env : Environment}.

Lemma zero_scores_in_unit : scores_in_unit zero_scores = true.
Proof. vm_compute. reflexivity. Qed.

Lemma validate_unit_float_in_unit (v : json) (x : spec_float) :
  validate_unit_float v = Some x -> SFleb f0 x && SFleb x f1 = true.
Proof.
  unfold validate_unit_float.
  destruct (match v with
            | JFloat x0 => Some x0
            | JInt k => Some (F64.of_Z k)
            | _ => coerce_float v
            end) as [y|]; [|discriminate].
  destruct (SFleb f0 y && SFleb y f1) eqn:E; [|discriminate].
  intros [= <-]. exact E.
Qed.

Lemma new_ConfidenceScores_in_unit (vt vn vm vs : json) (c : ConfidenceScores) :
  new_ConfidenceScores vt vn vm vs = Done c -> scores_in_unit c = true.
Proof.
  unfold new_ConfidenceScores.
  destruct (validate_unit_float vt) as [a|] eqn:Ea; [|discriminate].
  destruct (validate_unit_float vn) as [b|] eqn:Eb; [|discriminate].
  destruct (validate_unit_float vm) as [c'|] eqn:Ec; [|discriminate].
  destruct (validate_unit_float vs) as [d|] eqn:Ed; [|discriminate].
  intros [= <-]. unfold scores_in_unit. simpl.
  rewrite (validate_unit_float_in_unit _ _ Ea), (validate_unit_float_in_unit _ _ Eb),
    (validate_unit_float_in_unit _ _ Ec), (validate_unit_float_in_unit _ _ Ed).
  reflexivity.
Qed.

Lemma new_StagingResult_confidences (vt vn vm vs ve : json)
    (c : ConfidenceScores) (r : StagingResult) :
  new_StagingResult vt vn vm vs c ve = Done r -> confidences r = c.
Proof.
  unfold new_StagingResult.
  destruct (validate_optional_str vt), (validate_optional_str vn),
    (validate_optional_str vm), (validate_optional_str vs),
    (validate_optional_str ve); try discriminate.
  intros [= <-]. reflexivity.
Qed.

(** Where the confidences of a parsed result come from: the zero scores
    of the failure and error paths, or a validated [ConfidenceScores]. *)
Lemma parse_confidences_origin (result_data : json) :
  confidences (_parse_analysis_result result_data) = zero_scores \/
  exists ct cn cm cs,
    new_ConfidenceScores ct cn cm cs
    = Done (confidences (_parse_analysis_result result_data)).
Proof.
  unfold _parse_analysis_result.
  destruct (dict_get result_data "error" JNull) as [error_msg|e]; simpl;
    [|left; reflexivity].
  destruct (truthy error_msg).
  - destruct (new_StagingResult _ _ _ _ _ _) as [r|e] eqn:E;
      [|left; reflexivity].
    left. apply (new_StagingResult_confidences _ _ _ _ _ _ _ E).
  - repeat match goal with
           | |- context [abind ?x _] =>
               let H := fresh "E" in
               destruct x eqn:H; simpl; [|left; reflexivity]
           end.
    match goal with
    | |- context [new_StagingResult ?a ?b ?c ?d ?s ?e] =>
        destruct (new_StagingResult a b c d s e) as [r|e'] eqn:Er;
          [|left; reflexivity]
    end.
    right. rewrite (new_StagingResult_confidences _ _ _ _ _ _ _ Er).
    eauto.
Qed.

(** X19: Whatever the model answered, the confidences of the parsed result lie
    in [0, 1]: values outside are refused by the validation, and every
    failure path reports 0.0. *)
Theorem parse_confidences_in_unit (result_data : json) :
  scores_in_unit (confidences (_parse_analysis_result result_data)) = true.
Proof.
  destruct (parse_confidences_origin result_data)
    as [Hzero|(ct & cn & cm & cs & Hvalid)].
  - rewrite Hzero. apply zero_scores_in_unit.
  - apply (new_ConfidenceScores_in_unit ct cn cm cs). exact Hvalid.
Qed.

(** X18: An error reported by the model comes first: when the answer carries a
    non-empty "error" string, the result has no stage, confidences 0.0 and
    that string as its error, whatever else the answer holds. *)
Theorem parse_error_first (members : list (string * json)) (message : string) :
  assoc "error" members = Some (JStr message) ->
  message <> ""%string ->
  _parse_analysis_result (JDict members) = no_result message.
Proof.
  intros He Hne. unfold _parse_analysis_result, dict_get. rewrite He. simpl.
  destruct message; [congruence|]. reflexivity.
Qed.

(** X20: A confidence that the validation refuses (1.5, say) discards the whole
    answer: the stages the model gave are not reported, and the result is
    the failure result of the parser. *)
Theorem parse_invalid_confidence
    (members scores : list (string * json)) (key : string) :
  assoc "error" members = None ->
  assoc "confidence_scores" members = Some (JDict scores) ->
  In key ["t_confidence"; "n_confidence"; "m_confidence";
          "overall_confidence"]%string ->
  validate_unit_float (default (JFloat f0) (assoc key scores)) = None ->
  _parse_analysis_result (JDict members)
  = no_result (String.append "Failed to parse analysis result: "
                             (str_of_error (Builtin ValueError))).
Proof.
  intros He Hc Hk Hv. unfold _parse_analysis_result, dict_get.
  rewrite He, Hc. simpl. unfold new_ConfidenceScores.
  simpl in Hk.
  destruct Hk as [<-|[<-|[<-|[<-|[]]]]]; rewrite Hv;
    repeat match goal with
           | |- context [match validate_unit_float ?v with _ => _ end] =>
               destruct (validate_unit_float v)
           end; reflexivity.
Qed.

(** X21: Without an "error" and without "confidence_scores" the stages the
    answer gives as strings are reported, each missing one as None, with
    confidences 0.0 and no error. *)
Theorem parse_defaults (members : list (string * json))
    (vt vn vm vs : option string) :
  assoc "error" members = None ->
  assoc "confidence_scores" members = None ->
  assoc "t_stage" members = option_map JStr vt ->
  assoc "n_stage" members = option_map JStr vn ->
  assoc "m_stage" members = option_map JStr vm ->
  assoc "overall_stage" members = option_map JStr vs ->
  _parse_analysis_result (JDict members)
  = {| t := vt; n := vn; m := vm; stage := vs;
       confidences := zero_scores; error := None |}.
Proof.
  intros He Hc Ht Hn Hm Hs. unfold _parse_analysis_result, dict_get.
  rewrite He, Hc, Ht, Hn, Hm, Hs. simpl.
  destruct vt, vn, vm, vs; reflexivity.
Qed.

Lemma no_result_in_unit (message : string) :
  scores_in_unit (confidences (no_result message)) = true.
Proof. apply zero_scores_in_unit. Qed.

(** With a client the analyser returns: the [except] clause catches what
    the body raises. *)
Lemma analyze_ct_scan_returns (base64_image : string) :
  exists r, analyze_ct_scan true base64_image = Done r.
Proof.
  unfold analyze_ct_scan. simpl.
  match goal with
  | |- exists r, match ?body with _ => _ end = _ => destruct body
  end; eauto.
Qed.

Lemma analyze_ct_scan_request_failure
    (base64_image system_prompt analysis_prompt : string) (e : failure) :
  build_enhanced_system_prompt = Done system_prompt ->
  get_analysis_prompt = Done analysis_prompt ->
  chat_completions_create system_prompt base64_image analysis_prompt
  = Failed e ->
  analyze_ct_scan true base64_image
  = Done (no_result (String.append "Analysis failed: " (str_of_error e))).
Proof.
  intros Hs Hp Hc. unfold analyze_ct_scan. simpl.
  rewrite Hs. simpl. rewrite Hp. simpl. rewrite Hc. reflexivity.
Qed.

Lemma analyze_ct_scan_no_tool_call
    (base64_image system_prompt analysis_prompt : string)
    (calls : option (list string)) (rest : list (option (list string))) :
  build_enhanced_system_prompt = Done system_prompt ->
  get_analysis_prompt = Done analysis_prompt ->
  chat_completions_create system_prompt base64_image analysis_prompt
  = Done (calls :: rest) ->
  calls = None \/ calls = Some [] ->
  analyze_ct_scan true base64_image
  = Done (no_result "No analysis result received from model").
Proof.
  intros Hs Hp Hc Hcalls. unfold analyze_ct_scan. simpl.
  rewrite Hs. simpl. rewrite Hp. simpl. rewrite Hc. simpl.
  destruct Hcalls as [->| ->]; reflexivity.
Qed.

Lemma analyze_ct_scan_scores (base64_image : string) (r : StagingResult) :
  analyze_ct_scan true base64_image = Done r ->
  confidences r = zero_scores \/
  exists result_data, r = _parse_analysis_result result_data.
Proof.
  unfold analyze_ct_scan. simpl.
  destruct build_enhanced_system_prompt as [sp|e1]; simpl;
    [|intros [= <-]; left; reflexivity].
  destruct get_analysis_prompt as [ap|e2]; simpl;
    [|intros [= <-]; left; reflexivity].
  destruct (chat_completions_create sp base64_image ap) as [choices|e3]; simpl;
    [|intros [= <-]; left; reflexivity].
  destruct choices as [|[[|arguments others]|] rest]; simpl;
    try (intros [= <-]; left; reflexivity).
  destruct (json_loads arguments) as [result_data|e4]; simpl;
    intros [= <-]; [right; eauto | left; reflexivity].
Qed.

(** X22: The analyser raises in one case only: RuntimeError when the client was
    not initialised. With a client, every failure (of the prompts, of the
    request, of the decoding of the answer) is turned into a result without
    stages whose error begins with "Analysis failed: ", an answer without
    tool call gives "No analysis result received from model", and the
    confidences of the result lie in [0, 1]. *)
Theorem analyze_ct_scan_outcomes (client : bool) (base64_image : string) :
  match analyze_ct_scan client base64_image with
  | Failed e =>
      client = false /\ e = RuntimeError "OpenAI client not initialized"
  | Done r =>
      client = true /\ scores_in_unit (confidences r) = true /\
      (forall system_prompt analysis_prompt e,
         build_enhanced_system_prompt = Done system_prompt ->
         get_analysis_prompt = Done analysis_prompt ->
         chat_completions_create system_prompt base64_image analysis_prompt
         = Failed e ->
         r = no_result (String.append "Analysis failed: " (str_of_error e))) /\
      (forall system_prompt analysis_prompt calls rest,
         build_enhanced_system_prompt = Done system_prompt ->
         get_analysis_prompt = Done analysis_prompt ->
         chat_completions_create system_prompt base64_image analysis_prompt
         = Done (calls :: rest) ->
         calls = None \/ calls = Some [] ->
         r = no_result "No analysis result received from model")
  end.
Proof.
  destruct client.
  - destruct (analyze_ct_scan_returns base64_image) as (r & Hr). rewrite Hr.
    split; [reflexivity|]. split; [|split].
    + destruct (analyze_ct_scan_scores base64_image r Hr)
        as [Hzero|(result_data & ->)].
      * rewrite Hzero. apply zero_scores_in_unit.
      * destruct (parse_confidences_origin result_data)
          as [Hzero|(ct & cn & cm & cs & Hvalid)].
        -- rewrite Hzero. apply zero_scores_in_unit.
        -- apply (new_ConfidenceScores_in_unit ct cn cm cs). exact Hvalid.
    + intros sp ap e Hs Hp Hc.
      rewrite (analyze_ct_scan_request_failure _ _ _ _ Hs Hp Hc) in Hr.
      injection Hr as <-. reflexivity.
    + intros sp ap calls rest Hs Hp Hc Hcalls.
      rewrite (analyze_ct_scan_no_tool_call _ _ _ _ _ Hs Hp Hc Hcalls) in Hr.
      injection Hr as <-. reflexivity.
  - simpl. split; reflexivity.
Qed.

End AnalyzerSpec.

(** ** The handler and the analyser together *)

Section HandlerWithAnalyzer.
Import Main.
Context {env : Vision.Environment} {services : Services Vision.StagingResult}.

(** X23: When the analyser of the handler is [analyze_ct_scan] with an
    initialised client, a decoded upload is always answered with
    [success = True]: also when the request to the model failed, in which
    case the response carries a result without stages whose error begins
    with "Analysis failed: ". The temporary file is removed. *)
Theorem analyze_image_success_flag
    (file : UploadFile) (content : list Byte.byte)
    (fs0 fs1 fs2 fs3 : gmap string (list Byte.byte))
    (tmp image : string) :
  (forall r, Vision.analyze_ct_scan true image = Vision.Done r ->
             vision_analyzer_analyze_ct_scan image fs3 = (Ok r, fs3)) ->
  content_type_ok file = true ->
  read file = Ok content ->
  Z.of_nat (length content) <= size_limit ->
  seek file = Ok tt ->
  NamedTemporaryFile (file_extension file) fs0 = (Ok tmp, fs1) ->
  tmp_file_write tmp content fs1 = (Ok tt, fs2) ->
  image_processor_read_and_normalize tmp fs2 = (Ok image, fs3) ->
  exists r,
    Vision.analyze_ct_scan true image = Vision.Done r /\
    analyze_image file fs0
    = (Return {| success := true; response_data := r;
                 message := "Analysis completed successfully" |},
       delete tmp fs3) /\
    (forall system_prompt analysis_prompt e,
       Vision.build_enhanced_system_prompt = Vision.Done system_prompt ->
       Vision.get_analysis_prompt = Vision.Done analysis_prompt ->
       Vision.chat_completions_create system_prompt image analysis_prompt
       = Vision.Failed e ->
       Vision.stage r = None /\
       Vision.error r
       = Some (String.append "Analysis failed: " (Vision.str_of_error e))).
Proof.
  intros Hlink Hct Hread Hsize Hseek Hcreate Hwrite Hdec.
  destruct (analyze_ct_scan_returns image) as (r & Ha).
  exists r. split; [exact Ha|]. split.
  - unfold analyze_image. rewrite Hct, Hread, Hseek. simpl negb. cbv iota.
    replace (size_limit <? Z.of_nat (length content)) with false
      by (symmetry; apply Z.ltb_ge; exact Hsize).
    unfold create_and_process, fs_bind at 1 2. rewrite Hcreate, Hwrite.
    unfold process_and_clean, try_finally.
    match goal with
    | |- context [let (r0, fs') := ?body fs2 in _] =>
        assert (Hbody : body fs2
                        = (Ok {| success := true; response_data := r;
                                 message := "Analysis completed successfully" |},
                           fs3))
          by (unfold fs_bind, fs_ret; rewrite Hdec, (Hlink r Ha);
              reflexivity);
        rewrite Hbody
    end.
    destruct (cleanup_removes tmp fs3) as (fs' & -> & ->). reflexivity.
  - intros sp ap e Hs Hp Hc.
    rewrite (analyze_ct_scan_request_failure _ _ _ _ Hs Hp Hc) in Ha.
    injection Ha as <-. split; reflexivity.
Qed.

End HandlerWithAnalyzer.

(** ** The prompt manager *)

Section PromptSpec.
Import Prompt.

Lemma prefix_append (s t : string) : String.prefix s (s +:+ t) = true.
Proof.
  induction s as [|c s IH]; simpl; [destruct t; reflexivity|].
  destruct (ascii_dec c c); [exact IH|congruence].
Qed.

Lemma prefix_trans_append (s p t : string) :
  String.prefix s p = true -> String.prefix s (p +:+ t) = true.
Proof.
  revert p. induction s as [|c s IH]; intros p H; simpl.
  - destruct (p +:+ t); reflexivity.
  - destruct p as [|d p]; [discriminate|]. simpl in *.
    destruct (ascii_dec c d); [apply IH; exact H|discriminate].
Qed.

Lemma add_stages_prefix (s p : string) (stages : list (string * string)) :
  String.prefix s p = true -> String.prefix s (add_stages p stages) = true.
Proof.
  unfold add_stages. revert p.
  induction stages as [|e l IH]; intros p H; simpl; [exact H|].
  apply IH. repeat apply prefix_trans_append. exact H.
Qed.

Lemma add_guidelines_prefix (s p : string)
    (guidelines : list (string * list (string * string))) :
  String.prefix s p = true -> String.prefix s (add_guidelines p guidelines) = true.
Proof.
  unfold add_guidelines. revert p.
  induction guidelines as [|e l IH]; intros p H; simpl; [exact H|].
  apply IH, add_stages_prefix. repeat apply prefix_trans_append. exact H.
Qed.

Lemma add_numbered_prefix (s p : string) (i : nat) (l : list string) :
  String.prefix s p = true -> String.prefix s (add_numbered p i l) = true.
Proof.
  revert p i. induction l as [|e l IH]; intros p i H; simpl; [exact H|].
  apply IH. repeat apply prefix_trans_append. exact H.
Qed.

Lemma add_bullets_prefix (s p : string) (l : list string) :
  String.prefix s p = true -> String.prefix s (add_bullets p l) = true.
Proof.
  unfold add_bullets. revert p.
  induction l as [|e l IH]; intros p H; simpl; [exact H|].
  apply IH. repeat apply prefix_trans_append. exact H.
Qed.

(** X24: The enhanced prompt only extends the configured system prompt: it
    begins with it, whatever sections the configuration holds; and when the
    four sections are missing or empty it is the system prompt, with no
    heading added. *)
Theorem build_enhanced_system_prompt_extends (c : config) :
  String.prefix (get_system_prompt c) (build_enhanced_system_prompt c) = true /\
  (get_staging_guidelines c = [] -> get_analysis_instructions c = [] ->
   get_quality_indicators c = [] -> get_output_format c = [] ->
   build_enhanced_system_prompt c = get_system_prompt c).
Proof.
  split.
  - unfold build_enhanced_system_prompt.
    assert (H0 : String.prefix (get_system_prompt c) (get_system_prompt c) = true).
    { clear. induction (get_system_prompt c) as [|a s IH]; simpl; [reflexivity|].
      destruct (ascii_dec a a); [exact IH|congruence]. }
    cbv zeta.
    destruct (is_empty (get_output_format c)),
      (is_empty (get_quality_indicators c)),
      (is_empty (get_analysis_instructions c)),
      (is_empty (get_staging_guidelines c));
      repeat first [ exact H0
                   | apply add_bullets_prefix
                   | apply add_numbered_prefix
                   | apply add_guidelines_prefix
                   | apply prefix_trans_append ].
  - intros Hg Hi Hq Ho. unfold build_enhanced_system_prompt.
    rewrite Hg, Hi, Hq, Ho. reflexivity.
Qed.

(** When the YAML file cannot be loaded the fallback configuration is
    served, and the two prompts are its two sentences. *)
Theorem load_failure_prompts (e : exn) :
  build_enhanced_system_prompt (_load_yaml (Raise e))
  = "You are a thoracic radiologist specializing in NSCLC staging."%string /\
  get_analysis_prompt (_load_yaml (Raise e))
  = "Please analyze this CT scan for NSCLC staging."%string.
Proof. split; reflexivity. Qed.

Example str_of_nat_examples :
  str_of_nat 0 = "0"%string /\ str_of_nat 1 = "1"%string /\
  str_of_nat 12 = "12"%string.
Proof. repeat split; reflexivity. Qed.

Example build_sample_prompt :
  build_enhanced_system_prompt sample_config
  = ("You stage NSCLC." +:+ nl +:+ nl
     +:+ "## TNM Staging Guidelines:" +:+ nl +:+ nl
     +:+ "### T STAGE:" +:+ nl
     +:+ "- T1: Tumor <= 3 cm" +:+ nl
     +:+ "- T2: Tumor > 3 cm" +:+ nl +:+ nl +:+ nl
     +:+ "## Analysis Instructions:" +:+ nl
     +:+ "1. Measure the tumor" +:+ nl
     +:+ "2. Stage the nodes" +:+ nl +:+ nl +:+ nl
     +:+ "## Output Format:" +:+ nl
     +:+ "- Use the tool" +:+ nl)%string.
Proof. vm_compute. reflexivity. Qed.

End PromptSpec.

(** ** Instances of the theorems above *)

Lemma read_dicom_unwindowed_witness :
  _read_dicom (lib := ext_library) "/data/center_only.dcm" []
  = (Ok ct_pixels, [Read_dicom "/data/center_only.dcm" false]).
Proof.
  apply (read_dicom_unwindowed (lib := ext_library) "/data/center_only.dcm"
           center_only_dataset ct_pixels ct_pixels []);
    try reflexivity.
  right. reflexivity.
Defined.

Lemma normalize_empty_raises_witness :
  _normalize_ct_image (lib := ref_library) no_samples = Raise ValueError.
Proof.
  apply (normalize_empty_raises (lib := ref_library) no_samples). reflexivity.
Defined.

Lemma first_channel_selects_witness :
  shape (first_channel rgb_row) = [1; 2]%nat /\
  data (first_channel rgb_row) !! 0%nat = Some 10 /\
  data (first_channel rgb_row) !! 1%nat = Some 20.
Proof.
  destruct (first_channel_selects rgb_row 1 2 3 [] eq_refl) as (Hs & _ & Hl);
    [lia|reflexivity|].
  split; [exact Hs|]. split.
  - apply (Hl 0%nat 0%nat); simpl; lia.
  - apply (Hl 1%nat 0%nat); simpl; lia.
Defined.

Lemma first_channel_squeezes_witness :
  data (first_channel single_channel) = [1; 2; 3; 4] /\
  prod_shape (shape (first_channel single_channel)) = 4%nat.
Proof.
  destruct (first_channel_squeezes single_channel 2 2 1 [] eq_refl)
    as (Hd & _ & _ & Hp); [lia|].
  split; [exact Hd|exact Hp].
Defined.

Lemma read_and_normalize_dcm_extension_witness :
  lower (snd (splitext "/data/chest.DCM")) = ".dcm" /\
  read_and_normalize (lib := ref_library) "/data/chest.DCM" []
  = (Raise InvalidDicomError, [Read_dicom "/data/chest.DCM" false]).
Proof.
  split; [reflexivity|].
  destruct (read_and_normalize_dcm_extension (lib := ref_library)
              "/data/chest.DCM" [] eq_refl) as (Hlog & Herr & _).
  specialize (Herr InvalidDicomError eq_refl).
  destruct (read_and_normalize "/data/chest.DCM" []) as [r l].
  simpl in Hlog, Herr. subst. reflexivity.
Defined.

Lemma read_and_normalize_sniffs_witness :
  snd (read_and_normalize (lib := ext_library) "/data/chest.png" [])
  = [Read_dicom "/data/chest.png" true; Read_image "/data/chest.png"] /\
  snd (read_and_normalize (lib := ext_library) "/data/series/IM0001" [])
  = [Read_dicom "/data/series/IM0001" true;
     Read_dicom "/data/series/IM0001" false].
Proof.
  split.
  - assert (H : snd (splitext (lower "/data/chest.png")) <> ".dcm")
      by (vm_compute; discriminate).
    destruct (read_and_normalize_sniffs (lib := ext_library)
                "/data/chest.png" [] H) as [_ Hraster].
    destruct (Hraster InvalidDicomError eq_refl) as [Hlog _]. exact Hlog.
  - assert (H : snd (splitext (lower "/data/series/IM0001")) <> ".dcm")
      by (vm_compute; discriminate).
    destruct (read_and_normalize_sniffs (lib := ext_library)
                "/data/series/IM0001" [] H) as [Hdicom _].
    destruct (Hdicom (without_pixels multi_dataset) eq_refl) as [Hlog _].
    exact Hlog.
Defined.

Lemma get_image_metadata_fields_witness :
  exists d,
    get_image_metadata (lib := ext_library) (mlib := ref_metadata_library)
      "/data/series/IM0001" []
    = (Ok d, [Read_dicom "/data/series/IM0001" true;
              Read_dicom "/data/series/IM0001" true]) /\
    d !! "filename"%string = Some (Meta_str "IM0001") /\
    d !! "modality"%string = Some (Meta_str "CT") /\
    d !! "patient_id"%string = Some (Meta_str "Unknown").
Proof.
  destruct (get_image_metadata_fields (lib := ext_library)
              (mlib := ref_metadata_library) "/data/series/IM0001" [] 526
              eq_refl) as (_ & _ & Hdicom).
  destruct (Hdicom (without_pixels multi_dataset) eq_refl)
    as (d & Hrun & Hname & _ & _ & Hattr & _).
  exists d. split; [exact Hrun|]. split; [exact Hname|]. split.
  - apply (Hattr "modality" "Modality")%string. simpl. auto.
  - apply (Hattr "patient_id" "PatientID")%string. simpl. auto.
Defined.

Lemma analyze_image_refuses_witness :
  exists detail,
    Main.analyze_image (services := Main.ref_services) text_upload ∅
    = (Main.HTTPException 400 detail, ∅).
Proof.
  apply (analyze_image_refuses (services := Main.ref_services) text_upload ∅).
  left. reflexivity.
Defined.

Lemma analyze_image_write_failure_witness :
  Main.analyze_image (services := failing_write_services) Main.png_upload ∅
  = (Main.HTTPException 500 "Analysis failed: error",
     <["/tmp/tmpk3x9.png"%string := []]> ∅) /\
  (<["/tmp/tmpk3x9.png"%string := []]> (∅ : gmap string (list Byte.byte)))
    !! "/tmp/tmpk3x9.png"%string = Some [].
Proof.
  split.
  - apply (analyze_image_write_failure (services := failing_write_services)
             Main.png_upload [Byte.x89; Byte.x50; Byte.x4e; Byte.x47] ∅
             (<["/tmp/tmpk3x9.png"%string := []]> ∅)
             (<["/tmp/tmpk3x9.png"%string := []]> ∅)
             "/tmp/tmpk3x9.png"%string OSError);
      [reflexivity | reflexivity | vm_compute; discriminate
      | reflexivity | reflexivity | reflexivity].
  - apply lookup_insert_eq.
Defined.

Lemma analyze_image_decoder_failure_witness :
  Main.analyze_image (services := Main.ref_services) Main.empty_upload ∅
  = (Main.HTTPException 500 "Analysis failed: error",
     delete "/tmp/tmpk3x9.dcm"%string
       (<["/tmp/tmpk3x9.dcm"%string := []]>
          (<["/tmp/tmpk3x9.dcm"%string := []]> ∅))).
Proof.
  apply (analyze_image_decoder_failure (services := Main.ref_services)
           Main.empty_upload [] ∅
           (<["/tmp/tmpk3x9.dcm"%string := []]> ∅)
           (<["/tmp/tmpk3x9.dcm"%string := []]>
              (<["/tmp/tmpk3x9.dcm"%string := []]> ∅))
           (<["/tmp/tmpk3x9.dcm"%string := []]>
              (<["/tmp/tmpk3x9.dcm"%string := []]> ∅))
           "/tmp/tmpk3x9.dcm"%string OSError);
    [reflexivity | reflexivity | vm_compute; discriminate
    | reflexivity | reflexivity | reflexivity | vm_compute; reflexivity].
Defined.

Lemma parse_error_first_witness :
  Vision._parse_analysis_result (env := Vision.ref_environment)
    (Vision.JDict [("t_stage", Vision.JStr "T2");
                   ("error", Vision.JStr "Non-diagnostic image")]%string)
  = Vision.no_result "Non-diagnostic image".
Proof.
  apply (parse_error_first (env := Vision.ref_environment)); [reflexivity|].
  discriminate.
Defined.

Lemma parse_invalid_confidence_witness :
  Vision._parse_analysis_result (env := Vision.ref_environment)
    (Vision.JDict
       [("t_stage", Vision.JStr "T2");
        ("confidence_scores",
          Vision.JDict [("t_confidence", Vision.JFloat (F64.of_Z 2))])]%string)
  = Vision.no_result "Failed to parse analysis result: invalid value".
Proof.
  apply (parse_invalid_confidence (env := Vision.ref_environment) _
           [("t_confidence", Vision.JFloat (F64.of_Z 2))]%string
           "t_confidence"%string);
    try reflexivity.
  simpl. auto.
Defined.

Lemma parse_defaults_witness :
  Vision._parse_analysis_result (env := Vision.ref_environment)
    (Vision.JDict [("t_stage", Vision.JStr "T1b");
                   ("overall_stage", Vision.JStr "IA2")]%string)
  = {| Vision.t := Some "T1b"%string; Vision.n := None; Vision.m := None;
       Vision.stage := Some "IA2"%string;
       Vision.confidences := Vision.zero_scores; Vision.error := None |}.
Proof.
  apply (parse_defaults (env := Vision.ref_environment) _
           (Some "T1b"%string) None None (Some "IA2"%string));
    reflexivity.
Defined.

Lemma analyze_image_success_flag_witness :
  exists r,
    Main.analyze_image (services := analysed_services Vision.ref_environment)
      Main.png_upload ∅
    = (Main.Return {| Main.success := true; Main.response_data := r;
                      Main.message := "Analysis completed successfully" |},
       delete "/tmp/tmpk3x9.png"%string
         (<["/tmp/tmpk3x9.png"%string := [Byte.x89; Byte.x50; Byte.x4e; Byte.x47]]>
            (<["/tmp/tmpk3x9.png"%string := []]> ∅))) /\
    Vision.stage r = None /\
    Vision.error r = Some "Analysis failed: Connection error."%string.
Proof.
  destruct (analyze_image_success_flag (env := Vision.ref_environment)
              (services := analysed_services Vision.ref_environment)
              Main.png_upload [Byte.x89; Byte.x50; Byte.x4e; Byte.x47] ∅
              (<["/tmp/tmpk3x9.png"%string := []]> ∅)
              (<["/tmp/tmpk3x9.png"%string := [Byte.x89; Byte.x50; Byte.x4e; Byte.x47]]>
                 (<["/tmp/tmpk3x9.png"%string := []]> ∅))
              (<["/tmp/tmpk3x9.png"%string := [Byte.x89; Byte.x50; Byte.x4e; Byte.x47]]>
                 (<["/tmp/tmpk3x9.png"%string := []]> ∅))
              "/tmp/tmpk3x9.png"%string
              "data:image/png;base64,iVBORw=="%string)
    as (r & _ & Hrun & Hfail).
  - intros r Hr.
    unfold Main.vision_analyzer_analyze_ct_scan, analysed_services.
    rewrite Hr. reflexivity.
  - reflexivity.
  - reflexivity.
  - vm_compute. discriminate.
  - reflexivity.
  - reflexivity.
  - reflexivity.
  - vm_compute. reflexivity.
  - exists r. split; [exact Hrun|].
    apply (Hfail "system" "analyse" (Vision.OpenAIError "Connection error."))%string;
      reflexivity.
Defined.

Lemma temporary_name_classified_by_upload_witness :
  _is_dicom_file (lib := ref_library) "/tmp/tmpk3x9.dcm" [] = (Ok true, []) /\
  snd (splitext "/var/tmp.d/tmpk3x9.png") = ".png".
Proof.
  assert (H1 : "tmpk3x9"%string <> EmptyString) by discriminate.
  split.
  - destruct (temporary_name_classified_by_upload (lib := ref_library)
                Main.empty_upload "/tmp" "tmpk3x9" [] H1 eq_refl eq_refl)
      as (_ & Hfast & _).
    apply Hfast. reflexivity.
  - destruct (temporary_name_classified_by_upload (lib := ref_library)
                Main.png_upload "/var/tmp.d" "tmpk3x9" [] H1 eq_refl eq_refl)
      as (Hext & _ & _).
    exact Hext.
Defined.

Lemma read_dicom_raises_witness :
  _read_dicom (lib := ext_library) "/data/none.dcm" []
  = (Raise InvalidDicomError, [Read_dicom "/data/none.dcm" false]) /\
  _read_dicom (lib := ext_library) "/data/empty_width.dcm" []
  = (Raise TypeError, [Read_dicom "/data/empty_width.dcm" false]).
Proof.
  split.
  - destruct (read_dicom_raises (lib := ext_library) "/data/none.dcm" [])
      as (Hread & _).
    apply (Hread InvalidDicomError). reflexivity.
  - destruct (read_dicom_raises (lib := ext_library)
                "/data/empty_width.dcm" []) as (_ & _ & _ & Hnone).
    apply (Hnone empty_width_dataset ct_pixels ct_pixels
             (DS_single (F64.of_Z 40)) DS_none);
      try reflexivity.
    right. reflexivity.
Defined.

Lemma get_image_metadata_failure_witness :
  fst (get_image_metadata (lib := ref_library) (mlib := ref_metadata_library)
         "/data/missing.dcm" [])
  = Ok {["error"%string := Meta_str "No such file or directory"]}.
Proof.
  destruct (get_image_metadata_failure (lib := ref_library)
              (mlib := ref_metadata_library) "/data/missing.dcm" [])
    as (_ & Hsize & _).
  apply (Hsize OSError). reflexivity.
Defined.

Lemma analyze_ct_scan_outcomes_witness :
  Vision.analyze_ct_scan (env := Vision.ref_environment) true "data:lost"
  = Vision.Done (Vision.no_result "Analysis failed: Connection error.").
Proof.
  pose proof (analyze_ct_scan_outcomes (env := Vision.ref_environment)
                true "data:lost") as H.
  destruct (Vision.analyze_ct_scan (env := Vision.ref_environment)
              true "data:lost") as [r|e].
  - destruct H as (_ & _ & Hfail & _).
    rewrite (Hfail "system"%string "analyse"%string
               (Vision.OpenAIError "Connection error.")
               eq_refl eq_refl eq_refl).
    reflexivity.
  - destruct H as (Hclient & _). discriminate Hclient.
Defined.

Lemma build_enhanced_system_prompt_extends_witness :
  Prompt.build_enhanced_system_prompt (Prompt._load_yaml (Raise OSError))
  = "You are a thoracic radiologist specializing in NSCLC staging."%string.
Proof.
  destruct (build_enhanced_system_prompt_extends
              (Prompt._load_yaml (Raise OSError))) as (_ & Hplain).
  apply Hplain; reflexivity.
Defined.

Lemma analyze_image_outcomes_witness :
  Main.analyze_image (services := Main.ref_services) Main.unreadable_upload ∅
  = (Main.Unhandled OSError, ∅).
Proof.
  destruct (analyze_image_outcomes (services := Main.ref_services)
              Main.unreadable_upload ∅) as (_ & Hread & _).
  apply (Hread OSError); reflexivity.
Defined.
